(** * CSV-to-Elasticsearch indexing scripts: a shallow embedding

    The repository holds four Python scripts that read tabular data and load
    it into an Elasticsearch index:

    - [index_elastic.py]: the mortality-records pipeline (pandas based
      normalisation, curated mapping, bulk load);
    - [dadospop.py]: a generic CSV loader with a mapping derived from the
      first record;
    - [indexador_streamlit.py]: the same loader behind an upload form;
    - [index_estados.py]: the loader of the fixed table of states.

    The scripts are embedded function by function.  The libraries they call
    (pandas, chardet, csv, the Elasticsearch client) are modelled by the part
    of their behaviour that the scripts rely on; what a library decides from
    data outside the program (the bytes of a file, the answer of the search
    engine) is a variable of the section that uses it. *)

From Stdlib Require Import ZArith Ascii String DecimalString Lia.
From stdpp Require Import base option list strings gmap fin_maps.

Local Open Scope string_scope.
Local Open Scope list_scope.

(** ** Python: exceptions and results

    A [dict] is a finite map ([gmap]); the order in which Python keeps the
    keys is not observed by the scripts. *)

Module Py.

(** The exceptions that the modelled library calls can raise. *)
Inductive exn : Type :=
| KeyError (key : string)
| FileNotFoundError (path : string)
| UnicodeDecodeError
| LookupError (encoding : string)
| ParserError
| NotFoundError (index : string)
| RequestError (index : string)
| TransportError.

(** A computation that either raises or returns. *)
Inductive result (A : Type) : Type :=
| Raise (e : exn)
| Ok (a : A).
Arguments Raise {A} e.
Arguments Ok {A} a.

(** Sequencing: the first exception raised ends the computation. *)
#[global] Instance result_ret : MRet result := fun A a => Ok a.
#[global] Instance result_bind : MBind result := fun A B f x =>
  match x with
  | Raise e => Raise e
  | Ok a => f a
  end.

(** What a script's entry point does: it returns, or it ends the process
    through [exit(code)]. *)
Inductive outcome (A : Type) : Type :=
| Returned (a : A)
| Exited (code : Z).
Arguments Returned {A} a.
Arguments Exited {A} code.

(** [try: body / except Exception as e: logger.error(...); exit(1)]. *)
Definition try_or_exit1 {A : Type} (body : result A) : outcome A :=
  match body with
  | Ok a => Returned a
  | Raise _ => Exited 1
  end.

End Py.

Import Py.

(** ** pandas: cell values, time stamps, date parsing *)

Module Pandas.

(** [pandas.Timestamp], to the second. *)
Record timestamp : Type := Timestamp {
  year : Z; month : Z; day : Z;
  hour : Z; minute : Z; second : Z
}.

(** The value of a cell of a [DataFrame], or of a field of a record.
    - [VNone] is Python's [None];
    - [VNaN] is the float not-a-number ([np.nan]);
    - [VNaT] is [pd.NaT], not-a-time;
    - [VBool b] is [True] or [False];
    - [VFloat m e] is a finite float, carried as the decimal [m * 10^e] it
      was read from (the scripts do no arithmetic on floats);
    - [VInf negative] is the infinite float, [inf] or [-inf];
    - [VGeo lat lon] is the dictionary [{'lat': lat, 'lon': lon}].
    The cells of the frame that [pd.read_csv] builds are texts, integers,
    booleans and floats, NaN standing for an empty cell; the other values
    come up in the steps after it. *)
Inductive value : Type :=
| VNone
| VNaN
| VNaT
| VStr (s : string)
| VBool (b : bool)
| VInt (z : Z)
| VFloat (m e : Z)
| VInf (negative : bool)
| VTimestamp (t : timestamp)
| VGeo (lat lon : value).

(** [pd.isna] on a scalar; a dictionary is never missing. *)
Definition isna (v : value) : bool :=
  match v with
  | VNone | VNaN | VNaT => true
  | _ => false
  end.

Definition notna (v : value) : bool := negb (isna v).

(** A number that is not missing: an integer or a float other than NaN. *)
Definition is_numeric (v : value) : bool :=
  match v with
  | VInt _ | VFloat _ _ | VInf _ => true
  | _ => false
  end.

(** *** Rendering numbers *)

Definition digit_char (n : Z) : ascii := ascii_of_N (Z.to_N (48 + n mod 10)).

(** [n] on exactly two, resp. four, decimal digits (Python's [%02d], [%04d]
    for numbers that fit). *)
Definition pad2 (n : Z) : string :=
  String (digit_char (n / 10)) (String (digit_char n) EmptyString).

Definition pad4 (n : Z) : string :=
  String (digit_char (n / 1000)) (String (digit_char (n / 100))
    (String (digit_char (n / 10)) (String (digit_char n) EmptyString))).

(** [str(z)] for an integer. *)
Definition str_of_int (z : Z) : string :=
  NilZero.string_of_int (Z.to_int z).

(** [Timestamp.isoformat()]: [YYYY-MM-DDTHH:MM:SS]. *)
Definition isoformat (t : timestamp) : string :=
  pad4 (year t) +:+ "-" +:+ pad2 (month t) +:+ "-" +:+ pad2 (day t) +:+ "T"
  +:+ pad2 (hour t) +:+ ":" +:+ pad2 (minute t) +:+ ":" +:+ pad2 (second t).

(** [NaT.isoformat()] is the string ["NaT"]. *)
Definition nat_isoformat : string := "NaT".

(** *** [pd.to_datetime(..., format="%d%m%Y", errors='coerce')]

    pandas compiles the format to the regular expression
    [(?P<d>3[0-1]|[1-2]\d|0[1-9]|[1-9]| [1-9])(?P<m>1[0-2]|0[1-9]|[1-9])(?P<Y>\d\d\d\d)],
    matches it at the start of the text with the usual leftmost-alternative
    backtracking, and then requires that the match covers the whole text. *)

Definition code (c : ascii) : Z := Z.of_N (N_of_ascii c).

Definition is_digit (c : ascii) : bool :=
  (48 <=? code c)%Z && (code c <=? 57)%Z.

Definition digit_val (c : ascii) : Z := code c - 48.

Definition in_range (lo hi : Z) (c : ascii) : bool :=
  is_digit c && (lo <=? digit_val c)%Z && (digit_val c <=? hi)%Z.

(** One alternative [a b] of two characters: the first one is fixed by
    [first], the second is a digit between [lo] and [hi]. *)
Definition alt2 (first : ascii -> bool) (lo hi : Z) (tens : ascii -> Z)
    (s : list ascii) : list (Z * list ascii) :=
  match s with
  | a :: b :: r =>
      if first a && in_range lo hi b then [(tens a * 10 + digit_val b, r)%Z] else []
  | _ => []
  end.

(** One alternative [[1-9]] of a single character. *)
Definition alt1 (s : list ascii) : list (Z * list ascii) :=
  match s with
  | a :: r => if in_range 1 9 a then [(digit_val a, r)] else []
  | _ => []
  end.

Definition is_char (c : ascii) (a : ascii) : bool := Ascii.eqb a c.

(** The ways [%d] can match a prefix, in the order the engine tries them. *)
Definition day_candidates (s : list ascii) : list (Z * list ascii) :=
  alt2 (is_char "3") 0 1 digit_val s
  ++ alt2 (in_range 1 2) 0 9 digit_val s
  ++ alt2 (is_char "0") 1 9 digit_val s
  ++ alt1 s
  ++ alt2 (is_char " ") 1 9 (fun _ => 0%Z) s.

(** The ways [%m] can match a prefix, in order. *)
Definition month_candidates (s : list ascii) : list (Z * list ascii) :=
  alt2 (is_char "1") 0 2 digit_val s
  ++ alt2 (is_char "0") 1 9 digit_val s
  ++ alt1 s.

(** [%Y]: exactly four digits. *)
Definition year_candidates (s : list ascii) : list (Z * list ascii) :=
  match s with
  | a :: b :: c :: d :: r =>
      if is_digit a && is_digit b && is_digit c && is_digit d
      then [(digit_val a * 1000 + digit_val b * 100 + digit_val c * 10
             + digit_val d, r)%Z]
      else []
  | _ => []
  end.

(** The first match of the whole expression: day, month, year and the text
    left over after the match. *)
Definition regex_match (s : list ascii) : option (Z * Z * Z * list ascii) :=
  head (flat_map (fun d =>
          flat_map (fun m =>
            map (fun y => (d.1, m.1, y.1, y.2)) (year_candidates m.2))
            (month_candidates d.2))
          (day_candidates s)).

Definition is_leap (y : Z) : bool :=
  (y mod 4 =? 0)%Z && (negb (y mod 100 =? 0)%Z || (y mod 400 =? 0)%Z).

Definition days_in_month (y m : Z) : Z :=
  match m with
  | 2 => if is_leap y then 29 else 28
  | 4 | 6 | 9 | 11 => 30
  | _ => 31
  end%Z.

(** [datetime.date(y, m, d)] exists. *)
Definition valid_date (y m d : Z) : bool :=
  (1 <=? y)%Z && (1 <=? m)%Z && (m <=? 12)%Z
  && (1 <=? d)%Z && (d <=? days_in_month y m)%Z.

(** Midnight of the day lies within what a nanosecond time stamp can hold:
    from 1677-09-22 to 2262-04-11. *)
Definition date_le (y1 m1 d1 y2 m2 d2 : Z) : bool :=
  (y1 <? y2)%Z
  || ((y1 =? y2)%Z && ((m1 <? m2)%Z || ((m1 =? m2)%Z && (d1 <=? d2)%Z))).

Definition in_bounds (y m d : Z) : bool :=
  date_le 1677 9 22 y m d && date_le y m d 2262 4 11.

(** Parsing one text; [None] is the failure that [errors='coerce'] turns
    into [NaT]. *)
Definition strptime (s : string) : option timestamp :=
  match regex_match (list_ascii_of_string s) with
  | Some (d, m, y, []) =>
      if valid_date y m d && in_bounds y m d
      then Some (Timestamp y m d 0 0 0)
      else None
  | _ => None
  end.

(** The integer that a float becomes when pandas casts a column of floats
    to 64-bit integers: the value with its fraction cut off.  (The cast cuts
    the double that stands for the decimal; the two have the same integer
    part for a cell of at most fifteen significant digits.) *)
Definition float_trunc (m e : Z) : Z :=
  if (0 <=? e)%Z then (m * 10 ^ e)%Z else (m ÷ 10 ^ (- e))%Z.

(** Parsing one cell.  Text is parsed as it is, and an integer through its
    decimal notation, which has no leading zero.  A float is the cell of a
    column of floats, which is what [pd.read_csv] builds from a column of
    numbers with an empty cell: pandas casts the column to integers first,
    NaN becoming NaT, and parses the decimal notation of the integers.  A
    float beyond the 64-bit range, or an infinite one, comes out of the cast
    as NaT or as a number of nineteen digits, which the format does not
    cover either.  A column of booleans is refused, which [errors='coerce']
    turns into NaT throughout; a dictionary is no date, and a missing value
    stays missing. *)
Definition to_datetime (v : value) : value :=
  match v with
  | VStr s => from_option VTimestamp VNaT (strptime s)
  | VInt z => from_option VTimestamp VNaT (strptime (str_of_int z))
  | VFloat m e =>
      from_option VTimestamp VNaT (strptime (str_of_int (float_trunc m e)))
  | VTimestamp t => VTimestamp t
  | VInf _ | VBool _ | VGeo _ _ | VNone | VNaN | VNaT => VNaT
  end.



(** *** Data frames *)

(** A [DataFrame]: [nrows] rows, and one series of cells per column name. *)
Record DataFrame : Type := {
  nrows : nat;
  columns : gmap string (list value)
}.

(** Every series has one cell per row. *)
Definition well_formed (df : DataFrame) : Prop :=
  map_Forall (fun _ s => length s = nrows df) (columns df).

(** [df[col]], which raises [KeyError] for a column that does not exist. *)
Definition getitem (col : string) (df : DataFrame) : result (list value) :=
  match columns df !! col with
  | Some s => Ok s
  | None => Raise (KeyError col)
  end.

(** [df[col] = series]: replaces the column or adds it. *)
Definition setitem (col : string) (s : list value) (df : DataFrame) : DataFrame :=
  {| nrows := nrows df; columns := <[col := s]> (columns df) |}.

(** [col in df.columns]. *)
Definition has_column (col : string) (df : DataFrame) : bool :=
  bool_decide (is_Some (columns df !! col)).

(** Row [i] as a record from column name to cell. *)
Definition row_at (df : DataFrame) (i : nat) : gmap string value :=
  (fun s => default VNone (s !! i)) <$> columns df.

(** [row[col]] inside a row-wise function. *)
Definition row_get (col : string) (row : gmap string value) : value :=
  default VNone (row !! col).

(** [df.apply(f, axis=1)]: the series of the images of the rows. *)
Definition apply_rows (f : gmap string value -> value) (df : DataFrame) : list value :=
  (fun i => f (row_at df i)) <$> seq 0 (nrows df).

(** The result of [Series.apply] is stored with a type inferred from the
    values: when they are all floats or [None], and one of them is a float,
    the series is a float series again, in which [None] reads as NaN. *)
Definition is_float_or_none (v : value) : bool :=
  match v with
  | VFloat _ _ | VInf _ | VNaN | VNone => true
  | _ => false
  end.

Definition is_float (v : value) : bool :=
  match v with
  | VFloat _ _ | VInf _ | VNaN => true
  | _ => false
  end.

Definition none_to_nan (v : value) : value :=
  match v with
  | VNone => VNaN
  | _ => v
  end.

Definition infer_objects (s : list value) : list value :=
  if forallb is_float_or_none s && existsb is_float s
  then none_to_nan <$> s
  else s.

(** [series.apply(f)]. *)
Definition series_apply (f : value -> value) (s : list value) : list value :=
  infer_objects (f <$> s).

(** [df.replace({np.nan: None, pd.NaT: None})], on one cell. *)
Definition replace_missing (v : value) : value :=
  match v with
  | VNaN | VNaT => VNone
  | _ => v
  end.

(** [df.to_dict(orient='records')]: one record per row, in row order. *)
Definition to_dict_records (df : DataFrame) : list (gmap string value) :=
  row_at df <$> seq 0 (nrows df).

End Pandas.

Import Pandas.

(** ** Elasticsearch: the cluster and the client library *)

Module Elastic.

(** A sub-field of a mapped field, such as [{"type": "keyword",
    "ignore_above": 256}]. *)
Record subfield : Type := {
  sub_type : string;
  ignore_above : option Z
}.

(** The mapping of one field: [{"type": ..., "format": ..., "fields": ...}];
    an absent key of the JSON object is [None], resp. the empty map. *)
Record field_mapping : Type := {
  ftype : string;
  fformat : option string;
  ffields : gmap string subfield
}.

Section Cluster.
(** [K] is the type of the field names, [Doc] the type of the documents,
    [Failure] what the engine reports about a rejected document. *)
Context {K : Type} `{Countable K} {Doc Failure : Type}.

(** The body of a create-index request, [{"mappings": {"properties": p}}],
    is given by [p]. *)
Definition body : Type := gmap K field_mapping.

(** An index: its mapping and the documents it holds. *)
Record index : Type := {
  idx_properties : body;
  idx_docs : list Doc
}.

(** The cluster maps index names to indices. *)
Definition cluster : Type := gmap string index.

(** [es.indices.exists(index=name)]. *)
Definition indices_exists (name : string) (es : cluster) : bool :=
  bool_decide (is_Some (es !! name)).

(** [es.indices.delete(index=name)]: deleting an index that does not exist
    is answered with 404. *)
Definition indices_delete (name : string) (es : cluster) : result cluster :=
  if indices_exists name es then Ok (delete name es)
  else Raise (NotFoundError name).

(** [es.indices.create(index=name, body=...)]: creating an index that
    exists is answered with 400, [resource_already_exists_exception]. *)
Definition indices_create (name : string) (b : body) (es : cluster)
    : result cluster :=
  if indices_exists name es then Raise (RequestError name)
  else Ok (<[name := {| idx_properties := b; idx_docs := [] |}]> es).

(** The delete-then-create sequence that every script's create function
    runs, with the body it has built. *)
Definition recreate (name : string) (b : body) (es : cluster) : result cluster :=
  es1 ← (if indices_exists name es then indices_delete name es else Ok es);
  indices_create name b es1.

(** An accepted document is stored in its index (which the engine creates
    on the fly when it is missing). *)
Definition store (name : string) (doc : Doc) (es : cluster) : cluster :=
  match es !! name with
  | Some idx =>
      <[name := {| idx_properties := idx_properties idx;
                   idx_docs := idx_docs idx ++ [doc] |}]> es
  | None => <[name := {| idx_properties := ∅; idx_docs := [doc] |}]> es
  end.

(** An action [{"_index": name, "_source": doc}]. *)
Definition action : Type := string * Doc.

(** *** [helpers.bulk(es, actions, raise_on_error=False)] *)

(** The engine decides on each document: [None] when it is indexed, the
    failure it reports otherwise.  [answers chunk] tells whether the
    request that carries [chunk] gets an answer at all. *)
Variable verdict : action -> option Failure.
Variable answers : list action -> bool.

(** Cutting the actions into chunks of [chunk_size]: a chunk is sent off
    when it is not empty and holds [chunk_size] actions, and the rest at
    the end. *)
Fixpoint chunk_actions (chunk_size : nat) (cur : list action)
    (actions : list action) : list (list action) :=
  match actions with
  | [] => match cur with [] => [] | _ => [cur] end
  | a :: rest =>
      match cur with
      | _ :: _ =>
          if (length cur =? chunk_size)%nat
          then cur :: chunk_actions chunk_size [a] rest
          else chunk_actions chunk_size (cur ++ [a]) rest
      | [] => chunk_actions chunk_size [a] rest
      end
  end.

(** One request: a pair [(ok, item)] per action of the chunk, and the
    accepted documents stored; a request without answer raises and leaves
    the cluster as it is. *)
Definition process_bulk_chunk (chunk : list action) (es : cluster)
    : result (list (bool * option Failure)) * cluster :=
  if answers chunk then
    (Ok ((fun a => (bool_decide (verdict a = None), verdict a)) <$> chunk),
     fold_left (fun es a =>
                  match verdict a with
                  | None => store a.1 a.2 es
                  | Some _ => es
                  end) chunk es)
  else (Raise TransportError, es).

(** The loop of [helpers.bulk] over the yielded pairs: it counts the
    successes and collects the items of the failures. *)
Definition tally (acc : nat * list Failure) (r : bool * option Failure)
    : nat * list Failure :=
  match r with
  | (true, _) => (S acc.1, acc.2)
  | (false, Some f) => (acc.1, acc.2 ++ [f])
  | (false, None) => acc
  end.

(** The chunks are sent one after the other; an exception ends the loop,
    and what the earlier chunks have stored stays stored. *)
Fixpoint bulk_chunks (chunks : list (list action)) (acc : nat * list Failure)
    (es : cluster) : result (nat * list Failure) * cluster :=
  match chunks with
  | [] => (Ok acc, es)
  | c :: rest =>
      match process_bulk_chunk c es with
      | (Ok pairs, es') => bulk_chunks rest (fold_left tally pairs acc) es'
      | (Raise e, es') => (Raise e, es')
      end
  end.

(** [helpers.bulk]: the pair (number of successes, list of failures), or the
    exception raised, and the cluster afterwards.  The chunks are cut by the
    number of actions; the limit on the bytes of a chunk, which only cuts
    some chunks earlier, is left out. *)
Definition bulk (chunk_size : nat) (actions : list action) (es : cluster)
    : result (nat * list Failure) * cluster :=
  bulk_chunks (chunk_actions chunk_size [] actions) (0%nat, []) es.

(** The default [chunk_size] of the library. *)
Definition default_chunk_size : nat := 500.

(** *** What an indexing function leaves behind *)

(** Log lines, by what they report. *)
Inductive log_entry : Type :=
| LogFailed (n : nat)        (* error: n documents failed *)
| LogIndexed (n : nat)       (* info: n documents indexed *)
| LogException (e : exn).    (* error: the exception caught *)

(** The effects of one call: the cluster afterwards, the log, the file
    written or offered, with its name and the failures dumped into it, and
    the exception that left the function, if any. *)
Record effects : Type := {
  eff_cluster : cluster;
  eff_log : list log_entry;
  eff_file : option (string * list Failure);
  eff_raised : option exn
}.

(** The body shared by the indexing functions of the scripts, which differ
    in the name of the file only:
[[
actions = [{"_index": index_name, "_source": doc} for doc in data]
response = helpers.bulk(es, actions, raise_on_error=False)
failed = response[1]
if failed:  log the number of failures; dump failed to the file
else:       log len(data)
]]
    [guarded] tells whether the body stands in [try ... except Exception],
    which logs the exception; without it the exception leaves the
    function. *)
Definition index_with (file_name : string) (guarded : bool)
    (chunk_size : nat) (es : cluster) (index_name : string)
    (data : list Doc) : effects :=
  let actions := (fun doc => (index_name, doc)) <$> data in
  match bulk chunk_size actions es with
  | (Ok response, es') =>
      let failed := response.2 in
      match failed with
      | _ :: _ =>
          {| eff_cluster := es';
             eff_log := [LogFailed (length failed)];
             eff_file := Some (file_name, failed);
             eff_raised := None |}
      | [] =>
          {| eff_cluster := es';
             eff_log := [LogIndexed (length data)];
             eff_file := None;
             eff_raised := None |}
      end
  | (Raise e, es') =>
      if guarded
      then {| eff_cluster := es'; eff_log := [LogException e];
              eff_file := None; eff_raised := None |}
      else {| eff_cluster := es'; eff_log := [];
              eff_file := None; eff_raised := Some e |}
  end.
End Cluster.

Arguments index : clear implicits.
Arguments index K {_ _} Doc.
Arguments cluster : clear implicits.
Arguments cluster K {_ _} Doc.
Arguments effects : clear implicits.
Arguments effects K {_ _} Doc Failure.

End Elastic.

Import Elastic.

(** ** index_elastic.py *)

Module IndexElastic.

(** What [chardet.detect] returns: [{'encoding': ..., 'confidence': ...}];
    the encoding is [None] when the detector has no guess.  The confidence
    is given in thousandths. *)
Record detection : Type := {
  det_encoding : option string;
  det_confidence : nat
}.

(** A normalised document: field name to value. *)
Definition document : Type := gmap string value.

(** [[
def convert_to_serializable(obj):
    if isinstance(obj, (datetime, pd.Timestamp)): return obj.isoformat()
    elif isinstance(obj, np.generic):             return obj.item()
    elif pd.isna(obj):                            return None
    return obj
]]
    [pd.NaT] is an instance of a subclass of [datetime], as a
    [pd.Timestamp] is, and its [isoformat()] is ["NaT"]. *)
Definition is_datetime (obj : value) : bool :=
  match obj with
  | VTimestamp _ | VNaT => true
  | _ => false
  end.

Definition obj_isoformat (obj : value) : string :=
  match obj with
  | VTimestamp t => isoformat t
  | _ => nat_isoformat
  end.

(** A number or a boolean may arrive as a numpy scalar; [item()] gives the
    Python value of the same value, which [value] does not tell apart.  The
    cells of a float series are handed to the function as Python floats, NaN
    included. *)
Definition is_np_generic (obj : value) : bool :=
  match obj with
  | VInt _ | VFloat _ _ | VInf _ | VBool _ => true
  | _ => false
  end.

Definition item (obj : value) : value := obj.

Definition convert_to_serializable (obj : value) : value :=
  if is_datetime obj then VStr (obj_isoformat obj)
  else if is_np_generic obj then item obj
  else if isna obj then VNone
  else obj.

Definition date_columns : list string :=
  ["DTOBITO"; "DTNASC"; "DTATESTADO"; "DTCADASTRO"; "DTRECEBIM"].

(** [[
for col in date_columns:
    df[col] = pd.to_datetime(df[col], format="%d%m%Y", errors='coerce')
]] *)
Fixpoint coerce_dates (cols : list string) (df : DataFrame) : result DataFrame :=
  match cols with
  | [] => Ok df
  | col :: rest =>
      s ← getitem col df;
      coerce_dates rest (setitem col (to_datetime <$> s) df)
  end.

(** [[
lambda row: {'lat': row['res_LATITUDE'], 'lon': row['res_LONGITUDE']}
            if pd.notna(row['res_LATITUDE']) and pd.notna(row['res_LONGITUDE'])
            else None
]] *)
Definition coordenadas (row : gmap string value) : value :=
  if notna (row_get "res_LATITUDE" row) && notna (row_get "res_LONGITUDE" row)
  then VGeo (row_get "res_LATITUDE" row) (row_get "res_LONGITUDE" row)
  else VNone.

Definition add_coordenadas (df : DataFrame) : DataFrame :=
  if has_column "res_LATITUDE" df && has_column "res_LONGITUDE" df
  then setitem "res_coordenadas" (apply_rows coordenadas df) df
  else df.

(** [lambda x: x.isoformat() if pd.notna(x) else None]. *)
Definition data_obito_of (x : value) : value :=
  if notna x then VStr (obj_isoformat x) else VNone.

Definition add_data_obito (df : DataFrame) : DataFrame :=
  match columns df !! "DTOBITO" with
  | Some s => setitem "data_obito" (series_apply data_obito_of s) df
  | None => setitem "data_obito" (repeat VNone (nrows df)) df
  end.

(** [[
for col in df.columns:
    df[col] = df[col].apply(convert_to_serializable)
]]
    Every column is replaced by its image. *)
Definition convert_columns (df : DataFrame) : DataFrame :=
  {| nrows := nrows df;
     columns := series_apply convert_to_serializable <$> columns df |}.

(** [df.replace({np.nan: None, pd.NaT: None}, inplace=True)]. *)
Definition replace_all (df : DataFrame) : DataFrame :=
  {| nrows := nrows df;
     columns := (fun s : list value => replace_missing <$> s) <$> columns df |}.

(** The body of [process_csv] from the frame that [pd.read_csv] returns. *)
Definition process_frame (df : DataFrame) : result (list document) :=
  df1 ← coerce_dates date_columns df;
  let df2 := add_coordenadas df1 in
  let df3 := add_data_obito df2 in
  let df4 := convert_columns df3 in
  let df5 := replace_all df4 in
  Ok (to_dict_records df5).

Section ProcessCsv.
(** The file system, the detector and the parser of pandas:
    - [open_rb path] reads the bytes of a file, or raises;
    - [chardet_detect raw] is the answer of the detector;
    - [parse raw codec] is the frame pandas builds from the bytes decoded
      with [codec] (with [delimiter=','] and [dtype={'HORAOBITO': 'str'}]),
      or the exception it raises. *)
Variable open_rb : string -> result (list Byte.byte).
Variable chardet_detect : list Byte.byte -> detection.
Variable parse : list Byte.byte -> string -> result DataFrame.

(** [pd.read_csv(file_path, encoding=encoding, ...)]: without an encoding
    pandas decodes as UTF-8. *)
Definition read_csv (file_path : string) (encoding : option string)
    : result DataFrame :=
  raw ← open_rb file_path;
  parse raw (default "utf-8" encoding).

(** [[
def process_csv(file_path):
    try:
        with open(file_path, 'rb') as f:
            result = chardet.detect(f.read())
            encoding = result['encoding']
        df = pd.read_csv(file_path, delimiter=',', encoding=encoding, ...)
        ...
        return df.to_dict(orient='records')
    except Exception as e:
        logger.error(...)
        exit(1)
]] *)
Definition process_csv (file_path : string) : outcome (list document) :=
  try_or_exit1 (
    raw ← open_rb file_path;
    let result := chardet_detect raw in
    let encoding := det_encoding result in
    df ← read_csv file_path encoding;
    process_frame df).
End ProcessCsv.

(** The curated mapping of [create_index]. *)
Definition typed (t : string) : field_mapping :=
  {| ftype := t; fformat := None; ffields := ∅ |}.

Definition date_field : field_mapping :=
  {| ftype := "date"; fformat := Some "yyyy-MM-dd'T'HH:mm:ss"; ffields := ∅ |}.

Definition properties : list (string * field_mapping) :=
  [
    ("ORIGEM", typed "integer"); ("TIPOBITO", typed "integer");
    ("DTOBITO", date_field); ("HORAOBITO", typed "keyword");
    ("NATURAL", typed "keyword"); ("CODMUNNATU", typed "keyword");
    ("DTNASC", date_field); ("IDADE", typed "integer");
    ("idade_obito_anos", typed "float");
    ("idade_obito_meses", typed "integer");
    ("idade_obito_dias", typed "integer");
    ("idade_obito_horas", typed "integer");
    ("idade_obito_mins", typed "integer"); ("SEXO", typed "integer");
    ("RACACOR", typed "integer"); ("ESTCIV", typed "integer");
    ("ESC", typed "integer"); ("ESC2010", typed "integer");
    ("SERIESCFAL", typed "keyword"); ("OCUP", typed "keyword");
    ("CODMUNRES", typed "keyword"); ("LOCOCOR", typed "integer");
    ("CODESTAB", typed "keyword"); ("ESTABDESCR", typed "keyword");
    ("CODMUNOCOR", typed "keyword"); ("IDADEMAE", typed "integer");
    ("ESCMAE", typed "integer"); ("ESCMAE2010", typed "integer");
    ("SERIESCMAE", typed "keyword"); ("OCUPMAE", typed "keyword");
    ("QTDFILVIVO", typed "integer"); ("QTDFILMORT", typed "integer");
    ("GRAVIDEZ", typed "integer"); ("SEMAGESTAC", typed "float");
    ("GESTACAO", typed "keyword"); ("PARTO", typed "integer");
    ("OBITOPARTO", typed "integer"); ("PESO", typed "float");
    ("TPMORTEOCO", typed "integer"); ("OBITOGRAV", typed "integer");
    ("OBITOPUERP", typed "integer"); ("ASSISTMED", typed "integer");
    ("EXAME", typed "integer"); ("CIRURGIA", typed "integer");
    ("NECROPSIA", typed "integer"); ("LINHAA", typed "keyword");
    ("LINHAB", typed "keyword"); ("LINHAC", typed "keyword");
    ("LINHAD", typed "keyword"); ("LINHAII", typed "keyword");
    ("CAUSABAS", typed "keyword"); ("CB_PRE", typed "keyword");
    ("COMUNSVOIM", typed "keyword"); ("DTATESTADO", date_field);
    ("CIRCOBITO", typed "integer"); ("ACIDTRAB", typed "keyword");
    ("FONTE", typed "keyword"); ("NUMEROLOTE", typed "keyword");
    ("TPPOS", typed "keyword"); ("DTINVESTIG", typed "keyword");
    ("CAUSABAS_O", typed "keyword"); ("DTCADASTRO", date_field);
    ("ATESTANTE", typed "keyword"); ("STCODIFICA", typed "keyword");
    ("CODIFICADO", typed "keyword"); ("VERSAOSIST", typed "keyword");
    ("VERSAOSCB", typed "keyword"); ("FONTEINV", typed "keyword");
    ("DTRECEBIM", date_field); ("ATESTADO", typed "keyword");
    ("DTRECORIGA", typed "keyword"); ("CAUSAMAT", typed "keyword");
    ("ESCMAEAGR1", typed "integer"); ("ESCFALAGR1", typed "integer");
    ("STDOEPIDEM", typed "keyword"); ("STDONOVA", typed "keyword");
    ("DIFDATA", typed "integer"); ("NUDIASOBCO", typed "integer");
    ("NUDIASOBIN", typed "integer"); ("DTCADINV", typed "keyword");
    ("TPOBITOCOR", typed "integer"); ("DTCONINV", typed "keyword");
    ("FONTES", typed "keyword"); ("TPRESGINFO", typed "keyword");
    ("TPNIVELINV", typed "keyword"); ("NUDIASINF", typed "keyword");
    ("DTCADINF", typed "keyword"); ("MORTEPARTO", typed "keyword");
    ("DTCONCASO", typed "keyword"); ("FONTESINF", typed "keyword");
    ("ALTCAUSA", typed "keyword"); ("CONTADOR", typed "integer");
    ("def_tipo_obito", typed "keyword"); ("def_sexo", typed "keyword");
    ("def_raca_cor", typed "keyword"); ("def_est_civil", typed "keyword");
    ("def_escol", typed "keyword"); ("def_loc_ocor", typed "keyword");
    ("def_escol_mae", typed "keyword"); ("def_gravidez", typed "keyword");
    ("def_gestacao", typed "keyword"); ("def_parto", typed "keyword");
    ("def_obito_parto", typed "keyword");
    ("def_obito_grav", typed "keyword");
    ("def_obito_puerp", typed "keyword");
    ("def_assist_med", typed "keyword"); ("def_exame", typed "keyword");
    ("def_cirurgia", typed "keyword"); ("def_necropsia", typed "keyword");
    ("def_circ_obito", typed "keyword"); ("def_acid_trab", typed "keyword");
    ("def_fonte", typed "keyword"); ("res_MUNNOME", typed "keyword");
    ("res_MUNNOMEX", typed "keyword"); ("res_AMAZONIA", typed "keyword");
    ("res_FRONTEIRA", typed "keyword"); ("res_CAPITAL", typed "keyword");
    ("res_MSAUDCOD", typed "keyword"); ("res_RSAUDCOD", typed "keyword");
    ("res_CSAUDCOD", typed "keyword"); ("res_ANOEXT", typed "keyword");
    ("res_SUCESSOR", typed "keyword"); ("res_LATITUDE", typed "float");
    ("res_LONGITUDE", typed "float"); ("res_ALTITUDE", typed "integer");
    ("res_AREA", typed "float"); ("res_codigo_adotado", typed "keyword");
    ("ocor_MUNNOME", typed "keyword"); ("ocor_MUNNOMEX", typed "keyword");
    ("ocor_AMAZONIA", typed "keyword"); ("ocor_FRONTEIRA", typed "keyword");
    ("ocor_CAPITAL", typed "keyword"); ("ocor_MSAUDCOD", typed "keyword");
    ("ocor_RSAUDCOD", typed "keyword"); ("ocor_CSAUDCOD", typed "keyword");
    ("ocor_ANOEXT", typed "keyword"); ("ocor_SUCESSOR", typed "keyword");
    ("ocor_LATITUDE", typed "float"); ("ocor_LONGITUDE", typed "float");
    ("ocor_ALTITUDE", typed "integer"); ("ocor_AREA", typed "float");
    ("ocor_codigo_adotado", typed "keyword");
    ("ocor_SIGLA_UF", typed "keyword"); ("ocor_CODIGO_UF", typed "integer");
    ("ocor_NOME_UF", typed "keyword"); ("res_SIGLA_UF", typed "keyword");
    ("res_CODIGO_UF", typed "integer"); ("res_NOME_UF", typed "keyword");
    ("ocor_REGIAO", typed "keyword"); ("res_REGIAO", typed "keyword");
    ("causabas_capitulo", typed "keyword");
    ("causabas_grupo", typed "keyword");
    ("causabas_categoria", typed "keyword");
    ("causabas_subcategoria", typed "keyword");
    ("ocor_coordenadas", typed "geo_point");
    ("res_coordenadas", typed "geo_point"); ("data_obito", date_field);
    ("dia_semana_obito", typed "keyword"); ("ano_obito", typed "integer");
    ("data_nasc", date_field); ("dia_semana_nasc", typed "keyword");
    ("ano_nasc", typed "integer"); ("idade_obito", typed "float");
    ("idade_obito_calculado", typed "float")
  ].

Definition mappings : gmap string field_mapping := list_to_map properties.

Section Indexing.
Context {Failure : Type}.
Variable verdict : string * document -> option Failure.
Variable answers : list (string * document) -> bool.

(** [create_index(es, index_name)]: delete if it exists, then create with
    the curated mapping. *)
Definition create_index (es : cluster string document) (index_name : string)
    : result (cluster string document) :=
  recreate index_name mappings es.

(** [index_data(es, index_name, data)]: the failures go to the file
    ["failed_docs.json"]. *)
Definition index_data (es : cluster string document) (index_name : string)
    (data : list document) : effects string document Failure :=
  index_with verdict answers "failed_docs.json" true default_chunk_size
    es index_name data.
End Indexing.

End IndexElastic.

(** ** dadospop.py *)

Module DadosPop.

(** A field of a record read by [csv.DictReader]: the text of the cell,
    [None] for a cell the row does not have, or under the key [None] the
    list of the cells beyond the header. *)
Inductive csv_value : Type :=
| Cell (s : string)
| Missing
| Extra (cells : list string).

(** A record; the key [None] is the [restkey] of the reader. *)
Definition record : Type := gmap (option string) csv_value.

(** One step of [DictReader.__next__] on a row that is not empty:
[[
    d = dict(zip(self.fieldnames, row))
    lf = len(self.fieldnames); lr = len(row)
    if lf < lr:   d[self.restkey] = row[lf:]
    elif lf > lr:
        for key in self.fieldnames[lr:]: d[key] = self.restval
]] *)
Definition dict_row (fieldnames row : list string) : record :=
  let d := fold_left (fun d kv => <[Some kv.1 := Cell kv.2]> d)
             (zip fieldnames row) (∅ : record) in
  let lf := length fieldnames in
  let lr := length row in
  if (lf <? lr)%nat then <[None := Extra (drop lf row)]> d
  else fold_left (fun d key => <[Some key := Missing]> d) (drop lr fieldnames) d.

(** [csv.DictReader] over the rows that [csv.reader] yields: the first row
    gives the field names, and rows without any cell (blank lines) are
    skipped. *)
Definition is_blank (row : list string) : bool :=
  match row with
  | [] => true
  | _ => false
  end.

Definition DictReader (rows : list (list string)) : list record :=
  match rows with
  | [] => []
  | fieldnames :: data =>
      dict_row fieldnames <$> filter (fun row => is_blank row = false) data
  end.

Section ParseCsvFile.
(** [csv_rows path]: the rows that [csv.reader] yields for the file opened
    as UTF-8 text, or the exception of opening or decoding it. *)
Variable csv_rows : string -> result (list (list string)).

(** [[
with open(filepath, mode="r", encoding="utf-8") as f:
    reader = csv.DictReader(f)
    records = [dict(row) for row in reader]
return records
]] *)
Definition parse_csv_file (filepath : string) : result (list record) :=
  rows ← csv_rows filepath;
  Ok ((fun row => row) <$> DictReader rows).
End ParseCsvFile.

(** The mapping of every field: analysed text, with a [keyword] sub-field
    that ignores values above 256. *)
Definition text_with_keyword : field_mapping :=
  {| ftype := "text"; fformat := None;
     ffields := {[ "keyword" := {| sub_type := "keyword";
                                   ignore_above := Some 256%Z |} ]} |}.

(** [[
properties = {}
for key in sample_record.keys():
    properties[key] = {"type": "text", "fields": {"keyword": {...}}}
]] *)
Definition build_properties {K V : Type} `{Countable K}
    (sample_record : gmap K V) : gmap K field_mapping :=
  fold_left (fun properties key => <[key := text_with_keyword]> properties)
    (fst <$> map_to_list sample_record) ∅.

Section Indexing.
Context {Failure : Type}.
Variable verdict : string * record -> option Failure.
Variable answers : list (string * record) -> bool.

(** [create_index(es, index_name, sample_record)]. *)
Definition create_index (es : cluster (option string) record)
    (index_name : string) (sample_record : record)
    : result (cluster (option string) record) :=
  recreate index_name (build_properties sample_record) es.

(** [index_csv_data(es, index_name, data)]: the failures go to
    [f"failed_docs_{index_name}.json"]. *)
Definition index_csv_data (es : cluster (option string) record)
    (index_name : string) (data : list record)
    : effects (option string) record Failure :=
  index_with verdict answers ("failed_docs_" +:+ index_name +:+ ".json")
    true default_chunk_size es index_name data.
End Indexing.

End DadosPop.

(** ** indexador_streamlit.py *)

Module Streamlit.

(** A record of [df.to_dict(orient="records")]. *)
Definition record : Type := gmap string value.

(** [[
properties = { col: {"type": "text", "fields": {"keyword": {...}}}
               for col in sample_record.keys() }
]] *)
Definition build_properties {K V : Type} `{Countable K}
    (sample_record : gmap K V) : gmap K field_mapping :=
  list_to_map ((fun col => (col, DadosPop.text_with_keyword))
                 <$> (fst <$> map_to_list sample_record)).

Section Indexing.
Context {Failure : Type}.
Variable verdict : string * record -> option Failure.
Variable answers : list (string * record) -> bool.

Definition create_index (es : cluster string record) (index_name : string)
    (sample_record : record) : result (cluster string record) :=
  recreate index_name (build_properties sample_record) es.

(** [index_data(es, index_name, records)]: no [try]; the failures are
    offered for download under [f"failed_docs_{index_name}.json"]. *)
Definition index_data (es : cluster string record) (index_name : string)
    (records : list record) : effects string record Failure :=
  index_with verdict answers ("failed_docs_" +:+ index_name +:+ ".json")
    false default_chunk_size es index_name records.
End Indexing.

End Streamlit.

(** ** index_estados.py *)

Module Estados.

Definition record : Type := gmap string string.

(** The mapping of [create_estados_index]. *)
Definition mappings : gmap string field_mapping :=
  {[ "cod" := IndexElastic.typed "keyword";
     "nome" := DadosPop.text_with_keyword;
     "sigla" := IndexElastic.typed "keyword" ]}.

Section Indexing.
Context {Failure : Type}.
Variable verdict : string * record -> option Failure.
Variable answers : list (string * record) -> bool.

Definition create_estados_index (es : cluster string record)
    (index_name : string) : result (cluster string record) :=
  recreate index_name mappings es.

Definition index_estados_data (es : cluster string record)
    (index_name : string) (data : list record)
    : effects string record Failure :=
  index_with verdict answers ("failed_docs_" +:+ index_name +:+ ".json")
    true default_chunk_size es index_name data.
End Indexing.

End Estados.

(** ** Vocabulary of the statements, and sample inputs *)

Module Samples.
Import IndexElastic.

(** What the last two steps of [process_csv] make of a cell. *)
Definition final_cell (v : value) : value :=
  replace_missing (convert_to_serializable v).

(** The text [DDMMYYYY] of a date. *)
Definition ddmmyyyy (y m d : Z) : string := pad2 d +:+ pad2 m +:+ pad4 y.

(** [%Y] reads the four digits of [y] back as [y], and nothing is left. *)
Definition year_read_back (y : Z) : bool :=
  match year_candidates (list_ascii_of_string (pad4 y)) with
  | [(y', [])] => (y' =? y)%Z
  | _ => false
  end.

(** Every column that [process_csv] coerces is there. *)
Definition has_date_columns (df : DataFrame) : bool :=
  forallb (fun c => has_column c df) date_columns.

(** Field [c] of record [i] of a result, and the number of its records. *)
Definition field_of (r : result (list document)) (i : nat) (c : string)
    : option value :=
  match r with
  | Ok docs => doc ← docs !! i; doc !! c
  | Raise _ => None
  end.

Definition count_of (r : result (list document)) : option nat :=
  match r with
  | Ok docs => Some (length docs)
  | Raise _ => None
  end.

(** The frame that [process_csv] turns into records, from the frame with
    the dates coerced. *)
Definition normalised (df1 : DataFrame) : DataFrame :=
  replace_all (convert_columns (add_data_obito (add_coordenadas df1))).

(** A frame of two rows: the first with a date of death that parses and both
    coordinates, the second with one that does not parse and no latitude. *)
Definition obitos : DataFrame :=
  {| nrows := 2;
     columns := list_to_map
       [("DTOBITO", [VStr "01012020"; VStr "99999999"]);
        ("DTNASC", [VStr "15031950"; VStr "02111962"]);
        ("DTATESTADO", [VStr "01012020"; VStr "03012020"]);
        ("DTCADASTRO", [VStr "05012020"; VStr "05012020"]);
        ("DTRECEBIM", [VStr "07012020"; VStr "07012020"]);
        ("IDADE", [VFloat 470 0; VNaN]);
        ("res_LATITUDE", [VFloat (-2355) (-2); VNaN]);
        ("res_LONGITUDE", [VFloat (-4663) (-2); VFloat (-4663) (-2)])] |}.

(** The same columns, with a latitude that is text. *)
Definition obitos_text_latitude : DataFrame :=
  {| nrows := 1;
     columns := list_to_map
       [("DTOBITO", [VStr "01012020"]);
        ("DTNASC", [VStr "15031950"]);
        ("DTATESTADO", [VStr "01012020"]);
        ("DTCADASTRO", [VStr "05012020"]);
        ("DTRECEBIM", [VStr "07012020"]);
        ("res_LATITUDE", [VStr "ignorado"]);
        ("res_LONGITUDE", [VFloat (-4663) (-2)])] |}.

(** The frame that pandas builds from a file whose date cells are all
    digits: the columns are columns of integers, in which the cell
    [01012020] is the number 1012020, and a column with an empty cell,
    here [DTNASC], is a column of floats. *)
Definition obitos_digits : DataFrame :=
  {| nrows := 2;
     columns := list_to_map
       [("DTOBITO", [VInt 1012020; VInt 99999999]);
        ("DTNASC", [VFloat 15031950 0; VNaN]);
        ("DTATESTADO", [VInt 1012020; VInt 3012020]);
        ("DTCADASTRO", [VInt 5012020; VInt 5012020]);
        ("DTRECEBIM", [VInt 7012020; VInt 7012020])] |}.

(** A frame without the column [DTRECEBIM]. *)
Definition obitos_without_dtrecebim : DataFrame :=
  {| nrows := 1;
     columns := list_to_map
       [("DTOBITO", [VStr "01012020"]);
        ("DTNASC", [VStr "15031950"]);
        ("DTATESTADO", [VStr "01012020"]);
        ("DTCADASTRO", [VStr "05012020"])] |}.

(** The codec that pandas decodes with: the encoding that the detector
    reports, or UTF-8 when it reports none. *)
Definition codec_used (chardet_detect : list Byte.byte -> detection)
    (raw : list Byte.byte) : string :=
  default "utf-8" (det_encoding (chardet_detect raw)).

(** A file system with the single file ["dados_obitos.csv"]. *)
Definition one_file (file_path : string) : result (list Byte.byte) :=
  if decide (file_path = "dados_obitos.csv") then Ok [Byte.x44; Byte.x54]
  else Raise (FileNotFoundError file_path).

(** A detector that is sure of UTF-8, and one that guesses Windows-1252
    with a confidence of 0.3. *)
Definition detects_utf8 (_ : list Byte.byte) : detection :=
  {| det_encoding := Some "utf-8"; det_confidence := 990 |}.

Definition guesses_windows_1252 (_ : list Byte.byte) : detection :=
  {| det_encoding := Some "Windows-1252"; det_confidence := 300 |}.

(** A parser for a file that is valid UTF-8 but holds a byte that
    Windows-1252 does not define; decoded as UTF-8 it gives [frame]. *)
Definition parses_utf8_only (frame : DataFrame) (_ : list Byte.byte)
    (codec : string) : result DataFrame :=
  if decide (codec = "utf-8") then Ok frame else Raise UnicodeDecodeError.

(** The data rows of a file: the rows after the header that hold at least
    one cell. *)
Definition data_rows (rows : list (list string)) : list (list string) :=
  filter (fun row => DadosPop.is_blank row = false) (tail rows).

(** A file of a header, two data rows and a blank line between them. *)
Definition estados_rows (_ : string) : result (list (list string)) :=
  Ok [["COD"; "NOME"; "SIGLA"]; ["12"; "Acre"; "AC"]; [];
      ["29"; "Bahia"; "BA"]].

(** An engine that rejects the documents with an odd number, and one that
    rejects everything; requests are always answered. *)
Definition rejects_odd (a : string * nat) : option string :=
  if Nat.even a.2 then None else Some "mapper_parsing_exception".

Definition rejects_all {Doc : Type} (_ : string * Doc) : option string :=
  Some "mapper_parsing_exception".

Definition always_answers {Doc : Type} (_ : list (string * Doc)) : bool := true.

(** A document whose date of death did not parse, and a CSV record. *)
Definition unparsed_doc : IndexElastic.document :=
  {[ "DTOBITO" := VStr "NaT" ]}.

Definition acre : DadosPop.record :=
  DadosPop.dict_row ["COD"; "NOME"; "SIGLA"] ["12"; "Acre"; "AC"].

Definition acre_estado : Estados.record :=
  {[ "cod" := "12"; "nome" := "Acre"; "sigla" := "AC" ]}.

End Samples.

Import Samples.

(** ** Python text

    A [string] stands for a Python [str] whose characters have code points
    below 256, one [ascii] per character (the table of states and the names
    of the columns are such texts). *)

Module PyStr.

(** The text of the one character of code point [n]. *)
Definition latin1 (n : nat) : string := String (ascii_of_nat n) "".

(** A line of a text: its characters and the newline. *)
Definition line (s : string) : string := s +:+ latin1 10.

(** [c.isspace()]: tab to carriage return, the four separators, the space,
    next line and the no-break space. *)
Definition isspace (c : ascii) : bool :=
  let n := nat_of_ascii c in
  ((9 <=? n)%nat && (n <=? 13)%nat) || ((28 <=? n)%nat && (n <=? 32)%nat)
  || (n =? 133)%nat || (n =? 160)%nat.

(** [c.lower()]: the capital letters are A to Z and, but for the
    multiplication sign, the characters 192 to 222. *)
Definition lower_char (c : ascii) : ascii :=
  let n := nat_of_ascii c in
  if ((65 <=? n)%nat && (n <=? 90)%nat)
     || ((192 <=? n)%nat && (n <=? 222)%nat && negb (n =? 215)%nat)
  then ascii_of_nat (n + 32)
  else c.

Fixpoint lower (s : string) : string :=
  match s with
  | EmptyString => EmptyString
  | String c s' => String (lower_char c) (lower s')
  end.

(** [s.lstrip()] and [s.rstrip()]. *)
Fixpoint lstrip (s : string) : string :=
  match s with
  | EmptyString => EmptyString
  | String c s' => if isspace c then lstrip s' else s
  end.

Fixpoint rstrip (s : string) : string :=
  match s with
  | EmptyString => EmptyString
  | String c s' =>
      match rstrip s' with
      | EmptyString => if isspace c then EmptyString else String c EmptyString
      | r => String c r
      end
  end.

(** [s.strip()]. *)
Definition strip (s : string) : string := rstrip (lstrip s).

(** [s.split(sep)] for a separator of one character: the pieces between the
    separators, of which there is always one at least. *)
Fixpoint split (sep : ascii) (s : string) : list string :=
  match s with
  | EmptyString => [EmptyString]
  | String c s' =>
      if Ascii.eqb c sep then EmptyString :: split sep s'
      else match split sep s' with
           | piece :: pieces => String c piece :: pieces
           | [] => [String c EmptyString]
           end
  end.

(** The number of occurrences of a character. *)
Fixpoint count_char (c : ascii) (s : string) : nat :=
  match s with
  | EmptyString => 0
  | String c' s' => (if Ascii.eqb c' c then 1 else 0) + count_char c s'
  end.

(** [dict(zip(keys, values))]: the pairs stop with the shorter list, and a
    key that comes again takes the later value. *)
Definition dict_zip (keys values : list string) : gmap string string :=
  fold_left (fun d kv => <[kv.1 := kv.2]> d) (zip keys values) ∅.

End PyStr.

Import PyStr.

(** ** index_estados.py: the table of states *)

Module IndexEstados.

(** The text [estados_data]. *)
Definition estados_data : string :=
    line ("COD,NOME,SIGLA") +:+
    line ("35,S" +:+ latin1 227 +:+ "o Paulo, SP") +:+
    line ("41,Paran" +:+ latin1 225 +:+ ", PR") +:+
    line ("42,Santa Catarina, SC") +:+
    line ("43,Rio Grande do Sul, RS") +:+
    line ("50,Mato Grosso do Sul, MS") +:+
    line ("11,Rond" +:+ latin1 244 +:+ "nia, RO") +:+
    line ("12,Acre, AC") +:+
    line ("13,Amazonas, AM") +:+
    line ("14,Roraima, RR") +:+
    line ("15,Par" +:+ latin1 225 +:+ ", PA") +:+
    line ("16,Amap" +:+ latin1 225 +:+ ", AP") +:+
    line ("17,Tocantins, TO") +:+
    line ("21,Maranh" +:+ latin1 227 +:+ "o, MA") +:+
    line ("24,Rio Grande do Norte, RN") +:+
    line ("25,Para" +:+ latin1 237 +:+ "ba, PB") +:+
    line ("26,Pernambuco, PE") +:+
    line ("27,Alagoas, AL") +:+
    line ("28,Sergipe, SE") +:+
    line ("29,Bahia, BA") +:+
    line ("31,Minas Gerais, MG") +:+
    line ("33,Rio de Janeiro, RJ") +:+
    line ("51,Mato Grosso, MT") +:+
    line ("52,Goi" +:+ latin1 225 +:+ "s, GO") +:+
    line ("53,Distrito Federal, DF") +:+
    line ("22,Piau" +:+ latin1 237 +:+ ", PI") +:+
    line ("23,Cear" +:+ latin1 225 +:+ ", CE") +:+
    line ("32,Esp" +:+ latin1 237 +:+ "rito Santo, ES").

(** [[
def parse_estados_data(data):
    lines = data.strip().split('\n')
    headers = [header.strip().lower() for header in lines[0].split(',')]
    records = []
    for line in lines[1:]:
        values = [value.strip() for value in line.split(',')]
        record = dict(zip(headers, values))
        records.append(record)
    return records
]]
    [split] gives one piece at least, so that [lines[0]] exists. *)
Definition headers_of (first : string) : list string :=
  (fun header => lower (strip header)) <$> split "," first.

Definition record_of (headers : list string) (line : string) : Estados.record :=
  let values := strip <$> split "," line in
  dict_zip headers values.

Definition parse_estados_data (data : string) : list Estados.record :=
  match split "010" (strip data) with
  | [] => []
  | first :: rest => record_of (headers_of first) <$> rest
  end.

End IndexEstados.

(** ** The entry points *)

Module Startup.

(** The exception that [connect_elastic] raises itself. *)
Inductive connect_exn : Type :=
| ValueError (message : string).

(** [[
def connect_elastic():
    try:
        es = Elasticsearch(["http://localhost:9200"], timeout=30)
        if not es.ping():
            raise ValueError("Conexão com Elasticsearch falhou")
        logger.info("Conectado ao Elasticsearch")
        return es
    except Exception as e:
        logger.error(...)
        exit(1)
]]
    [ping] tells whether the cluster answers; the client is the handle on
    the cluster, which the callers are given apart. *)
Definition connect_elastic (ping : bool) : outcome unit :=
  let body : connect_exn + unit :=
    if ping then inr tt
    else inl (ValueError ("Conex" +:+ latin1 227
                          +:+ "o com Elasticsearch falhou")) in
  match body with
  | inr es => Returned es
  | inl _ => Exited 1
  end.

(** How a run of a script ends: at the end of [main], through [exit], or
    with an exception that nothing catches. *)
Inductive ending : Type :=
| Finished
| ExitedWith (code : Z)
| Crashed (e : exn).

Section Run.
Context {K : Type} `{Countable K} {Doc Failure : Type}.

(** A run of a script: the cluster it leaves, how it ends, the effects of
    the indexing function when it was reached, and whether the warning about
    an empty file was logged. *)
Record run : Type := {
  run_cluster : cluster K Doc;
  run_ending : ending;
  run_index : option (effects K Doc Failure);
  run_warning : bool
}.

(** A run that stops before the indexing function. *)
Definition stopped (es : cluster K Doc) (how : ending) : run :=
  {| run_cluster := es; run_ending := how; run_index := None;
     run_warning := false |}.

(** A run that reaches the end of the indexing function. *)
Definition indexed (eff : effects K Doc Failure) : run :=
  {| run_cluster := eff_cluster eff;
     run_ending := match eff_raised eff with
                   | Some e => Crashed e
                   | None => Finished
                   end;
     run_index := Some eff; run_warning := false |}.
End Run.

Arguments run : clear implicits.
Arguments run K {_ _} Doc Failure.

End Startup.

Import Startup.

Module IndexElasticMain.
Import IndexElastic.

Section Main.
Context {Failure : Type}.
Variable ping : bool.
Variable open_rb : string -> result (list Byte.byte).
Variable chardet_detect : list Byte.byte -> detection.
Variable parse : list Byte.byte -> string -> result DataFrame.
Variable verdict : string * document -> option Failure.
Variable answers : list (string * document) -> bool.

(** [[
def main():
    es = connect_elastic()
    index_name = "obitos"
    create_index(es, index_name)
    data = process_csv("dados_obitos.csv")
    index_data(es, index_name, data)
]] *)
Definition main (es : cluster string document) : run string document Failure :=
  match connect_elastic ping with
  | Exited code => stopped es (ExitedWith code)
  | Returned _ =>
      let index_name := "obitos" in
      match create_index es index_name with
      | Raise e => stopped es (Crashed e)
      | Ok es1 =>
          match process_csv open_rb chardet_detect parse "dados_obitos.csv" with
          | Exited code => stopped es1 (ExitedWith code)
          | Returned data =>
              indexed (index_data verdict answers es1 index_name data)
          end
      end
  end.
End Main.

End IndexElasticMain.

Module DadosPopMain.
Import DadosPop.

Definition CSV_FILE_PATH : string := "c2228.csv".

Section Main.
Context {Failure : Type}.
Variable ping : bool.
Variable csv_rows : string -> result (list (list string)).
Variable verdict : string * record -> option Failure.
Variable answers : list (string * record) -> bool.

(** [[
def main():
    es = connect_elastic()
    index_name = "dados_csv"
    records = parse_csv_file(CSV_FILE_PATH)
    if records:
        create_index(es, index_name, records[0])
        index_csv_data(es, index_name, records)
    else:
        logger.warning("Nenhum registro encontrado para indexar.")
]] *)
Definition main (es : cluster (option string) record)
    : run (option string) record Failure :=
  match connect_elastic ping with
  | Exited code => stopped es (ExitedWith code)
  | Returned _ =>
      let index_name := "dados_csv" in
      match parse_csv_file csv_rows CSV_FILE_PATH with
      | Raise e => stopped es (Crashed e)
      | Ok [] =>
          {| run_cluster := es; run_ending := Finished; run_index := None;
             run_warning := true |}
      | Ok (first :: rest) =>
          let records := first :: rest in
          match create_index es index_name first with
          | Raise e => stopped es (Crashed e)
          | Ok es1 => indexed (index_csv_data verdict answers es1 index_name records)
          end
      end
  end.
End Main.

End DadosPopMain.

Module IndexEstadosMain.
Import Estados IndexEstados.

Section Main.
Context {Failure : Type}.
Variable ping : bool.
Variable verdict : string * Estados.record -> option Failure.
Variable answers : list (string * Estados.record) -> bool.

(** [[
def main():
    es = connect_elastic()
    index_name = "estados"
    create_estados_index(es, index_name)
    estados_records = parse_estados_data(estados_data)
    index_estados_data(es, index_name, estados_records)
]] *)
Definition main (es : cluster string Estados.record)
    : run string Estados.record Failure :=
  match connect_elastic ping with
  | Exited code => stopped es (ExitedWith code)
  | Returned _ =>
      let index_name := "estados" in
      match create_estados_index es index_name with
      | Raise e => stopped es (Crashed e)
      | Ok es1 =>
          let estados_records := parse_estados_data estados_data in
          indexed (index_estados_data verdict answers es1 index_name
                     estados_records)
      end
  end.
End Main.

End IndexEstadosMain.

(** ** More vocabulary and sample inputs *)

Module MoreSamples.

(** What the answered requests for the actions leave in the cluster: the
    accepted documents, stored one after the other. *)
Definition stored {K : Type} `{Countable K} {Doc Failure : Type}
    (verdict : string * Doc -> option Failure)
    (actions : list (string * Doc)) (es : cluster K Doc) : cluster K Doc :=
  fold_left (fun es a => match verdict a with
                         | None => store a.1 a.2 es
                         | Some _ => es
                         end) actions es.

(** An engine that is down. *)
Definition never_answers {Doc : Type} (_ : list (string * Doc)) : bool := false.

(** A cluster that holds the index ["estados"] with one document. *)
Definition estados_cluster : cluster string Estados.record :=
  {[ "estados" := {| idx_properties := Estados.mappings;
                     idx_docs := [acre_estado] |} ]}.

(** The cluster with the index ["obitos"] created anew. *)
Definition emptied_obitos (es : cluster string IndexElastic.document)
    : cluster string IndexElastic.document :=
  <["obitos" := {| idx_properties := IndexElastic.mappings;
                   idx_docs := [] |}]> es.

(** The cluster with the index ["dados_csv"] created anew from a sample,
    and the one with the index ["estados"] created anew. *)
Definition emptied_dados_csv (sample_record : DadosPop.record)
    (es : cluster (option string) DadosPop.record)
    : cluster (option string) DadosPop.record :=
  <["dados_csv" := {| idx_properties := DadosPop.build_properties sample_record;
                      idx_docs := [] |}]> es.

Definition emptied_estados (es : cluster string Estados.record)
    : cluster string Estados.record :=
  <["estados" := {| idx_properties := Estados.mappings; idx_docs := [] |}]> es.

(** The run of dadospop.py on a file without data rows. *)
Definition warned {Failure : Type} (es : cluster (option string) DadosPop.record)
    : run (option string) DadosPop.record Failure :=
  {| run_cluster := es; run_ending := Finished; run_index := None;
     run_warning := true |}.

(** The records of the frame [obitos]. *)
Definition obitos_records : list IndexElastic.document :=
  match IndexElastic.process_frame obitos with
  | Ok docs => docs
  | Raise _ => []
  end.

(** A file that cannot be opened, a file with the header alone, and a file
    whose first data row is short of a cell and whose second has one too
    many. *)
Definition no_rows (filepath : string) : result (list (list string)) :=
  Raise (FileNotFoundError filepath).

Definition header_only (_ : string) : result (list (list string)) :=
  Ok [["COD"; "NOME"; "SIGLA"]; []].

Definition ragged_rows (_ : string) : result (list (list string)) :=
  Ok [["COD"; "NOME"; "SIGLA"]; ["12"; "Acre"]; ["29"; "Bahia"; "BA"; "NE"]].

(** The second record of the file [estados_rows]. *)
Definition bahia : DadosPop.record :=
  DadosPop.dict_row ["COD"; "NOME"; "SIGLA"] ["29"; "Bahia"; "BA"].

(** An engine that accepts every document. *)
Definition accepts_all {Doc : Type} (_ : string * Doc) : option string := None.

(** A cluster that holds the index ["obitos"] with one document. *)
Definition obitos_cluster : cluster string IndexElastic.document :=
  {[ "obitos" := {| idx_properties := IndexElastic.mappings;
                    idx_docs := [unparsed_doc] |} ]}.

(** The lines of the table of states after the first. *)
Definition estados_lines : list string :=
  tail (split "010" (strip IndexEstados.estados_data)).

End MoreSamples.

Import MoreSamples.

(** * Properties *)

(** ** Date parsing *)

(** A decimal digit is rendered by a digit character of that value. *)
Lemma digit_char_spec (n : Z) :
  is_digit (digit_char n) = true /\ digit_val (digit_char n) = (n mod 10)%Z.
Proof.
  unfold digit_char.
  assert (Hin : (n mod 10)%Z ∈ seqZ 0 10)
    by (apply elem_of_seqZ; pose proof (Z.mod_pos_bound n 10); lia).
  generalize dependent (n mod 10)%Z. intros k Hin.
  apply list_elem_of_In in Hin. cbv in Hin.
  repeat (destruct Hin as [<- | Hin]; [split; reflexivity |]).
  destruct Hin.
Qed.

(** The two-digit alternative of [%d] comes first and reads the day. *)
Lemma day_first (d : Z) (r : list ascii) :
  (1 <= d <= 31)%Z ->
  head (day_candidates (digit_char (d / 10) :: digit_char d :: r)) = Some (d, r).
Proof.
  intros Hd.
  assert (Hin : d ∈ seqZ 1 31) by (apply elem_of_seqZ; lia).
  apply list_elem_of_In in Hin. cbv in Hin.
  repeat (destruct Hin as [<- | Hin]; [reflexivity |]).
  destruct Hin.
Qed.

(** The two-digit alternative of [%m] comes first and reads the month. *)
Lemma month_first (m : Z) (r : list ascii) :
  (1 <= m <= 12)%Z ->
  head (month_candidates (digit_char (m / 10) :: digit_char m :: r)) = Some (m, r).
Proof.
  intros Hm.
  assert (Hin : m ∈ seqZ 1 12) by (apply elem_of_seqZ; lia).
  apply list_elem_of_In in Hin. cbv in Hin.
  repeat (destruct Hin as [<- | Hin]; [reflexivity |]).
  destruct Hin.
Qed.

Lemma year_read_back_all : forallb year_read_back (seqZ 1677 586) = true.
Proof. vm_compute. reflexivity. Qed.

(** [%Y] reads four digits back as the year they render (checked for the
    years that a time stamp can hold). *)
Lemma year_only (y : Z) :
  (1677 <= y <= 2262)%Z ->
  year_candidates (list_ascii_of_string (pad4 y)) = [(y, [])].
Proof.
  intros Hy.
  assert (Hin : y ∈ seqZ 1677 586) by (apply elem_of_seqZ; lia).
  pose proof (proj1 (forallb_forall _ _) year_read_back_all y
                (proj1 (list_elem_of_In _ _) Hin)) as Hc.
  unfold year_read_back in Hc.
  destruct (year_candidates _) as [|[y' [|? ?]] [|? ?]]; try discriminate.
  apply Z.eqb_eq in Hc. by subst.
Qed.

Lemma head_cons_inv {A : Type} (l : list A) (x : A) :
  head l = Some x -> exists l', l = x :: l'.
Proof. destruct l; [discriminate | intros [= ->]; eauto]. Qed.

(** The text [DDMMYYYY] is matched as a whole, and read as day, month, year. *)
Lemma regex_match_ddmmyyyy (y m d : Z) :
  (1 <= d <= 31)%Z -> (1 <= m <= 12)%Z -> (1677 <= y <= 2262)%Z ->
  regex_match (list_ascii_of_string (ddmmyyyy y m d)) = Some (d, m, y, []).
Proof.
  intros Hd Hm Hy.
  change (list_ascii_of_string (ddmmyyyy y m d))
    with (digit_char (d / 10) :: digit_char d :: digit_char (m / 10)
            :: digit_char m :: list_ascii_of_string (pad4 y)).
  unfold regex_match.
  destruct (head_cons_inv _ _
              (day_first d (digit_char (m / 10) :: digit_char m
                              :: list_ascii_of_string (pad4 y)) Hd)) as [ds ->].
  cbn [flat_map fst snd].
  destruct (head_cons_inv _ _ (month_first m (list_ascii_of_string (pad4 y)) Hm))
    as [ms ->].
  cbn [flat_map fst snd]. rewrite (year_only y Hy). reflexivity.
Qed.

(** Round trip: the text of a date that exists, and that a time stamp can
    hold, parses to that date at midnight. *)
Lemma strptime_ddmmyyyy (y m d : Z) :
  valid_date y m d = true -> in_bounds y m d = true ->
  strptime (ddmmyyyy y m d) = Some (Timestamp y m d 0 0 0).
Proof.
  intros Hv Hb. unfold strptime.
  assert (Hr : (1 <= d <= 31)%Z /\ (1 <= m <= 12)%Z /\ (1677 <= y <= 2262)%Z).
  { unfold valid_date in Hv. unfold in_bounds, date_le in Hb.
    assert ((days_in_month y m <= 31)%Z)
      by (unfold days_in_month; repeat case_match; lia).
    repeat (apply andb_prop in Hv as [Hv ?]).
    apply andb_prop in Hb as [Hlo Hhi].
    assert ((1677 <= y)%Z).
    { apply orb_prop in Hlo as [Hlo | Hlo]; [lia |].
      apply andb_prop in Hlo as [Hlo _]. lia. }
    assert ((y <= 2262)%Z).
    { apply orb_prop in Hhi as [Hhi | Hhi]; [lia |].
      apply andb_prop in Hhi as [Hhi _]. lia. }
    lia. }
  destruct Hr as (Hd & Hm & Hy).
  rewrite (regex_match_ddmmyyyy y m d Hd Hm Hy), Hv, Hb. reflexivity.
Qed.

(** The ISO text of a date at midnight. *)
Lemma isoformat_midnight (y m d : Z) :
  isoformat (Timestamp y m d 0 0 0)
  = pad4 y +:+ "-" +:+ pad2 m +:+ "-" +:+ pad2 d +:+ "T00:00:00".
Proof. reflexivity. Qed.

(** ** The steps of the frame pipeline *)

Lemma final_cell_none_to_nan (v : value) :
  final_cell (none_to_nan v) = final_cell v.
Proof. by destruct v. Qed.

(** The type inferred for the result of [Series.apply] does not show after
    the last two steps. *)
Lemma final_cell_infer_objects (l : list value) :
  final_cell <$> infer_objects l = final_cell <$> l.
Proof.
  unfold infer_objects. destruct (_ && _); [| done].
  rewrite <- list_fmap_compose. apply list_fmap_ext.
  intros _ v _. apply final_cell_none_to_nan.
Qed.

Lemma replace_infer_objects (l : list value) :
  replace_missing <$> infer_objects l = replace_missing <$> l.
Proof.
  unfold infer_objects. destruct (_ && _); [| done].
  rewrite <- list_fmap_compose. apply list_fmap_ext.
  intros _ v _. by destruct v.
Qed.

Lemma has_date_columns_spec (df : DataFrame) :
  has_date_columns df = true ->
  forall c, c ∈ IndexElastic.date_columns -> is_Some (columns df !! c).
Proof.
  unfold has_date_columns. rewrite forallb_forall. intros Hall c Hc.
  apply list_elem_of_In in Hc. specialize (Hall c Hc).
  unfold has_column in Hall. by apply bool_decide_eq_true in Hall.
Qed.

(** The loop over the date columns: it returns when every column is there,
    and then has parsed exactly these columns, cell by cell. *)
Lemma coerce_dates_ok (cols : list string) :
  forall df, NoDup cols ->
    (forall c, c ∈ cols -> is_Some (columns df !! c)) ->
    exists df1, IndexElastic.coerce_dates cols df = Ok df1
      /\ nrows df1 = nrows df
      /\ forall c, columns df1 !! c
           = if decide (c ∈ cols)
             then (fun s : list value => to_datetime <$> s) <$> columns df !! c
             else columns df !! c.
Proof.
  induction cols as [| col rest IH]; intros df Hnd Hall.
  - exists df. split; [done |]. split; [done |].
    intros c. case_decide as Hc; [| done].
    by apply elem_of_nil in Hc.
  - apply NoDup_cons in Hnd as [Hnotin Hnd].
    destruct (Hall col) as [s Hs]; [apply elem_of_cons; by left |].
    cbn [IndexElastic.coerce_dates]. unfold getitem. rewrite Hs. cbn.
    destruct (IH (setitem col (to_datetime <$> s) df) Hnd) as (df1 & Hrun & Hn & Hcols).
    { intros c Hc. cbn. apply lookup_insert_is_Some'. right.
      apply Hall, elem_of_cons. by right. }
    exists df1. split; [exact Hrun |]. split; [exact Hn |].
    intros c. rewrite Hcols. cbn.
    destruct (decide (c = col)) as [-> | Hne].
    + rewrite decide_False by done. rewrite decide_True by (apply elem_of_cons; by left).
      by rewrite lookup_insert_eq, Hs.
    + rewrite lookup_insert_ne by done.
      destruct (decide (c ∈ rest)) as [Hin | Hout].
      * by rewrite decide_True by (apply elem_of_cons; by right).
      * rewrite decide_False; [done |].
        intros [? | ?]%elem_of_cons; done.
Qed.

(** The loop raises [KeyError] at the first column that is not there. *)
Lemma coerce_dates_missing (cols : list string) :
  forall df c, c ∈ cols -> columns df !! c = None ->
    exists k, IndexElastic.coerce_dates cols df = Raise (KeyError k).
Proof.
  induction cols as [| col rest IH]; intros df c Hc Hnone.
  - by apply elem_of_nil in Hc.
  - cbn [IndexElastic.coerce_dates]. unfold getitem.
    destruct (columns df !! col) as [s |] eqn:Hs; cbn; [| by eexists].
    apply elem_of_cons in Hc as [-> | Hc]; [congruence |].
    apply (IH _ c Hc). cbn.
    rewrite lookup_insert_ne; [done |]. intros ->. congruence.
Qed.

Lemma date_columns_NoDup : NoDup IndexElastic.date_columns.
Proof. apply (bool_decide_unpack _). vm_compute. exact I. Qed.

Lemma process_frame_eq (df df1 : DataFrame) :
  IndexElastic.coerce_dates IndexElastic.date_columns df = Ok df1 ->
  IndexElastic.process_frame df = Ok (to_dict_records (normalised df1)).
Proof. intros Hrun. unfold IndexElastic.process_frame. by rewrite Hrun. Qed.

Lemma nrows_normalised (df1 : DataFrame) : nrows (normalised df1) = nrows df1.
Proof.
  unfold normalised, IndexElastic.add_data_obito, IndexElastic.add_coordenadas.
  cbn. repeat case_match; reflexivity.
Qed.

Lemma lookup_to_dict_records (df : DataFrame) (i : nat) (doc : gmap string value) :
  to_dict_records df !! i = Some doc <-> i < nrows df /\ doc = row_at df i.
Proof.
  unfold to_dict_records. rewrite list_lookup_fmap.
  destruct (seq 0 (nrows df) !! i) as [j |] eqn:Hj; cbn.
  - apply lookup_seq in Hj as [-> Hlt]. cbn. split.
    + intros [= <-]. done.
    + intros [_ ->]. done.
  - split; [done |]. intros [Hlt _].
    apply lookup_ge_None in Hj. rewrite length_seq in Hj. lia.
Qed.

Lemma length_to_dict_records (df : DataFrame) :
  length (to_dict_records df) = nrows df.
Proof. unfold to_dict_records. by rewrite length_fmap, length_seq. Qed.

(** A field of a record of the normalised frame, from the column of the
    frame as it is before the last two steps. *)
Lemma normalised_field (df1 : DataFrame) (i : nat) (c : string) :
  row_at (normalised df1) i !! c
  = (fun s : list value => default VNone (final_cell <$> s !! i))
      <$> columns (IndexElastic.add_data_obito (IndexElastic.add_coordenadas df1)) !! c.
Proof.
  unfold row_at, normalised. cbn. rewrite !lookup_fmap.
  destruct (columns _ !! c) as [s |]; cbn; [| done].
  f_equal. unfold series_apply.
  rewrite replace_infer_objects, <- list_fmap_compose, list_lookup_fmap.
  done.
Qed.

(** The two derived columns leave the others as they are. *)
Lemma derived_columns_other (df1 : DataFrame) (c : string) :
  c <> "data_obito" -> c <> "res_coordenadas" ->
  columns (IndexElastic.add_data_obito (IndexElastic.add_coordenadas df1)) !! c
  = columns df1 !! c.
Proof.
  intros H1 H2.
  unfold IndexElastic.add_data_obito, IndexElastic.add_coordenadas.
  repeat case_match; cbn; rewrite ?lookup_insert_ne by done; done.
Qed.

Lemma date_column_not_derived (c : string) :
  c ∈ IndexElastic.date_columns -> c <> "data_obito" /\ c <> "res_coordenadas".
Proof.
  intros Hc. split; intros ->; revert Hc;
    apply (bool_decide_unpack _); vm_compute; exact I.
Qed.

(** With its date columns a frame is processed to the end: the dates are
    coerced, and the records are those of the normalised frame. *)
Lemma process_frame_returns (df : DataFrame) :
  has_date_columns df = true ->
  exists df1,
    IndexElastic.process_frame df = Ok (to_dict_records (normalised df1))
    /\ nrows df1 = nrows df
    /\ forall c, columns df1 !! c
         = if decide (c ∈ IndexElastic.date_columns)
           then (fun s : list value => to_datetime <$> s) <$> columns df !! c
           else columns df !! c.
Proof.
  intros Hd.
  destruct (coerce_dates_ok IndexElastic.date_columns df date_columns_NoDup
              (has_date_columns_spec df Hd)) as (df1 & Hrun & Hn & Hcols).
  exists df1. split; [by apply process_frame_eq | done].
Qed.

(** A record of the result is a row of the normalised frame. *)
Lemma process_frame_record (df df1 : DataFrame) (i : nat) (doc : gmap string value) :
  nrows df1 = nrows df ->
  to_dict_records (normalised df1) !! i = Some doc ->
  i < nrows df /\ doc = row_at (normalised df1) i.
Proof.
  intros Hn Hdoc. apply lookup_to_dict_records in Hdoc as [Hlt ->].
  rewrite nrows_normalised, Hn in Hlt. done.
Qed.

(** The field of a date column: the cell parsed, then made serialisable. *)
Lemma date_field (df df1 : DataFrame) (i : nat) (c : string)
    (s : list value) (raw : value) :
  (forall c, columns df1 !! c
     = if decide (c ∈ IndexElastic.date_columns)
       then (fun s : list value => to_datetime <$> s) <$> columns df !! c
       else columns df !! c) ->
  c ∈ IndexElastic.date_columns ->
  columns df !! c = Some s -> s !! i = Some raw ->
  row_at (normalised df1) i !! c = Some (final_cell (to_datetime raw)).
Proof.
  intros Hcols Hc Hs Hraw.
  destruct (date_column_not_derived c Hc) as [H1 H2].
  rewrite normalised_field, derived_columns_other, Hcols by done.
  rewrite decide_True by done. rewrite Hs. cbn.
  by rewrite list_lookup_fmap, Hraw.
Qed.

Lemma final_cell_data_obito_of (x : value) :
  final_cell (IndexElastic.data_obito_of x) = IndexElastic.data_obito_of x.
Proof. unfold IndexElastic.data_obito_of. by destruct (notna x). Qed.

(** The field [data_obito]: the ISO text of the parsed date of death, or
    [None]. *)
Lemma data_obito_field (df df1 : DataFrame) (i : nat)
    (s : list value) (raw : value) :
  (forall c, columns df1 !! c
     = if decide (c ∈ IndexElastic.date_columns)
       then (fun s : list value => to_datetime <$> s) <$> columns df !! c
       else columns df !! c) ->
  columns df !! "DTOBITO" = Some s -> s !! i = Some raw ->
  row_at (normalised df1) i !! "data_obito"
  = Some (IndexElastic.data_obito_of (to_datetime raw)).
Proof.
  intros Hcols Hs Hraw. rewrite normalised_field.
  assert (Hdt : columns (IndexElastic.add_coordenadas df1) !! "DTOBITO"
                = Some (to_datetime <$> s)).
  { unfold IndexElastic.add_coordenadas. case_match; cbn;
      rewrite ?lookup_insert_ne by done; rewrite Hcols;
      (rewrite decide_True by (apply (bool_decide_unpack _); vm_compute; exact I));
      by rewrite Hs. }
  unfold IndexElastic.add_data_obito. rewrite Hdt. cbn.
  rewrite lookup_insert_eq. cbn. f_equal.
  unfold series_apply.
  rewrite <- list_lookup_fmap, final_cell_infer_objects, !list_lookup_fmap, Hraw.
  cbn. apply final_cell_data_obito_of.
Qed.

(** ** Dates (C1) *)

(** C1. Date normalisation, as the code does it. No cell of a date column
    makes the processing raise, and the text of a date [DDMMYYYY] becomes
    the ISO-8601 text [YYYY-MM-DDT00:00:00]: the text ["01012020"] becomes
    ["2020-01-01T00:00:00"], for the field itself and for [data_obito]. But
    the cell of a column that pandas has read as numbers is parsed from the
    notation of the number, which has no leading zero: the cell [01012020]
    of such a column is the number 1012020, and it becomes
    ["2020-01-10T00:00:00"], the tenth of January. And a cell that does not
    parse, such as [99999999], does not become [None]: the field is the text
    ["NaT"], and only [data_obito] is [None]. *)
Theorem C1_date_fields (df : DataFrame) :
  has_date_columns df = true ->
  exists docs, IndexElastic.process_frame df = Ok docs /\
    forall (i : nat) (doc : gmap string value) (c : string)
           (s : list value) (raw : value),
      docs !! i = Some doc -> c ∈ IndexElastic.date_columns ->
      columns df !! c = Some s -> s !! i = Some raw ->
      (forall y m d, valid_date y m d = true -> in_bounds y m d = true ->
         raw = VStr (ddmmyyyy y m d) ->
         doc !! c = Some (VStr (pad4 y +:+ "-" +:+ pad2 m +:+ "-" +:+ pad2 d
                                +:+ "T00:00:00")))
      /\ (raw = VStr "01012020" ->
          doc !! c = Some (VStr "2020-01-01T00:00:00")
          /\ (c = "DTOBITO" ->
              doc !! "data_obito" = Some (VStr "2020-01-01T00:00:00")))
      /\ (forall n, raw = VInt n \/ raw = VFloat n 0 ->
          doc !! c = Some (final_cell (to_datetime (VStr (str_of_int n)))))
      /\ (raw = VInt 1012020 \/ raw = VFloat 1012020 0 ->
          doc !! c = Some (VStr "2020-01-10T00:00:00")
          /\ (c = "DTOBITO" ->
              doc !! "data_obito" = Some (VStr "2020-01-10T00:00:00")))
      /\ (to_datetime raw = VNaT ->
          doc !! c = Some (VStr "NaT")
          /\ (c = "DTOBITO" -> doc !! "data_obito" = Some VNone))
      /\ (raw = VStr "99999999" \/ raw = VInt 99999999 ->
          doc !! c = Some (VStr "NaT") /\ doc !! c <> Some VNone).
Proof.
  intros Hd. destruct (process_frame_returns df Hd) as (df1 & Hrun & Hn & Hcols).
  eexists. split; [exact Hrun |].
  intros i doc c s raw Hdoc Hc Hs Hraw.
  apply (process_frame_record df) in Hdoc as [Hlt ->]; [| done].
  pose proof (date_field df df1 i c s raw Hcols Hc Hs Hraw) as Hfield.
  assert (Hobito : c = "DTOBITO" ->
            row_at (normalised df1) i !! "data_obito"
            = Some (IndexElastic.data_obito_of (to_datetime raw))).
  { intros ->. exact (data_obito_field df df1 i s raw Hcols Hs Hraw). }
  rewrite Hfield.
  split; [| split; [| split; [| split; [| split]]]].
  - intros y m d Hv Hb ->. cbn [to_datetime].
    by rewrite (strptime_ddmmyyyy y m d Hv Hb).
  - intros ->. split; [done |]. intros Hcol. by rewrite (Hobito Hcol).
  - intros n [-> | ->]; [done |]. cbn [to_datetime]. unfold float_trunc.
    change (0 <=? 0)%Z with true. cbn match. by rewrite Z.pow_0_r, Z.mul_1_r.
  - intros Hraw'. split.
    + by destruct Hraw' as [-> | ->].
    + intros Hcol. rewrite (Hobito Hcol). by destruct Hraw' as [-> | ->].
  - intros Hnat. split; [by rewrite Hnat |].
    intros Hcol. by rewrite (Hobito Hcol), Hnat.
  - intros Hraw'. split; by destruct Hraw' as [-> | ->].
Qed.

Lemma C1_date_fields_witness :
  has_date_columns obitos_digits = true /\
  exists docs, IndexElastic.process_frame obitos_digits = Ok docs /\
    forall (i : nat) (doc : gmap string value) (c : string)
           (s : list value) (raw : value),
      docs !! i = Some doc -> c ∈ IndexElastic.date_columns ->
      columns obitos_digits !! c = Some s -> s !! i = Some raw ->
      (forall y m d, valid_date y m d = true -> in_bounds y m d = true ->
         raw = VStr (ddmmyyyy y m d) ->
         doc !! c = Some (VStr (pad4 y +:+ "-" +:+ pad2 m +:+ "-" +:+ pad2 d
                                +:+ "T00:00:00")))
      /\ (raw = VStr "01012020" ->
          doc !! c = Some (VStr "2020-01-01T00:00:00")
          /\ (c = "DTOBITO" ->
              doc !! "data_obito" = Some (VStr "2020-01-01T00:00:00")))
      /\ (forall n, raw = VInt n \/ raw = VFloat n 0 ->
          doc !! c = Some (final_cell (to_datetime (VStr (str_of_int n)))))
      /\ (raw = VInt 1012020 \/ raw = VFloat 1012020 0 ->
          doc !! c = Some (VStr "2020-01-10T00:00:00")
          /\ (c = "DTOBITO" ->
              doc !! "data_obito" = Some (VStr "2020-01-10T00:00:00")))
      /\ (to_datetime raw = VNaT ->
          doc !! c = Some (VStr "NaT")
          /\ (c = "DTOBITO" -> doc !! "data_obito" = Some VNone))
      /\ (raw = VStr "99999999" \/ raw = VInt 99999999 ->
          doc !! c = Some (VStr "NaT") /\ doc !! c <> Some VNone).
Proof.
  split; [vm_compute; reflexivity |].
  apply (C1_date_fields obitos_digits). vm_compute. reflexivity.
Defined.

(** The frame [obitos_digits], field by field: the first of January has
    become the tenth, the date that does not parse and the empty cell are
    the text ["NaT"], and the float of [DTNASC] is read as the integer of
    the same value. *)
Lemma obitos_digits_fields :
  count_of (IndexElastic.process_frame obitos_digits) = Some 2
  /\ field_of (IndexElastic.process_frame obitos_digits) 0 "DTOBITO"
     = Some (VStr "2020-01-10T00:00:00")
  /\ field_of (IndexElastic.process_frame obitos_digits) 0 "data_obito"
     = Some (VStr "2020-01-10T00:00:00")
  /\ field_of (IndexElastic.process_frame obitos_digits) 1 "DTOBITO"
     = Some (VStr "NaT")
  /\ field_of (IndexElastic.process_frame obitos_digits) 1 "data_obito"
     = Some VNone
  /\ field_of (IndexElastic.process_frame obitos_digits) 0 "DTNASC"
     = Some (VStr "1950-03-15T00:00:00")
  /\ field_of (IndexElastic.process_frame obitos_digits) 1 "DTNASC"
     = Some (VStr "NaT")
  /\ field_of (IndexElastic.process_frame obitos_digits) 1 "DTATESTADO"
     = Some (VStr "2020-01-30T00:00:00").
Proof. repeat split; vm_compute; reflexivity. Qed.

(** The examples, on the parser alone. *)
Lemma strptime_examples :
  strptime "01012020" = Some (Timestamp 2020 1 1 0 0 0)
  /\ isoformat (Timestamp 2020 1 1 0 0 0) = "2020-01-01T00:00:00"
  /\ strptime "99999999" = None
  /\ str_of_int 1012020 = "1012020"
  /\ strptime "1012020" = Some (Timestamp 2020 1 10 0 0 0).
Proof. repeat split; vm_compute; reflexivity. Qed.

(** ** Missing values (C3) *)

(** No record holds a not-a-number, a not-a-time or a time stamp. *)
Lemma no_sentinel_left (df : DataFrame) (docs : list (gmap string value))
    (i : nat) (doc : gmap string value) (c : string) (v : value) :
  IndexElastic.process_frame df = Ok docs ->
  docs !! i = Some doc -> doc !! c = Some v ->
  v <> VNaN /\ v <> VNaT /\ forall t, v <> VTimestamp t.
Proof.
  unfold IndexElastic.process_frame.
  destruct (IndexElastic.coerce_dates _ df) as [e | df1] eqn:Hrun; [done |].
  cbn. intros [= <-] Hdoc Hv.
  change (to_dict_records (normalised df1) !! i = Some doc) in Hdoc.
  apply lookup_to_dict_records in Hdoc as [_ ->].
  rewrite normalised_field in Hv.
  destruct (columns _ !! c) as [s |]; [| done].
  cbn in Hv. injection Hv as <-.
  destruct (s !! i) as [x |]; cbn; [| done].
  destruct x; cbn; done.
Qed.

(** A cell of a date column that does not parse, or is missing, ends as the
    text ["NaT"]. *)
Lemma unparsed_date_field (df : DataFrame) :
  has_date_columns df = true ->
  exists docs, IndexElastic.process_frame df = Ok docs /\
    forall (i : nat) (doc : gmap string value) (c : string)
           (s : list value) (raw : value),
      docs !! i = Some doc -> c ∈ IndexElastic.date_columns ->
      columns df !! c = Some s -> s !! i = Some raw ->
      to_datetime raw = VNaT -> doc !! c = Some (VStr "NaT").
Proof.
  intros Hd. destruct (process_frame_returns df Hd) as (df1 & Hrun & Hn & Hcols).
  eexists. split; [exact Hrun |].
  intros i doc c s raw Hdoc Hc Hs Hraw Hnat.
  apply (process_frame_record df) in Hdoc as [Hlt ->]; [| done].
  by rewrite (date_field df df1 i c s raw Hcols Hc Hs Hraw), Hnat.
Qed.

(** C3. Missing values, at a date that does not parse. For the frame
    [obitos], whose second date of death is ["99999999"], the parsed value is
    missing, and the field of the record is the text ["NaT"], not [None];
    the missing age of the same row is [None]. *)
Theorem C3_unparsed_date_is_text :
  columns obitos !! "DTOBITO" = Some [VStr "01012020"; VStr "99999999"]
  /\ isna (to_datetime (VStr "99999999")) = true
  /\ IndexElastic.convert_to_serializable (to_datetime (VStr "99999999"))
     = VStr "NaT"
  /\ count_of (IndexElastic.process_frame obitos) = Some 2
  /\ field_of (IndexElastic.process_frame obitos) 1 "DTOBITO" = Some (VStr "NaT")
  /\ field_of (IndexElastic.process_frame obitos) 1 "DTOBITO" <> Some VNone
  /\ field_of (IndexElastic.process_frame obitos) 1 "IDADE" = Some VNone.
Proof.
  repeat split; try (vm_compute; reflexivity).
  vm_compute. discriminate.
Qed.

(** ** Geo points (C2) *)

Lemma lookup_apply_rows (f : gmap string value -> value) (df : DataFrame) (i : nat) :
  i < nrows df -> apply_rows f df !! i = Some (f (row_at df i)).
Proof.
  intros Hlt. unfold apply_rows.
  by rewrite list_lookup_fmap, lookup_seq_lt.
Qed.

Lemma final_cell_coordenadas (row : gmap string value) :
  final_cell (IndexElastic.coordenadas row) = IndexElastic.coordenadas row.
Proof. unfold IndexElastic.coordenadas. by case_match. Qed.

(** The field [res_coordenadas] of a frame that has both source columns. *)
Lemma coordenadas_field (df df1 : DataFrame) (i : nat) (lats lons : list value) :
  nrows df1 = nrows df ->
  (forall c, columns df1 !! c
     = if decide (c ∈ IndexElastic.date_columns)
       then (fun s : list value => to_datetime <$> s) <$> columns df !! c
       else columns df !! c) ->
  columns df !! "res_LATITUDE" = Some lats ->
  columns df !! "res_LONGITUDE" = Some lons ->
  i < nrows df ->
  let lat := default VNone (lats !! i) in
  let lon := default VNone (lons !! i) in
  row_at (normalised df1) i !! "res_coordenadas"
  = Some (if notna lat && notna lon then VGeo lat lon else VNone).
Proof.
  intros Hn Hcols Hlat Hlon Hlt lat lon.
  assert (Hlat1 : columns df1 !! "res_LATITUDE" = Some lats).
  { rewrite Hcols, decide_False; [done |].
    apply (bool_decide_unpack _). vm_compute. exact I. }
  assert (Hlon1 : columns df1 !! "res_LONGITUDE" = Some lons).
  { rewrite Hcols, decide_False; [done |].
    apply (bool_decide_unpack _). vm_compute. exact I. }
  rewrite normalised_field.
  unfold IndexElastic.add_data_obito, IndexElastic.add_coordenadas, has_column.
  rewrite !bool_decide_eq_true_2 by (rewrite ?Hlat1, ?Hlon1; eauto).
  cbn [andb].
  assert (Hgeo : forall s, columns (setitem "data_obito" s
                    (setitem "res_coordenadas"
                       (apply_rows IndexElastic.coordenadas df1) df1))
                    !! "res_coordenadas"
                 = Some (apply_rows IndexElastic.coordenadas df1)).
  { intros s. cbn. rewrite lookup_insert_ne by done. by rewrite lookup_insert_eq. }
  case_match; rewrite Hgeo; cbn;
    rewrite lookup_apply_rows by lia; cbn;
    rewrite final_cell_coordenadas;
    unfold IndexElastic.coordenadas, row_get, row_at;
    rewrite !lookup_fmap, Hlat1, Hlon1; done.
Qed.

(** Without one of the source columns no field is derived. *)
Lemma no_coordenadas_without_columns (df : DataFrame)
    (docs : list (gmap string value)) (i : nat) (doc : gmap string value) :
  has_date_columns df = true ->
  columns df !! "res_LATITUDE" = None \/ columns df !! "res_LONGITUDE" = None ->
  columns df !! "res_coordenadas" = None ->
  IndexElastic.process_frame df = Ok docs ->
  docs !! i = Some doc ->
  doc !! "res_coordenadas" = None.
Proof.
  intros Hd Hmissing Hnone Hrun Hdoc.
  destruct (process_frame_returns df Hd) as (df1 & Hrun1 & Hn & Hcols).
  rewrite Hrun1 in Hrun. injection Hrun as <-.
  apply (process_frame_record df) in Hdoc as [Hlt ->]; [| done].
  assert (Hsame : forall c, c ∉ IndexElastic.date_columns ->
                    columns df1 !! c = columns df !! c)
    by (intros c Hc; by rewrite Hcols, decide_False).
  assert (Hoff : IndexElastic.add_coordenadas df1 = df1).
  { unfold IndexElastic.add_coordenadas, has_column.
    rewrite !Hsame by (apply (bool_decide_unpack _); vm_compute; exact I).
    destruct Hmissing as [-> | ->];
      rewrite (bool_decide_eq_false_2 (is_Some None)) by (by intros [? ?]);
      by rewrite ?andb_false_r. }
  rewrite normalised_field, Hoff.
  unfold IndexElastic.add_data_obito.
  case_match; cbn; rewrite lookup_insert_ne by done;
    (rewrite Hsame by (apply (bool_decide_unpack _); vm_compute; exact I));
    by rewrite Hnone.
Qed.

(** C2 (amended). Geo points. For every row of a frame that has both
    source columns, the field [res_coordenadas] is the pair of the latitude
    and the longitude of the row exactly when neither cell is missing,
    whatever the type of the cells; when one of them is missing the field is
    [None], never a partial pair. *)
Theorem C2_geo_point (df : DataFrame) (lats lons : list value) :
  has_date_columns df = true ->
  columns df !! "res_LATITUDE" = Some lats ->
  columns df !! "res_LONGITUDE" = Some lons ->
  exists docs, IndexElastic.process_frame df = Ok docs /\
    length docs = nrows df /\
    forall (i : nat) (doc : gmap string value),
      docs !! i = Some doc ->
      let lat := default VNone (lats !! i) in
      let lon := default VNone (lons !! i) in
      ((exists a b, doc !! "res_coordenadas" = Some (VGeo a b))
       <-> notna lat = true /\ notna lon = true)
      /\ (notna lat = true /\ notna lon = true ->
          doc !! "res_coordenadas" = Some (VGeo lat lon))
      /\ (isna lat = true \/ isna lon = true ->
          doc !! "res_coordenadas" = Some VNone).
Proof.
  intros Hd Hlat Hlon.
  destruct (process_frame_returns df Hd) as (df1 & Hrun & Hn & Hcols).
  eexists. split; [exact Hrun |].
  split; [by rewrite length_to_dict_records, nrows_normalised |].
  intros i doc Hdoc lat lon.
  apply (process_frame_record df) in Hdoc as [Hlt ->]; [| done].
  rewrite (coordenadas_field df df1 i lats lons Hn Hcols Hlat Hlon Hlt).
  fold lat lon. unfold notna.
  destruct (isna lat), (isna lon); cbn;
    (split; [split; [intros (a & b & [=]) | intros [[=] [=]]]
            | split; [intros [[=] [=]] | intros [[=] | [=]]]]);
    eauto.
Qed.

Lemma C2_geo_point_witness :
  has_date_columns obitos = true /\
  columns obitos !! "res_LATITUDE" = Some [VFloat (-2355) (-2); VNaN] /\
  columns obitos !! "res_LONGITUDE"
    = Some [VFloat (-4663) (-2); VFloat (-4663) (-2)] /\
  exists docs, IndexElastic.process_frame obitos = Ok docs /\
    length docs = nrows obitos /\
    forall (i : nat) (doc : gmap string value),
      docs !! i = Some doc ->
      let lat := default VNone ([VFloat (-2355) (-2); VNaN] !! i) in
      let lon := default VNone ([VFloat (-4663) (-2); VFloat (-4663) (-2)] !! i) in
      ((exists a b, doc !! "res_coordenadas" = Some (VGeo a b))
       <-> notna lat = true /\ notna lon = true)
      /\ (notna lat = true /\ notna lon = true ->
          doc !! "res_coordenadas" = Some (VGeo lat lon))
      /\ (isna lat = true \/ isna lon = true ->
          doc !! "res_coordenadas" = Some VNone).
Proof.
  split; [vm_compute; reflexivity |].
  split; [vm_compute; reflexivity |].
  split; [vm_compute; reflexivity |].
  apply (C2_geo_point obitos); vm_compute; reflexivity.
Defined.

(** C2 as stated fails: a latitude that is text is not missing, so the
    record gets a pair although the latitude is no number. *)
Lemma C2_counterexample :
  columns obitos_text_latitude !! "res_LATITUDE" = Some [VStr "ignorado"]
  /\ columns obitos_text_latitude !! "res_LONGITUDE" = Some [VFloat (-4663) (-2)]
  /\ field_of (IndexElastic.process_frame obitos_text_latitude) 0 "res_coordenadas"
     = Some (VGeo (VStr "ignorado") (VFloat (-4663) (-2)))
  /\ ~ ((exists a b,
           field_of (IndexElastic.process_frame obitos_text_latitude) 0
             "res_coordenadas" = Some (VGeo a b))
        <-> is_numeric (VStr "ignorado") = true
            /\ is_numeric (VFloat (-4663) (-2)) = true).
Proof.
  assert (Hf : field_of (IndexElastic.process_frame obitos_text_latitude) 0
                 "res_coordenadas"
               = Some (VGeo (VStr "ignorado") (VFloat (-4663) (-2))))
    by (vm_compute; reflexivity).
  repeat split; try (vm_compute; reflexivity).
  rewrite Hf. intros [Hiff _].
  destruct Hiff as [Hnum _]; [eauto | discriminate Hnum].
Qed.

(** ** The whole of [process_csv] (C7, C8, C10) *)

(** Once the file is read, [process_csv] is the parser under the codec of
    the detector, followed by the frame pipeline, inside the handler. *)
Lemma process_csv_read
    (open_rb : string -> result (list Byte.byte))
    (chardet_detect : list Byte.byte -> IndexElastic.detection)
    (parse : list Byte.byte -> string -> result DataFrame)
    (file_path : string) (raw : list Byte.byte) :
  open_rb file_path = Ok raw ->
  IndexElastic.process_csv open_rb chardet_detect parse file_path
  = try_or_exit1 (df ← parse raw (codec_used chardet_detect raw);
                  IndexElastic.process_frame df).
Proof.
  intros Hopen. unfold IndexElastic.process_csv, IndexElastic.read_csv.
  rewrite Hopen. reflexivity.
Qed.

(** A file that cannot be read ends the process. *)
Lemma process_csv_unreadable
    (open_rb : string -> result (list Byte.byte))
    (chardet_detect : list Byte.byte -> IndexElastic.detection)
    (parse : list Byte.byte -> string -> result DataFrame)
    (file_path : string) (e : exn) :
  open_rb file_path = Raise e ->
  IndexElastic.process_csv open_rb chardet_detect parse file_path = Exited 1.
Proof.
  intros Hopen. unfold IndexElastic.process_csv. by rewrite Hopen.
Qed.

(** C7 (amended). Encoding detection. The codec handed to the parser is the
    encoding that the detector reports, whatever its confidence, and UTF-8
    only when the detector reports none. Nothing is tried a second time:
    when the parser raises under that codec, the handler ends the process
    with status 1. *)
Theorem C7_detected_encoding_is_used
    (open_rb : string -> result (list Byte.byte))
    (chardet_detect : list Byte.byte -> IndexElastic.detection)
    (parse : list Byte.byte -> string -> result DataFrame)
    (file_path : string) (raw : list Byte.byte) :
  open_rb file_path = Ok raw ->
  IndexElastic.process_csv open_rb chardet_detect parse file_path
    = try_or_exit1 (df ← parse raw (codec_used chardet_detect raw);
                    IndexElastic.process_frame df)
  /\ (forall name, IndexElastic.det_encoding (chardet_detect raw) = Some name ->
        codec_used chardet_detect raw = name)
  /\ (IndexElastic.det_encoding (chardet_detect raw) = None ->
        codec_used chardet_detect raw = "utf-8")
  /\ (forall detect',
        (forall r, IndexElastic.det_encoding (detect' r)
                   = IndexElastic.det_encoding (chardet_detect r)) ->
        IndexElastic.process_csv open_rb detect' parse file_path
        = IndexElastic.process_csv open_rb chardet_detect parse file_path)
  /\ (forall e, parse raw (codec_used chardet_detect raw) = Raise e ->
        IndexElastic.process_csv open_rb chardet_detect parse file_path
        = Exited 1).
Proof.
  intros Hopen.
  pose proof (process_csv_read open_rb chardet_detect parse file_path raw Hopen)
    as Hrun.
  split; [exact Hrun |].
  split; [intros name Hn; unfold codec_used; by rewrite Hn |].
  split; [intros Hn; unfold codec_used; by rewrite Hn |].
  split.
  - intros detect' Hsame.
    rewrite Hrun, (process_csv_read open_rb detect' parse file_path raw Hopen).
    unfold codec_used. by rewrite Hsame.
  - intros e He. rewrite Hrun, He. reflexivity.
Qed.

Lemma C7_detected_encoding_is_used_witness :
  one_file "dados_obitos.csv" = Ok [Byte.x44; Byte.x54] /\
  IndexElastic.process_csv one_file guesses_windows_1252
      (parses_utf8_only obitos) "dados_obitos.csv"
    = try_or_exit1 (df ← parses_utf8_only obitos [Byte.x44; Byte.x54]
                           (codec_used guesses_windows_1252 [Byte.x44; Byte.x54]);
                    IndexElastic.process_frame df)
  /\ (forall name,
        IndexElastic.det_encoding (guesses_windows_1252 [Byte.x44; Byte.x54])
          = Some name ->
        codec_used guesses_windows_1252 [Byte.x44; Byte.x54] = name)
  /\ (IndexElastic.det_encoding (guesses_windows_1252 [Byte.x44; Byte.x54]) = None ->
        codec_used guesses_windows_1252 [Byte.x44; Byte.x54] = "utf-8")
  /\ (forall detect',
        (forall r, IndexElastic.det_encoding (detect' r)
                   = IndexElastic.det_encoding (guesses_windows_1252 r)) ->
        IndexElastic.process_csv one_file detect' (parses_utf8_only obitos)
          "dados_obitos.csv"
        = IndexElastic.process_csv one_file guesses_windows_1252
            (parses_utf8_only obitos) "dados_obitos.csv")
  /\ (forall e,
        parses_utf8_only obitos [Byte.x44; Byte.x54]
          (codec_used guesses_windows_1252 [Byte.x44; Byte.x54]) = Raise e ->
        IndexElastic.process_csv one_file guesses_windows_1252
          (parses_utf8_only obitos) "dados_obitos.csv"
        = Exited 1).
Proof.
  split; [reflexivity |].
  apply (C7_detected_encoding_is_used one_file guesses_windows_1252
           (parses_utf8_only obitos) "dados_obitos.csv" [Byte.x44; Byte.x54]).
  reflexivity.
Defined.

(** C7 as stated fails: a guess of low confidence is not replaced by UTF-8,
    and when the parser raises under the guess the process ends, although
    the file parses as UTF-8. *)
Lemma C7_counterexample :
  IndexElastic.det_confidence (guesses_windows_1252 [Byte.x44; Byte.x54]) = 300
  /\ codec_used guesses_windows_1252 [Byte.x44; Byte.x54] = "Windows-1252"
  /\ codec_used guesses_windows_1252 [Byte.x44; Byte.x54] <> "utf-8"
  /\ parses_utf8_only obitos [Byte.x44; Byte.x54] "utf-8" = Ok obitos
  /\ count_of (IndexElastic.process_frame obitos) = Some 2
  /\ IndexElastic.process_csv one_file guesses_windows_1252
       (parses_utf8_only obitos) "dados_obitos.csv" = Exited 1.
Proof.
  repeat split; try (vm_compute; reflexivity).
  vm_compute. discriminate.
Qed.

(** C10. Missing date column. The five date columns are coerced without a
    test for their presence: when the frame read from the file lacks one of
    them, the look-up raises, the handler catches it, and the process ends
    with status 1; no record is produced. *)
Theorem C10_missing_date_column_exits
    (open_rb : string -> result (list Byte.byte))
    (chardet_detect : list Byte.byte -> IndexElastic.detection)
    (parse : list Byte.byte -> string -> result DataFrame)
    (file_path : string) (raw : list Byte.byte) (df : DataFrame) (c : string) :
  open_rb file_path = Ok raw ->
  parse raw (codec_used chardet_detect raw) = Ok df ->
  c ∈ IndexElastic.date_columns ->
  columns df !! c = None ->
  (exists k, IndexElastic.process_frame df = Raise (KeyError k))
  /\ IndexElastic.process_csv open_rb chardet_detect parse file_path = Exited 1.
Proof.
  intros Hopen Hparse Hc Hnone.
  destruct (coerce_dates_missing IndexElastic.date_columns df c Hc Hnone)
    as [k Hk].
  assert (Hframe : IndexElastic.process_frame df = Raise (KeyError k))
    by (unfold IndexElastic.process_frame; by rewrite Hk).
  split; [by exists k |].
  rewrite (process_csv_read open_rb chardet_detect parse file_path raw Hopen).
  rewrite Hparse.
  change (try_or_exit1 (IndexElastic.process_frame df) = Exited 1).
  by rewrite Hframe.
Qed.

Lemma C10_missing_date_column_exits_witness :
  one_file "dados_obitos.csv" = Ok [Byte.x44; Byte.x54] /\
  parses_utf8_only obitos_without_dtrecebim [Byte.x44; Byte.x54]
    (codec_used detects_utf8 [Byte.x44; Byte.x54]) = Ok obitos_without_dtrecebim /\
  "DTRECEBIM" ∈ IndexElastic.date_columns /\
  columns obitos_without_dtrecebim !! "DTRECEBIM" = None /\
  (exists k, IndexElastic.process_frame obitos_without_dtrecebim
             = Raise (KeyError k))
  /\ IndexElastic.process_csv one_file detects_utf8
       (parses_utf8_only obitos_without_dtrecebim) "dados_obitos.csv" = Exited 1.
Proof.
  assert (Hin : "DTRECEBIM" ∈ IndexElastic.date_columns)
    by (apply (bool_decide_unpack _); vm_compute; exact I).
  split; [reflexivity |]. split; [reflexivity |]. split; [exact Hin |].
  split; [vm_compute; reflexivity |].
  apply (C10_missing_date_column_exits one_file detects_utf8
           (parses_utf8_only obitos_without_dtrecebim) "dados_obitos.csv"
           [Byte.x44; Byte.x54] obitos_without_dtrecebim "DTRECEBIM");
    [reflexivity | reflexivity | exact Hin | vm_compute; reflexivity].
Defined.

(** C8. One record per row. [process_csv] returns as many records as the
    frame read from the file has rows, and [parse_csv_file] returns as many
    records as the file has data rows, the i-th record being made from the
    i-th data row. *)
Theorem C8_one_record_per_row :
  (forall (open_rb : string -> result (list Byte.byte))
          (chardet_detect : list Byte.byte -> IndexElastic.detection)
          (parse : list Byte.byte -> string -> result DataFrame)
          (file_path : string) (raw : list Byte.byte) (df : DataFrame),
     open_rb file_path = Ok raw ->
     parse raw (codec_used chardet_detect raw) = Ok df ->
     has_date_columns df = true ->
     exists docs,
       IndexElastic.process_csv open_rb chardet_detect parse file_path
         = Returned docs
       /\ length docs = nrows df
       /\ forall i, i < nrows df -> is_Some (docs !! i))
  /\ (forall (csv_rows : string -> result (list (list string)))
             (filepath : string) (rows : list (list string)),
        csv_rows filepath = Ok rows ->
        exists records,
          DadosPop.parse_csv_file csv_rows filepath = Ok records
          /\ length records = length (data_rows rows)
          /\ forall i row, data_rows rows !! i = Some row ->
               exists fieldnames, head rows = Some fieldnames
                 /\ records !! i = Some (DadosPop.dict_row fieldnames row)).
Proof.
  split.
  - intros open_rb chardet_detect parse file_path raw df Hopen Hparse Hd.
    destruct (process_frame_returns df Hd) as (df1 & Hrun & Hn & _).
    exists (to_dict_records (normalised df1)).
    rewrite (process_csv_read open_rb chardet_detect parse file_path raw Hopen).
    rewrite Hparse.
    assert (Hbind : (df' ← Ok df; IndexElastic.process_frame df')
                    = IndexElastic.process_frame df) by reflexivity.
    rewrite Hbind, Hrun. split; [reflexivity |].
    split; [by rewrite length_to_dict_records, nrows_normalised |].
    intros i Hlt. exists (row_at (normalised df1) i).
    apply lookup_to_dict_records. by rewrite nrows_normalised, Hn.
  - intros csv_rows filepath rows Hrows.
    unfold DadosPop.parse_csv_file. rewrite Hrows. cbn.
    eexists. split; [reflexivity |].
    unfold DadosPop.DictReader, data_rows.
    destruct rows as [| fieldnames data]; cbn.
    + split; [reflexivity |]. intros i row Hrow. by destruct i.
    + rewrite list_fmap_id, length_fmap. split; [reflexivity |].
      intros i row Hrow. exists fieldnames. split; [reflexivity |].
      by rewrite list_lookup_fmap, Hrow.
Qed.

Lemma C8_one_record_per_row_witness :
  (exists docs,
     IndexElastic.process_csv one_file detects_utf8 (parses_utf8_only obitos)
       "dados_obitos.csv" = Returned docs
     /\ length docs = 2
     /\ forall i, i < 2 -> is_Some (docs !! i))
  /\ (exists records,
        DadosPop.parse_csv_file estados_rows "c2228.csv" = Ok records
        /\ length records = 2
        /\ forall i row,
             [["12"; "Acre"; "AC"]; ["29"; "Bahia"; "BA"]] !! i = Some row ->
             exists fieldnames,
               Some ["COD"; "NOME"; "SIGLA"] = Some fieldnames
               /\ records !! i = Some (DadosPop.dict_row fieldnames row)).
Proof.
  destruct C8_one_record_per_row as [Hframe Hcsv]. split.
  - apply (Hframe one_file detects_utf8 (parses_utf8_only obitos)
             "dados_obitos.csv" [Byte.x44; Byte.x54] obitos);
      [reflexivity | reflexivity | vm_compute; reflexivity].
  - apply (Hcsv estados_rows "c2228.csv"
             [["COD"; "NOME"; "SIGLA"]; ["12"; "Acre"; "AC"]; [];
              ["29"; "Bahia"; "BA"]]).
    reflexivity.
Defined.

(** ** Bulk indexing (C4) *)

Section BulkFacts.
Context {K : Type} `{Countable K} {Doc Failure : Type}.
Variable verdict : string * Doc -> option Failure.
Variable answers : list (string * Doc) -> bool.

(** Chunking loses nothing, adds nothing and keeps the order. *)
Lemma concat_chunk_actions (chunk_size : nat) (actions : list (string * Doc)) :
  forall cur, concat (chunk_actions chunk_size cur actions) = cur ++ actions.
Proof.
  induction actions as [| a rest IH]; intros cur; cbn.
  - destruct cur; cbn; by rewrite ?app_nil_r.
  - destruct cur as [| c cs]; [apply IH |].
    destruct (_ =? _)%nat; cbn.
    + by rewrite IH.
    + rewrite IH. cbn. by rewrite <- app_assoc.
Qed.

(** The answers to one chunk, tallied. *)
Lemma tally_chunk (chunk : list (string * Doc)) :
  forall acc : nat * list Failure,
    fold_left tally
      ((fun a => (bool_decide (verdict a = None), verdict a)) <$> chunk) acc
    = (acc.1 + length (filter (fun a => verdict a = None) chunk),
       acc.2 ++ omap verdict chunk).
Proof.
  induction chunk as [| a rest IH]; intros [n failed].
  - cbn. by rewrite Nat.add_0_r, app_nil_r.
  - rewrite fmap_cons. cbn [fold_left]. rewrite IH, filter_cons.
    destruct (verdict a) as [f |] eqn:Hv.
    + rewrite decide_False by done. cbn. rewrite Hv. cbn.
      by rewrite <- app_assoc.
    + rewrite decide_True by done. cbn. rewrite Hv. cbn. f_equal. lia.
Qed.

Lemma accepted_plus_rejected (l : list (string * Doc)) :
  length (filter (fun a => verdict a = None) l) + length (omap verdict l)
  = length l.
Proof.
  induction l as [| a rest IH]; [done |].
  rewrite filter_cons.
  destruct (verdict a) eqn:Hv.
  - rewrite decide_False by done. cbn. rewrite Hv. cbn. lia.
  - rewrite decide_True by done. cbn. rewrite Hv. cbn. lia.
Qed.

(** The loop over the chunks: when it returns, it has counted the accepted
    actions and collected the failures of the others, in order. *)
Lemma bulk_chunks_outcome (chunks : list (list (string * Doc))) :
  forall (acc : nat * list Failure) (es es' : cluster K Doc)
         (n : nat) (failed : list Failure),
    bulk_chunks verdict answers chunks acc es = (Ok (n, failed), es') ->
    n = acc.1 + length (filter (fun a => verdict a = None) (concat chunks))
    /\ failed = acc.2 ++ omap verdict (concat chunks).
Proof.
  induction chunks as [| c rest IH]; intros [n0 failed0] es es' n failed.
  - cbn. intros [= <- <- <-]. by rewrite Nat.add_0_r, app_nil_r.
  - cbn [bulk_chunks]. unfold process_bulk_chunk.
    destruct (answers c); [| done].
    rewrite tally_chunk. intros Hrest.
    apply IH in Hrest as [-> ->]. cbn [fst snd concat].
    rewrite filter_app, length_app, omap_app, <- app_assoc. split; [lia | done].
Qed.

Lemma bulk_chunks_returns (chunks : list (list (string * Doc))) :
  (forall c, answers c = true) ->
  forall (acc : nat * list Failure) (es : cluster K Doc),
    exists n failed es',
      bulk_chunks verdict answers chunks acc es = (Ok (n, failed), es').
Proof.
  intros Hans. induction chunks as [| c rest IH]; intros acc es; cbn.
  - destruct acc. eauto.
  - unfold process_bulk_chunk. rewrite Hans. apply IH.
Qed.

(** The outcome of [helpers.bulk] does not depend on the chunk size. *)
Lemma bulk_outcome (chunk_size : nat) (actions : list (string * Doc))
    (es es' : cluster K Doc) (n : nat) (failed : list Failure) :
  bulk verdict answers chunk_size actions es = (Ok (n, failed), es') ->
  n = length (filter (fun a => verdict a = None) actions)
  /\ failed = omap verdict actions.
Proof.
  unfold bulk. intros Hrun.
  apply (bulk_chunks_outcome _ _ es es') in Hrun.
  by rewrite concat_chunk_actions in Hrun.
Qed.
End BulkFacts.

(** C4. Bulk outcome. Whenever a bulk submission returns, the number of
    successes plus the number of entries of the failure list is the number
    of documents submitted, whatever the chunk size; and it does return when
    every request is answered. *)
Theorem C4_bulk_outcome {K : Type} `{Countable K} {Doc Failure : Type}
    (verdict : string * Doc -> option Failure)
    (answers : list (string * Doc) -> bool)
    (chunk_size : nat) (index_name : string) (data : list Doc)
    (es : cluster K Doc) :
  (forall n failed es',
     bulk verdict answers chunk_size ((fun doc => (index_name, doc)) <$> data) es
       = (Ok (n, failed), es') ->
     n + length failed = length data)
  /\ ((forall c, answers c = true) ->
      exists n failed es',
        bulk verdict answers chunk_size ((fun doc => (index_name, doc)) <$> data) es
          = (Ok (n, failed), es')
        /\ n + length failed = length data).
Proof.
  assert (Hsum : forall n failed es',
    bulk verdict answers chunk_size ((fun doc => (index_name, doc)) <$> data) es
      = (Ok (n, failed), es') ->
    n + length failed = length data).
  { intros n failed es' Hrun.
    apply (bulk_outcome verdict answers chunk_size _ es es') in Hrun as [-> ->].
    by rewrite accepted_plus_rejected, length_fmap. }
  split; [exact Hsum |].
  intros Hans.
  destruct (bulk_chunks_returns verdict answers
              (chunk_actions chunk_size []
                 ((fun doc => (index_name, doc)) <$> data)) Hans (0, []) es)
    as (n & failed & es' & Hrun).
  exists n, failed, es'. split; [exact Hrun |]. exact (Hsum n failed es' Hrun).
Qed.

Lemma C4_bulk_outcome_witness :
  (forall n failed (es' : cluster string nat),
     bulk rejects_odd always_answers 2
       ((fun doc => ("obitos", doc)) <$> [1; 2; 3; 4; 5]) ∅ = (Ok (n, failed), es') ->
     n + length failed = 5)
  /\ ((forall c : list (string * nat), always_answers c = true) ->
      exists n failed (es' : cluster string nat),
        bulk rejects_odd always_answers 2
          ((fun doc => ("obitos", doc)) <$> [1; 2; 3; 4; 5]) ∅ = (Ok (n, failed), es')
        /\ n + length failed = 5).
Proof.
  apply (C4_bulk_outcome (K := string) rejects_odd always_answers 2 "obitos"
           [1; 2; 3; 4; 5] ∅).
Defined.

(** ** Index creation (C5) *)

Section RecreateFacts.
Context {K : Type} `{Countable K} {Doc : Type}.

(** Delete-then-create never raises, and leaves the index with the body
    given and no document. *)
Lemma recreate_ok (name : string) (b : gmap K field_mapping) (es : cluster K Doc) :
  recreate name b es
  = Ok (<[name := {| idx_properties := b; idx_docs := [] |}]> es).
Proof.
  assert (Hgone : indices_exists name (delete name es) = false).
  { unfold indices_exists, cluster in *. apply bool_decide_eq_false_2.
    rewrite lookup_delete_eq. by intros [? ?]. }
  unfold recreate, indices_delete.
  destruct (indices_exists name es) eqn:Hex; cbn [mbind result_bind].
  - unfold indices_create. rewrite Hgone.
    unfold cluster in *. by rewrite insert_delete_eq.
  - unfold indices_create. by rewrite Hex.
Qed.

Lemma exists_after_insert (name : string) (idx : index K Doc)
    (es : cluster K Doc) :
  indices_exists name (<[name := idx]> es) = true.
Proof.
  unfold indices_exists. apply bool_decide_eq_true_2.
  exists idx. unfold cluster in *. apply lookup_insert_eq.
Qed.

(** A cluster has one index of a name that it maps. *)
Lemma one_index_of_name (name : string) (idx : index K Doc) (es : cluster K Doc) :
  length (filter (fun p => p.1 = name) (map_to_list (<[name := idx]> es))) = 1.
Proof.
  unfold cluster in *.
  rewrite <- insert_delete_eq.
  rewrite (map_to_list_insert (delete name es) name idx)
    by apply lookup_delete_eq.
  rewrite filter_cons, decide_True by done. cbn. f_equal.
  apply length_zero_iff_nil, elem_of_nil_inv.
  intros [k v] [Hk Hin]%list_elem_of_filter. cbn in Hk. subst k.
  apply elem_of_map_to_list in Hin. by rewrite lookup_delete_eq in Hin.
Qed.

(** Creating twice: both calls return, and the cluster ends with exactly
    one index of the name, holding the body of the second call; the other
    indices are as before. *)
Lemma recreate_twice (name : string) (b1 b2 : gmap K field_mapping)
    (es : cluster K Doc) :
  exists es1 es2,
    recreate name b1 es = Ok es1
    /\ recreate name b2 es1 = Ok es2
    /\ es2 !! name = Some {| idx_properties := b2; idx_docs := [] |}
    /\ length (filter (fun p => p.1 = name) (map_to_list es2)) = 1
    /\ (forall other, other <> name -> es2 !! other = es !! other)
    /\ indices_exists name es1 = true
    /\ indices_create name b2 es1 = Raise (RequestError name)
    /\ (indices_exists name es = false ->
        indices_delete name es = Raise (NotFoundError name)).
Proof.
  do 2 eexists. split; [apply recreate_ok |]. split; [apply recreate_ok |].
  unfold cluster in *.
  rewrite insert_insert_eq.
  split; [apply lookup_insert_eq |].
  split; [apply one_index_of_name |].
  split; [intros other Hne; by rewrite lookup_insert_ne |].
  split; [apply exists_after_insert |].
  split; [unfold indices_create; by rewrite exists_after_insert |].
  intros Hno. unfold indices_delete. by rewrite Hno.
Qed.
End RecreateFacts.

(** C5. Index creation is idempotent. Calling the create function of a
    script twice with one name returns both times and leaves exactly one
    index of that name, with the mapping of the second call and no
    document; the other indices are untouched. The first call has left the
    index in place, so that a second creation without the deletion would be
    refused; and the deletion is run only when the index exists. *)
Theorem C5_create_index_twice :
  (forall (es : cluster (option string) DadosPop.record) (index_name : string)
          (sample1 sample2 : DadosPop.record),
     exists es1 es2,
       DadosPop.create_index es index_name sample1 = Ok es1
       /\ DadosPop.create_index es1 index_name sample2 = Ok es2
       /\ es2 !! index_name
          = Some {| idx_properties := DadosPop.build_properties sample2;
                    idx_docs := [] |}
       /\ length (filter (fun p => p.1 = index_name) (map_to_list es2)) = 1
       /\ (forall other, other <> index_name -> es2 !! other = es !! other)
       /\ indices_exists index_name es1 = true
       /\ indices_create index_name (DadosPop.build_properties sample2) es1
          = Raise (RequestError index_name)
       /\ (indices_exists index_name es = false ->
           indices_delete index_name es = Raise (NotFoundError index_name)))
  /\ (forall (es : cluster string IndexElastic.document) (index_name : string),
        exists es1 es2,
          IndexElastic.create_index es index_name = Ok es1
          /\ IndexElastic.create_index es1 index_name = Ok es2
          /\ es2 !! index_name
             = Some {| idx_properties := IndexElastic.mappings; idx_docs := [] |}
          /\ length (filter (fun p => p.1 = index_name) (map_to_list es2)) = 1
          /\ (forall other, other <> index_name -> es2 !! other = es !! other)
          /\ indices_exists index_name es1 = true
          /\ indices_create index_name IndexElastic.mappings es1
             = Raise (RequestError index_name)
          /\ (indices_exists index_name es = false ->
              indices_delete index_name es = Raise (NotFoundError index_name))).
Proof.
  split.
  - intros es index_name sample1 sample2. apply recreate_twice.
  - intros es index_name. apply recreate_twice.
Qed.

(** ** The failure file (C6) *)

Section FailureFileFacts.
Context {K : Type} `{Countable K} {Doc Failure : Type}.
Variable verdict : string * Doc -> option Failure.
Variable answers : list (string * Doc) -> bool.

(** An indexing function writes one file at most, under the name it was
    given, and only a list of failures that is not empty. *)
Lemma index_with_file (file_name : string) (guarded : bool) (chunk_size : nat)
    (es : cluster K Doc) (index_name : string) (data : list Doc)
    (f : string) (content : list Failure) :
  eff_file (index_with verdict answers file_name guarded chunk_size es
              index_name data) = Some (f, content) ->
  f = file_name /\ content <> []
  /\ content = omap verdict ((fun doc => (index_name, doc)) <$> data).
Proof.
  unfold index_with.
  destruct (bulk _ _ _ _ _) as [[e | [n failed]] es'] eqn:Hrun.
  - by destruct guarded.
  - apply (bulk_outcome verdict answers chunk_size _ es es') in Hrun as [-> ->].
    cbn [snd]. destruct (omap _ _) as [| x failed] eqn:Hfailed; [done |].
    cbn. intros [= <- <-]. done.
Qed.

(** When the engine answers and rejects a document, the file is written. *)
Lemma index_with_writes (file_name : string) (guarded : bool) (chunk_size : nat)
    (es : cluster K Doc) (index_name : string) (data : list Doc) :
  (forall c, answers c = true) ->
  omap verdict ((fun doc => (index_name, doc)) <$> data) <> [] ->
  let eff := index_with verdict answers file_name guarded chunk_size es
               index_name data in
  eff_file eff
    = Some (file_name, omap verdict ((fun doc => (index_name, doc)) <$> data))
  /\ eff_log eff
     = [LogFailed (length (omap verdict
                             ((fun doc => (index_name, doc)) <$> data)))]
  /\ eff_raised eff = None.
Proof.
  intros Hans Hfailed. unfold index_with.
  destruct (bulk_chunks_returns verdict answers
              (chunk_actions chunk_size []
                 ((fun doc => (index_name, doc)) <$> data)) Hans (0, []) es)
    as (n & failed & es' & Hrun).
  fold (bulk verdict answers chunk_size
          ((fun doc => (index_name, doc)) <$> data) es) in Hrun.
  rewrite Hrun.
  apply (bulk_outcome verdict answers chunk_size _ es es') in Hrun as [-> ->].
  cbn [snd]. destruct (omap _ _) as [| x failed]; [done |]. done.
Qed.
End FailureFileFacts.

Lemma list_ascii_of_string_app (a b : string) :
  list_ascii_of_string (a +:+ b)
  = list_ascii_of_string a ++ list_ascii_of_string b.
Proof.
  induction a as [| c a IH]; [done |].
  change (c :: list_ascii_of_string (a +:+ b)
          = c :: (list_ascii_of_string a ++ list_ascii_of_string b)).
  by rewrite IH.
Qed.

Lemma string_app_inj_r (a b s : string) : a +:+ s = b +:+ s -> a = b.
Proof.
  intros Heq. apply (f_equal list_ascii_of_string) in Heq.
  rewrite !list_ascii_of_string_app in Heq.
  apply app_inj_2 in Heq as [Heq _]; [| done].
  rewrite <- (string_of_list_ascii_of_string a),
          <- (string_of_list_ascii_of_string b).
  by rewrite Heq.
Qed.

(** The name [failed_docs_<index>.json] tells the indices apart. *)
Lemma failed_docs_name_inj (a b : string) :
  "failed_docs_" +:+ a +:+ ".json" = "failed_docs_" +:+ b +:+ ".json" -> a = b.
Proof.
  intros Heq. apply (inj (String.app "failed_docs_")) in Heq.
  by apply string_app_inj_r in Heq.
Qed.

(** The file of [index_data] in index_elastic.py has one name for all
    indices. *)
Lemma index_data_file_is_fixed {Failure : Type}
    (verdict : string * IndexElastic.document -> option Failure)
    (answers : list (string * IndexElastic.document) -> bool)
    (es : cluster string IndexElastic.document) (index_name : string)
    (data : list IndexElastic.document)
    (f : string) (content : list Failure) :
  eff_file (IndexElastic.index_data verdict answers es index_name data)
    = Some (f, content) ->
  f = "failed_docs.json".
Proof.
  intros Hfile.
  by destruct (index_with_file _ _ _ _ _ _ _ _ _ _ Hfile) as [-> _].
Qed.

(** The files of the other scripts are named after the index. *)
Lemma sibling_files_named_after_index {Failure : Type}
    (verdict : string * DadosPop.record -> option Failure)
    (answers : list (string * DadosPop.record) -> bool)
    (es : cluster (option string) DadosPop.record) (index_name : string)
    (data : list DadosPop.record)
    (f : string) (content : list Failure) :
  eff_file (DadosPop.index_csv_data verdict answers es index_name data)
    = Some (f, content) ->
  f = "failed_docs_" +:+ index_name +:+ ".json".
Proof.
  intros Hfile.
  by destruct (index_with_file _ _ _ _ _ _ _ _ _ _ Hfile) as [-> _].
Qed.

(** C6. The failure file, in index_elastic.py. A rejected document of the
    index ["obitos"] is dumped to ["failed_docs.json"], and so is one of the
    index ["estados"]: the name does not follow the convention
    [failed_docs_<index>.json] and is shared by all indices. The indexing
    functions of dadospop.py and index_estados.py do follow it. *)
Theorem C6_failure_file_of_index_data :
  eff_file (IndexElastic.index_data rejects_all always_answers ∅ "obitos"
             [unparsed_doc])
    = Some ("failed_docs.json", ["mapper_parsing_exception"])
  /\ eff_file (IndexElastic.index_data rejects_all always_answers ∅ "estados"
                [unparsed_doc])
     = Some ("failed_docs.json", ["mapper_parsing_exception"])
  /\ "failed_docs.json" <> "failed_docs_" +:+ "obitos" +:+ ".json"
  /\ eff_file (DadosPop.index_csv_data rejects_all always_answers ∅ "obitos"
                [acre])
     = Some ("failed_docs_obitos.json", ["mapper_parsing_exception"])
  /\ eff_file (Estados.index_estados_data rejects_all always_answers ∅ "estados"
                [acre_estado])
     = Some ("failed_docs_estados.json", ["mapper_parsing_exception"]).
Proof.
  repeat split; try (vm_compute; reflexivity).
  vm_compute. discriminate.
Qed.

(** ** The mapping derived from a sample (C9) *)

Section BuildPropertiesFacts.
Context {K : Type} `{Countable K}.

Lemma fold_insert_const {A : Type} (x : A) (l : list K) :
  forall (acc : gmap K A) (k : K),
    fold_left (fun properties key => <[key := x]> properties) l acc !! k
    = if decide (k ∈ l) then Some x else acc !! k.
Proof.
  induction l as [| a l IH]; intros acc k.
  - cbn. rewrite decide_False; [done | apply not_elem_of_nil].
  - cbn [fold_left]. rewrite IH.
    destruct (decide (k ∈ l)) as [Hin | Hout].
    + rewrite decide_True; [done | by apply elem_of_cons; right].
    + destruct (decide (k = a)) as [-> | Hne].
      * rewrite lookup_insert_eq.
        rewrite decide_True; [done | by apply elem_of_cons; left].
      * rewrite lookup_insert_ne by done.
        rewrite decide_False; [done |].
        by intros [? | ?]%elem_of_cons.
Qed.

Lemma list_to_map_const {A : Type} (x : A) (l : list K) (k : K) :
  (list_to_map ((fun col => (col, x)) <$> l) : gmap K A) !! k
  = if decide (k ∈ l) then Some x else None.
Proof.
  induction l as [| a l IH].
  - cbn. rewrite lookup_empty, decide_False; [done | apply not_elem_of_nil].
  - rewrite fmap_cons, list_to_map_cons.
    destruct (decide (k = a)) as [-> | Hne].
    + rewrite lookup_insert_eq.
      rewrite decide_True; [done | by apply elem_of_cons; left].
    + rewrite lookup_insert_ne by done. rewrite IH.
      destruct (decide (k ∈ l)) as [Hin | Hout].
      * rewrite decide_True; [done | by apply elem_of_cons; right].
      * rewrite decide_False; [done |]. by intros [? | ?]%elem_of_cons.
Qed.

(** [sample.keys()] are the keys that the sample maps. *)
Lemma elem_of_keys {V : Type} (sample : gmap K V) (k : K) :
  k ∈ fst <$> map_to_list sample <-> is_Some (sample !! k).
Proof.
  rewrite list_elem_of_fmap. split.
  - intros ([k' v] & -> & Hin). apply elem_of_map_to_list in Hin. by exists v.
  - intros [v Hv]. exists (k, v). split; [done |].
    by apply elem_of_map_to_list.
Qed.

(** The loop of dadospop.py gives every key of the sample, and no other,
    the text mapping. *)
Lemma build_properties_lookup {V : Type} (sample : gmap K V) (k : K) :
  DadosPop.build_properties sample !! k
  = (fun _ => DadosPop.text_with_keyword) <$> sample !! k.
Proof.
  unfold DadosPop.build_properties. rewrite fold_insert_const, lookup_empty.
  destruct (decide (k ∈ fst <$> map_to_list sample)) as [Hin | Hout].
  - apply elem_of_keys in Hin as [v ->]. done.
  - destruct (sample !! k) as [v |] eqn:Hv; [| done].
    exfalso. apply Hout, elem_of_keys. by exists v.
Qed.

(** The comprehension of indexador_streamlit.py does the same. *)
Lemma build_properties_comprehension {V : Type} (sample : gmap K V) :
  Streamlit.build_properties sample = DadosPop.build_properties sample.
Proof.
  apply map_eq. intros k. rewrite build_properties_lookup.
  unfold Streamlit.build_properties. rewrite list_to_map_const.
  destruct (decide (k ∈ fst <$> map_to_list sample)) as [Hin | Hout].
  - apply elem_of_keys in Hin as [v ->]. done.
  - destruct (sample !! k) as [v |] eqn:Hv; [| done].
    exfalso. apply Hout, elem_of_keys. by exists v.
Qed.
End BuildPropertiesFacts.

(** C9. The dynamic mapping. For a sample record, every key of the sample,
    and no other, is mapped to the type [text] with a sub-field [keyword] of
    type [keyword] that ignores values above 256. The mapping is a function
    of the keys of the sample alone: two samples with the same keys give the
    same mapping, in dadospop.py and in indexador_streamlit.py, which
    agree. *)
Theorem C9_dynamic_mapping {K V : Type} `{Countable K} (sample : gmap K V) :
  (forall k, is_Some (sample !! k) ->
     DadosPop.build_properties sample !! k = Some DadosPop.text_with_keyword)
  /\ (forall k, sample !! k = None ->
        DadosPop.build_properties sample !! k = None)
  /\ ftype DadosPop.text_with_keyword = "text"
  /\ ffields DadosPop.text_with_keyword !! "keyword"
     = Some {| sub_type := "keyword"; ignore_above := Some 256%Z |}
  /\ Streamlit.build_properties sample = DadosPop.build_properties sample
  /\ (forall (V' : Type) (sample' : gmap K V'),
        dom sample' = dom sample ->
        DadosPop.build_properties sample' = DadosPop.build_properties sample
        /\ Streamlit.build_properties sample' = Streamlit.build_properties sample).
Proof.
  split; [intros k [v Hv]; by rewrite build_properties_lookup, Hv |].
  split; [intros k Hk; by rewrite build_properties_lookup, Hk |].
  split; [reflexivity |].
  split; [reflexivity |].
  split; [apply build_properties_comprehension |].
  intros V' sample' Hdom.
  assert (Hsame : DadosPop.build_properties sample'
                  = DadosPop.build_properties sample).
  { apply map_eq. intros k. rewrite !build_properties_lookup.
    destruct (sample !! k) as [v |] eqn:Hv.
    - assert (Hk : k ∈ dom sample') by (rewrite Hdom; apply elem_of_dom; eauto).
      apply elem_of_dom in Hk as [v' ->]. done.
    - assert (Hk : k ∉ dom sample')
        by (rewrite Hdom; by apply not_elem_of_dom).
      apply not_elem_of_dom in Hk. by rewrite Hk. }
  split; [exact Hsame |].
  by rewrite !build_properties_comprehension.
Qed.

Lemma C9_dynamic_mapping_witness :
  (forall k, is_Some (acre !! k) ->
     DadosPop.build_properties acre !! k = Some DadosPop.text_with_keyword)
  /\ (forall k, acre !! k = None -> DadosPop.build_properties acre !! k = None)
  /\ ftype DadosPop.text_with_keyword = "text"
  /\ ffields DadosPop.text_with_keyword !! "keyword"
     = Some {| sub_type := "keyword"; ignore_above := Some 256%Z |}
  /\ Streamlit.build_properties acre = DadosPop.build_properties acre
  /\ (forall (V' : Type) (sample' : gmap (option string) V'),
        dom sample' = dom acre ->
        DadosPop.build_properties sample' = DadosPop.build_properties acre
        /\ Streamlit.build_properties sample' = Streamlit.build_properties acre).
Proof. apply (C9_dynamic_mapping acre). Defined.

Lemma C5_create_index_twice_witness :
  (exists es1 es2,
     DadosPop.create_index ∅ "dados_csv" acre = Ok es1
     /\ DadosPop.create_index es1 "dados_csv" acre = Ok es2
     /\ es2 !! "dados_csv"
        = Some {| idx_properties := DadosPop.build_properties acre;
                  idx_docs := [] |}
     /\ length (filter (fun p => p.1 = "dados_csv") (map_to_list es2)) = 1
     /\ (forall other, other <> "dados_csv" ->
           es2 !! other = (∅ : cluster (option string) DadosPop.record) !! other)
     /\ indices_exists "dados_csv" es1 = true
     /\ indices_create "dados_csv" (DadosPop.build_properties acre) es1
        = Raise (RequestError "dados_csv")
     /\ (indices_exists "dados_csv"
           (∅ : cluster (option string) DadosPop.record) = false ->
         indices_delete "dados_csv"
           (∅ : cluster (option string) DadosPop.record)
         = Raise (NotFoundError "dados_csv"))).
Proof.
  destruct C5_create_index_twice as [Hdados _].
  apply (Hdados ∅ "dados_csv" acre acre).
Defined.

(** * Further properties *)

(** ** The frame pipeline as a whole *)

Lemma forallb_false_witness {A : Type} (f : A -> bool) (l : list A) :
  forallb f l = false -> exists x, x ∈ l /\ f x = false.
Proof.
  induction l as [| a l IH]; cbn; [done |].
  destruct (f a) eqn:Hfa; cbn.
  - intros Hl. destruct (IH Hl) as (x & Hx & Hfx).
    exists x. split; [by apply elem_of_cons; right | done].
  - intros _. exists a. split; [by apply elem_of_cons; left | done].
Qed.

Lemma has_date_columns_false (df : DataFrame) :
  has_date_columns df = false ->
  exists c, c ∈ IndexElastic.date_columns /\ columns df !! c = None.
Proof.
  intros Hd. apply forallb_false_witness in Hd as (c & Hc & Hno).
  exists c. split; [done |].
  unfold has_column in Hno. apply bool_decide_eq_false in Hno.
  destruct (columns df !! c); [| done]. exfalso. apply Hno. eauto.
Qed.

(** The frame pipeline raises exactly when a date column is not there. *)
Lemma process_frame_raises_iff (df : DataFrame) :
  (exists docs, IndexElastic.process_frame df = Ok docs)
  <-> has_date_columns df = true.
Proof.
  split.
  - intros [docs Hrun]. destruct (has_date_columns df) eqn:Hd; [done |].
    apply has_date_columns_false in Hd as (c & Hc & Hnone).
    destruct (coerce_dates_missing _ df c Hc Hnone) as [k Hk].
    unfold IndexElastic.process_frame in Hrun. by rewrite Hk in Hrun.
  - intros Hd. destruct (process_frame_returns df Hd) as (df1 & Hrun & _).
    eauto.
Qed.

Lemma process_csv_exit_code
    (open_rb : string -> result (list Byte.byte))
    (chardet_detect : list Byte.byte -> IndexElastic.detection)
    (parse : list Byte.byte -> string -> result DataFrame)
    (file_path : string) (code : Z) :
  IndexElastic.process_csv open_rb chardet_detect parse file_path = Exited code ->
  code = 1%Z.
Proof.
  destruct (open_rb file_path) as [e | raw] eqn:Hopen.
  - rewrite (process_csv_unreadable _ _ _ _ e Hopen). by intros [= <-].
  - rewrite (process_csv_read _ _ _ _ raw Hopen).
    destruct (df ← parse raw (codec_used chardet_detect raw);
              IndexElastic.process_frame df) as [e | docs]; cbn; [| done].
    by intros [= <-].
Qed.

(** [process_csv] ends in one of two ways: it returns the records, or it
    ends the process with status 1 and no other. It returns exactly when the
    file can be read, pandas parses it under the codec of the detector, and
    the frame has the five date columns. *)
Theorem process_csv_outcome
    (open_rb : string -> result (list Byte.byte))
    (chardet_detect : list Byte.byte -> IndexElastic.detection)
    (parse : list Byte.byte -> string -> result DataFrame)
    (file_path : string) :
  (forall code,
     IndexElastic.process_csv open_rb chardet_detect parse file_path
       = Exited code -> code = 1%Z)
  /\ ((exists docs,
         IndexElastic.process_csv open_rb chardet_detect parse file_path
           = Returned docs)
      <-> exists raw df,
            open_rb file_path = Ok raw
            /\ parse raw (codec_used chardet_detect raw) = Ok df
            /\ has_date_columns df = true).
Proof.
  destruct (open_rb file_path) as [e | raw] eqn:Hopen.
  { rewrite (process_csv_unreadable _ _ _ _ e Hopen). split.
    - by intros code [= <-].
    - split; [by intros [docs [=]] | by intros (raw & df & [=] & _)]. }
  rewrite (process_csv_read _ _ _ _ raw Hopen).
  destruct (parse raw (codec_used chardet_detect raw)) as [e | df] eqn:Hparse.
  { cbn. split.
    - by intros code [= <-].
    - split; [by intros [docs [=]] |].
      intros (raw' & df & [= <-] & Hp & _). congruence. }
  assert (Hbind : (df' ← Ok df; IndexElastic.process_frame df')
                  = IndexElastic.process_frame df) by reflexivity.
  rewrite Hbind.
  destruct (IndexElastic.process_frame df) as [e | docs] eqn:Hframe; cbn.
  - split; [by intros code [= <-] |].
    split; [by intros [docs [=]] |].
    intros (raw' & df' & [= <-] & Hp & Hd).
    rewrite Hparse in Hp. injection Hp as <-.
    apply process_frame_raises_iff in Hd as [docs Hdocs]. congruence.
  - split; [done |]. split; [| eauto].
    intros _. exists raw, df. split; [done |]. split; [done |].
    apply process_frame_raises_iff. eauto.
Qed.

Lemma process_csv_outcome_witness :
  (forall code,
     IndexElastic.process_csv one_file detects_utf8 (parses_utf8_only obitos)
       "dados_obitos.csv" = Exited code -> code = 1%Z)
  /\ ((exists docs,
         IndexElastic.process_csv one_file detects_utf8 (parses_utf8_only obitos)
           "dados_obitos.csv" = Returned docs)
      <-> exists raw df,
            one_file "dados_obitos.csv" = Ok raw
            /\ parses_utf8_only obitos raw (codec_used detects_utf8 raw) = Ok df
            /\ has_date_columns df = true).
Proof.
  apply (process_csv_outcome one_file detects_utf8 (parses_utf8_only obitos)
           "dados_obitos.csv").
Defined.

(** A field of a record of the result is a field of the normalised frame. *)
Lemma field_of_process_frame (df : DataFrame) :
  has_date_columns df = true ->
  exists df1,
    nrows df1 = nrows df
    /\ (forall c, columns df1 !! c
          = if decide (c ∈ IndexElastic.date_columns)
            then (fun s : list value => to_datetime <$> s) <$> columns df !! c
            else columns df !! c)
    /\ forall i c, i < nrows df ->
         field_of (IndexElastic.process_frame df) i c
         = row_at (normalised df1) i !! c.
Proof.
  intros Hd. destruct (process_frame_returns df Hd) as (df1 & Hrun & Hn & Hcols).
  exists df1. split; [done |]. split; [done |].
  intros i c Hlt. unfold field_of. rewrite Hrun.
  assert (Hrow : to_dict_records (normalised df1) !! i
                 = Some (row_at (normalised df1) i)).
  { apply lookup_to_dict_records. by rewrite nrows_normalised, Hn. }
  unfold IndexElastic.document. by rewrite Hrow.
Qed.

Lemma is_Some_add_data_obito (df : DataFrame) (c : string) :
  is_Some (columns (IndexElastic.add_data_obito df) !! c)
  <-> c = "data_obito" \/ is_Some (columns df !! c).
Proof.
  unfold IndexElastic.add_data_obito.
  case_match; cbn; rewrite lookup_insert_is_Some';
    intuition (auto using eq_sym).
Qed.

Lemma is_Some_add_coordenadas (df : DataFrame) (c : string) :
  is_Some (columns (IndexElastic.add_coordenadas df) !! c)
  <-> is_Some (columns df !! c)
      \/ (c = "res_coordenadas"
          /\ is_Some (columns df !! "res_LATITUDE")
          /\ is_Some (columns df !! "res_LONGITUDE")).
Proof.
  unfold IndexElastic.add_coordenadas, has_column.
  destruct (bool_decide (is_Some (columns df !! "res_LATITUDE"))) eqn:Hlat;
    destruct (bool_decide (is_Some (columns df !! "res_LONGITUDE"))) eqn:Hlon;
    cbn;
    try apply bool_decide_eq_true in Hlat;
    try apply bool_decide_eq_true in Hlon;
    try apply bool_decide_eq_false in Hlat;
    try apply bool_decide_eq_false in Hlon;
    rewrite ?lookup_insert_is_Some'; intuition (auto using eq_sym).
Qed.

(** The fields of every record: the columns of the frame, [data_obito], and
    [res_coordenadas] when the frame has both source columns. All records
    of a result have the same fields. *)
Theorem record_fields (df : DataFrame) (i : nat) (c : string) :
  has_date_columns df = true ->
  i < nrows df ->
  is_Some (field_of (IndexElastic.process_frame df) i c)
  <-> is_Some (columns df !! c)
      \/ c = "data_obito"
      \/ (c = "res_coordenadas"
          /\ is_Some (columns df !! "res_LATITUDE")
          /\ is_Some (columns df !! "res_LONGITUDE")).
Proof.
  intros Hd Hlt.
  destruct (field_of_process_frame df Hd) as (df1 & Hn & Hcols & Hfield).
  rewrite Hfield by done. rewrite normalised_field, fmap_is_Some.
  rewrite is_Some_add_data_obito, is_Some_add_coordenadas.
  assert (Hsame : forall c', is_Some (columns df1 !! c')
                             <-> is_Some (columns df !! c')).
  { intros c'. rewrite Hcols. case_decide; [| done]. by rewrite fmap_is_Some. }
  rewrite !Hsame. tauto.
Qed.

Lemma record_fields_witness :
  has_date_columns obitos = true /\ 1 < nrows obitos /\
  (is_Some (field_of (IndexElastic.process_frame obitos) 1 "res_coordenadas")
   <-> is_Some (columns obitos !! "res_coordenadas")
       \/ "res_coordenadas" = "data_obito"
       \/ ("res_coordenadas" = "res_coordenadas"
           /\ is_Some (columns obitos !! "res_LATITUDE")
           /\ is_Some (columns obitos !! "res_LONGITUDE"))).
Proof.
  split; [vm_compute; reflexivity |]. split; [vm_compute; lia |].
  apply (record_fields obitos 1 "res_coordenadas");
    [vm_compute; reflexivity | vm_compute; lia].
Defined.

(** A cell of a column that is neither a date column nor overwritten by a
    derived field passes unchanged when it is a number or a text, and becomes
    [None] when it is missing. *)
Theorem other_columns_pass_through (df : DataFrame) (i : nat) (c : string)
    (s : list value) (v : value) :
  has_date_columns df = true ->
  i < nrows df ->
  c ∉ IndexElastic.date_columns -> c <> "data_obito" -> c <> "res_coordenadas" ->
  columns df !! c = Some s -> s !! i = Some v ->
  ((is_numeric v = true \/ exists t, v = VStr t) ->
   field_of (IndexElastic.process_frame df) i c = Some v)
  /\ ((v = VNone \/ v = VNaN) ->
      field_of (IndexElastic.process_frame df) i c = Some VNone).
Proof.
  intros Hd Hlt Hc H1 H2 Hs Hv.
  destruct (field_of_process_frame df Hd) as (df1 & Hn & Hcols & Hfield).
  assert (Hcell : field_of (IndexElastic.process_frame df) i c
                  = Some (final_cell v)).
  { rewrite Hfield by done.
    rewrite normalised_field, derived_columns_other, Hcols by done.
    rewrite decide_False by done. rewrite Hs. cbn. by rewrite Hv. }
  rewrite Hcell. split.
  - intros [Hnum | [t ->]]; [| done]. by destruct v.
  - by intros [-> | ->].
Qed.

Lemma other_columns_pass_through_witness :
  has_date_columns obitos = true /\ 1 < nrows obitos /\
  ("IDADE" ∉ IndexElastic.date_columns) /\ "IDADE" <> "data_obito" /\
  "IDADE" <> "res_coordenadas" /\
  columns obitos !! "IDADE" = Some [VFloat 470 0; VNaN] /\
  [VFloat 470 0; VNaN] !! 1 = Some VNaN /\
  ((is_numeric VNaN = true \/ exists t, VNaN = VStr t) ->
   field_of (IndexElastic.process_frame obitos) 1 "IDADE" = Some VNaN)
  /\ ((VNaN = VNone \/ VNaN = VNaN) ->
      field_of (IndexElastic.process_frame obitos) 1 "IDADE" = Some VNone).
Proof.
  assert (Hc : "IDADE" ∉ IndexElastic.date_columns)
    by (apply (bool_decide_unpack _); vm_compute; exact I).
  split; [vm_compute; reflexivity |]. split; [vm_compute; lia |].
  split; [exact Hc |]. split; [discriminate |]. split; [discriminate |].
  split; [vm_compute; reflexivity |]. split; [reflexivity |].
  apply (other_columns_pass_through obitos 1 "IDADE" [VFloat 470 0; VNaN] VNaN);
    [vm_compute; reflexivity | vm_compute; lia | exact Hc | discriminate
    | discriminate | vm_compute; reflexivity | reflexivity].
Defined.

(** No field of any record is a not-a-number, a not-a-time or a time stamp,
    whatever the frame holds: the empty cell of a column of numbers arrives
    as [None], and the values of the date parsing as text. (An infinite
    float is none of the three, and passes as it is.) *)
Theorem no_sentinel_in_records (df : DataFrame) (i : nat) (c : string) (v : value) :
  field_of (IndexElastic.process_frame df) i c = Some v ->
  v <> VNaN /\ v <> VNaT /\ forall t, v <> VTimestamp t.
Proof.
  unfold field_of.
  destruct (IndexElastic.process_frame df) as [e | docs] eqn:Hrun; [done |].
  destruct (docs !! i) as [doc |] eqn:Hdoc; [| done]. cbn.
  intros Hv. exact (no_sentinel_left df docs i doc c v Hrun Hdoc Hv).
Qed.

Lemma no_sentinel_in_records_witness :
  field_of (IndexElastic.process_frame obitos) 1 "IDADE" = Some VNone /\
  VNone <> VNaN /\ VNone <> VNaT /\ forall t, VNone <> VTimestamp t.
Proof.
  split; [vm_compute; reflexivity |].
  apply (no_sentinel_in_records obitos 1 "IDADE" VNone).
  vm_compute. reflexivity.
Defined.


(** ** The indexing functions *)

Section IndexingFacts.
Context {K : Type} `{Countable K} {Doc Failure : Type}.
Variable verdict : string * Doc -> option Failure.
Variable answers : list (string * Doc) -> bool.

Lemma bulk_chunks_answered (chunks : list (list (string * Doc))) :
  (forall c, answers c = true) ->
  forall (acc : nat * list Failure) (es : cluster K Doc),
    (bulk_chunks verdict answers chunks acc es).2
    = stored verdict (concat chunks) es.
Proof.
  intros Hans. induction chunks as [| c rest IH]; intros acc es; [done |].
  cbn [bulk_chunks]. unfold process_bulk_chunk. rewrite Hans, IH.
  unfold stored. cbn [concat]. by rewrite fold_left_app.
Qed.

Lemma bulk_chunks_unanswered (chunks : list (list (string * Doc))) :
  (forall c, answers c = false) -> chunks <> [] ->
  forall (acc : nat * list Failure) (es : cluster K Doc),
    bulk_chunks verdict answers chunks acc es = (Raise TransportError, es).
Proof.
  intros Hans Hne acc es. destruct chunks as [| c rest]; [done |].
  cbn [bulk_chunks]. unfold process_bulk_chunk. by rewrite Hans.
Qed.

Lemma chunk_actions_nonempty (chunk_size : nat) (actions : list (string * Doc)) :
  actions <> [] -> chunk_actions chunk_size [] actions <> [].
Proof.
  intros Hne Hnil.
  pose proof (concat_chunk_actions chunk_size actions []) as Hcat.
  rewrite Hnil in Hcat. symmetry in Hcat. exact (Hne Hcat).
Qed.

(** No exception leaves an indexing function that guards its body. *)
Lemma guarded_index_with_raises_nothing (file_name : string)
    (chunk_size : nat) (es : cluster K Doc) (index_name : string)
    (data : list Doc) :
  eff_raised (index_with verdict answers file_name true chunk_size es
                index_name data) = None.
Proof.
  unfold index_with.
  destruct (bulk _ _ _ _ _) as [[e | [n failed]] es']; [done |].
  by destruct failed.
Qed.

(** When every request is answered, an indexing function raises nothing.
    Without a rejected document it writes no file and logs the number of
    documents given; otherwise it logs the number of failures and dumps
    exactly the failures, in the order of the documents, to its file. *)
Theorem indexing_report (file_name : string) (guarded : bool)
    (chunk_size : nat) (es : cluster K Doc) (index_name : string)
    (data : list Doc) :
  (forall c, answers c = true) ->
  let failed := omap verdict ((fun doc => (index_name, doc)) <$> data) in
  let eff := index_with verdict answers file_name guarded chunk_size es
               index_name data in
  eff_raised eff = None
  /\ (failed = [] ->
      eff_file eff = None /\ eff_log eff = [LogIndexed (length data)])
  /\ (failed <> [] ->
      eff_file eff = Some (file_name, failed)
      /\ eff_log eff = [LogFailed (length failed)]).
Proof.
  intros Hans failed eff. subst failed eff. unfold index_with.
  destruct (bulk_chunks_returns verdict answers
              (chunk_actions chunk_size []
                 ((fun doc => (index_name, doc)) <$> data)) Hans (0, []) es)
    as (n & failed & es' & Hrun).
  fold (bulk verdict answers chunk_size
          ((fun doc => (index_name, doc)) <$> data) es) in Hrun.
  rewrite Hrun.
  apply (bulk_outcome verdict answers chunk_size _ es es') in Hrun as [-> ->].
  cbn [snd]. destruct (omap _ _) as [| x failed]; cbn; repeat split; done.
Qed.

(** When no request is answered, nothing is written. An indexing function
    that guards its body logs the exception and returns; one that does not
    lets it out. With no document at all no request is sent, and the
    function reports zero documents indexed. *)
Theorem indexing_without_answer (file_name : string) (guarded : bool)
    (chunk_size : nat) (es : cluster K Doc) (index_name : string)
    (data : list Doc) :
  (forall c, answers c = false) ->
  let eff := index_with verdict answers file_name guarded chunk_size es
               index_name data in
  eff_file eff = None /\ eff_cluster eff = es
  /\ (data = [] ->
      eff_raised eff = None /\ eff_log eff = [LogIndexed 0])
  /\ (data <> [] -> guarded = true ->
      eff_raised eff = None /\ eff_log eff = [LogException TransportError])
  /\ (data <> [] -> guarded = false ->
      eff_raised eff = Some TransportError /\ eff_log eff = []).
Proof.
  intros Hans eff. subst eff. unfold index_with, bulk.
  destruct data as [| doc data].
  - cbn. repeat split; done.
  - rewrite (bulk_chunks_unanswered _ Hans)
      by (by apply chunk_actions_nonempty).
    destruct guarded; cbn; repeat split; done.
Qed.
End IndexingFacts.

Lemma indexing_report_witness :
  (forall c : list (string * nat), always_answers c = true) /\
  let failed := omap rejects_odd ((fun doc => ("obitos", doc)) <$> [1; 2; 3]) in
  let eff := index_with (K := string) rejects_odd always_answers
               "failed_docs_obitos.json" true 2 ∅ "obitos" [1; 2; 3] in
  eff_raised eff = None
  /\ (failed = [] ->
      eff_file eff = None /\ eff_log eff = [LogIndexed (length [1; 2; 3])])
  /\ (failed <> [] ->
      eff_file eff = Some ("failed_docs_obitos.json", failed)
      /\ eff_log eff = [LogFailed (length failed)]).
Proof.
  split; [reflexivity |].
  apply (indexing_report (K := string) rejects_odd always_answers
           "failed_docs_obitos.json" true 2 ∅ "obitos" [1; 2; 3]).
  reflexivity.
Defined.

Lemma indexing_without_answer_witness :
  (forall c : list (string * nat), never_answers c = false) /\
  let eff := index_with (K := string) rejects_odd never_answers
               "failed_docs_obitos.json" false 2 ∅ "obitos" [1; 2; 3] in
  eff_file eff = None /\ eff_cluster eff = ∅
  /\ ([1; 2; 3] = [] ->
      eff_raised eff = None /\ eff_log eff = [LogIndexed 0])
  /\ ([1; 2; 3] <> [] -> false = true ->
      eff_raised eff = None /\ eff_log eff = [LogException TransportError])
  /\ ([1; 2; 3] <> [] -> false = false ->
      eff_raised eff = Some TransportError /\ eff_log eff = []).
Proof.
  split; [reflexivity |].
  apply (indexing_without_answer (K := string) rejects_odd never_answers
           "failed_docs_obitos.json" false 2 ∅ "obitos" [1; 2; 3]).
  reflexivity.
Defined.

(** In dadospop.py, index_estados.py and indexador_streamlit.py two failure
    files of the same name are files of the same index: the failures of
    different indices never share a file. *)
Theorem failure_files_tell_indices_apart {Failure : Type} :
  (forall (verdict : string * DadosPop.record -> option Failure) answers
          es es' a b data data' f content content',
     eff_file (DadosPop.index_csv_data verdict answers es a data)
       = Some (f, content) ->
     eff_file (DadosPop.index_csv_data verdict answers es' b data')
       = Some (f, content') ->
     a = b)
  /\ (forall (verdict : string * Estados.record -> option Failure) answers
             es es' a b data data' f content content',
        eff_file (Estados.index_estados_data verdict answers es a data)
          = Some (f, content) ->
        eff_file (Estados.index_estados_data verdict answers es' b data')
          = Some (f, content') ->
        a = b)
  /\ (forall (verdict : string * Streamlit.record -> option Failure) answers
             es es' a b data data' f content content',
        eff_file (Streamlit.index_data verdict answers es a data)
          = Some (f, content) ->
        eff_file (Streamlit.index_data verdict answers es' b data')
          = Some (f, content') ->
        a = b).
Proof.
  repeat split;
    intros verdict answers es es' a b data data' f content content' Ha Hb;
    apply index_with_file in Ha as [Hfa _];
    apply index_with_file in Hb as [Hfb _];
    apply failed_docs_name_inj; congruence.
Qed.

Lemma failure_files_tell_indices_apart_witness :
  eff_file (DadosPop.index_csv_data rejects_all always_answers ∅ "obitos" [acre])
    = Some ("failed_docs_obitos.json", ["mapper_parsing_exception"]) /\
  eff_file (DadosPop.index_csv_data rejects_all always_answers ∅ "obitos"
              [acre; acre])
    = Some ("failed_docs_obitos.json",
            ["mapper_parsing_exception"; "mapper_parsing_exception"]) /\
  "obitos" = "obitos".
Proof.
  assert (H1 : eff_file (DadosPop.index_csv_data rejects_all always_answers ∅
                           "obitos" [acre])
               = Some ("failed_docs_obitos.json", ["mapper_parsing_exception"]))
    by (vm_compute; reflexivity).
  assert (H2 : eff_file (DadosPop.index_csv_data rejects_all always_answers ∅
                           "obitos" [acre; acre])
               = Some ("failed_docs_obitos.json",
                       ["mapper_parsing_exception"; "mapper_parsing_exception"]))
    by (vm_compute; reflexivity).
  split; [exact H1 |]. split; [exact H2 |].
  destruct (failure_files_tell_indices_apart (Failure := string)) as [Hdados _].
  exact (Hdados _ _ _ _ _ _ _ _ _ _ _ H1 H2).
Defined.

(** ** Index creation in the other scripts *)

(** [create_index] of indexador_streamlit.py and [create_estados_index]
    return whatever the cluster holds, neither the delete nor the create
    being refused: the index of the name given ends with the new mapping
    and without any document, so that the documents it held are gone; the
    other indices are as before. *)
Theorem create_index_discards_documents :
  (forall (es : cluster string Streamlit.record) (index_name : string)
          (sample_record : Streamlit.record),
     exists es1,
       Streamlit.create_index es index_name sample_record = Ok es1
       /\ es1 !! index_name
          = Some {| idx_properties := Streamlit.build_properties sample_record;
                    idx_docs := [] |}
       /\ forall other, other <> index_name -> es1 !! other = es !! other)
  /\ (forall (es : cluster string Estados.record) (index_name : string),
        exists es1,
          Estados.create_estados_index es index_name = Ok es1
          /\ es1 !! index_name
             = Some {| idx_properties := Estados.mappings; idx_docs := [] |}
          /\ forall other, other <> index_name -> es1 !! other = es !! other).
Proof.
  split.
  - intros es index_name sample_record. eexists.
    split; [apply recreate_ok |]. unfold cluster in *.
    split; [apply lookup_insert_eq |].
    intros other Hne. by rewrite lookup_insert_ne.
  - intros es index_name. eexists.
    split; [apply recreate_ok |]. unfold cluster in *.
    split; [apply lookup_insert_eq |].
    intros other Hne. by rewrite lookup_insert_ne.
Qed.

Lemma create_index_discards_documents_witness :
  idx_docs <$> estados_cluster !! "estados" = Some [acre_estado] /\
  exists es1,
    Estados.create_estados_index estados_cluster "estados" = Ok es1
    /\ es1 !! "estados"
       = Some {| idx_properties := Estados.mappings; idx_docs := [] |}
    /\ forall other, other <> "estados" -> es1 !! other = estados_cluster !! other.
Proof.
  split; [vm_compute; reflexivity |].
  destruct create_index_discards_documents as [_ Hestados].
  apply (Hestados estados_cluster "estados").
Defined.

(** ** What a run leaves in the cluster *)

Section StoredFacts.
Context {K : Type} `{Countable K} {Doc Failure : Type}.
Variable verdict : string * Doc -> option Failure.
Variable answers : list (string * Doc) -> bool.

Lemma stored_cons (a : string * Doc) (actions : list (string * Doc))
    (es : cluster K Doc) :
  stored verdict (a :: actions) es
  = stored verdict actions
      (match verdict a with
       | None => store a.1 a.2 es
       | Some _ => es
       end).
Proof. reflexivity. Qed.

(** Storing the accepted documents of one index appends them, in order, to
    the documents of that index, and touches nothing else. *)
Lemma stored_same_index (index_name : string) (data : list Doc) :
  forall (es : cluster K Doc) (idx : index K Doc),
    es !! index_name = Some idx ->
    stored verdict ((fun doc => (index_name, doc)) <$> data) es
    = <[index_name :=
          {| idx_properties := idx_properties idx;
             idx_docs := idx_docs idx
                         ++ filter (fun doc => verdict (index_name, doc) = None)
                              data |}]> es.
Proof.
  unfold cluster.
  induction data as [| doc data IH]; intros es idx Hidx.
  - cbn. rewrite app_nil_r. destruct idx. cbn. symmetry. by apply insert_id.
  - rewrite fmap_cons, filter_cons, stored_cons.
    destruct (verdict (index_name, doc)) as [f |] eqn:Hv.
    + rewrite decide_False by done. by apply IH.
    + rewrite decide_True by done. unfold store, cluster. cbn [fst snd].
      rewrite Hidx.
      rewrite (IH _ _ (lookup_insert_eq _ _ _)). cbn [idx_properties idx_docs].
      by rewrite insert_insert_eq, <- app_assoc.
Qed.

(** Storing actions of one index changes that index alone. *)
Lemma stored_one_index (index_name : string) (actions : list (string * Doc)) :
  Forall (fun a => a.1 = index_name) actions ->
  forall (es : cluster K Doc) (idx : index K Doc),
    <[index_name := idx]> (stored verdict actions es) = <[index_name := idx]> es.
Proof.
  unfold cluster.
  induction 1 as [| a actions Ha _ IH]; intros es idx; [done |].
  rewrite stored_cons, IH. destruct (verdict a); [done |].
  unfold store, cluster. rewrite Ha. destruct (es !! index_name);
    by rewrite insert_insert_eq.
Qed.

(** The cluster after the loop over the chunks holds what the chunks sent
    before the first request without answer have stored. *)
Lemma bulk_chunks_cluster (chunks : list (list (string * Doc))) :
  forall (acc : nat * list Failure) (es : cluster K Doc),
    exists k, (bulk_chunks verdict answers chunks acc es).2
              = stored verdict (concat (take k chunks)) es.
Proof.
  induction chunks as [| c rest IH]; intros acc es.
  - by exists 0.
  - cbn [bulk_chunks]. unfold process_bulk_chunk.
    destruct (answers c); [| by exists 0].
    destruct (IH (fold_left tally
                    ((fun a => (bool_decide (verdict a = None), verdict a)) <$> c)
                    acc)
                 (stored verdict c es)) as [k Hk].
    exists (S k). unfold stored in *. cbn [take concat].
    by rewrite fold_left_app.
Qed.

Lemma Forall_concat_take {A : Type} (P : A -> Prop) (k : nat)
    (chunks : list (list A)) :
  Forall P (concat chunks) -> Forall P (concat (take k chunks)).
Proof.
  revert k. induction chunks as [| c rest IH]; intros k Hall.
  - by rewrite take_nil.
  - destruct k; [constructor |]. cbn in *.
    apply Forall_app in Hall as [Hc Hrest].
    apply Forall_app. split; [done | by apply IH].
Qed.

Lemma eff_cluster_index_with (file_name : string) (guarded : bool)
    (chunk_size : nat) (es : cluster K Doc) (index_name : string)
    (data : list Doc) :
  eff_cluster (index_with verdict answers file_name guarded chunk_size es
                 index_name data)
  = (bulk verdict answers chunk_size
       ((fun doc => (index_name, doc)) <$> data) es).2.
Proof.
  unfold index_with.
  destruct (bulk _ _ _ _ _) as [[e | [n failed]] es']; cbn.
  - by destruct guarded.
  - by destruct failed.
Qed.

(** The cluster that an indexing function leaves differs from the one it
    was given in the index of the name alone. *)
Lemma index_with_one_index (file_name : string) (guarded : bool)
    (chunk_size : nat) (es : cluster K Doc) (index_name : string)
    (data : list Doc) (idx : index K Doc) :
  <[index_name := idx]>
    (eff_cluster (index_with verdict answers file_name guarded chunk_size es
                    index_name data))
  = <[index_name := idx]> es.
Proof.
  rewrite eff_cluster_index_with. unfold bulk.
  destruct (bulk_chunks_cluster
              (chunk_actions chunk_size []
                 ((fun doc => (index_name, doc)) <$> data)) (0, []) es)
    as [k ->].
  apply stored_one_index, Forall_concat_take.
  rewrite concat_chunk_actions. cbn.
  apply Forall_fmap, Forall_forall. done.
Qed.

(** When every request is answered, the index ends with the documents it
    held followed by the accepted documents, in the order given. *)
Lemma index_with_stores (file_name : string) (guarded : bool)
    (chunk_size : nat) (es : cluster K Doc) (index_name : string)
    (data : list Doc) (idx : index K Doc) :
  (forall c, answers c = true) ->
  es !! index_name = Some idx ->
  eff_cluster (index_with verdict answers file_name guarded chunk_size es
                 index_name data)
  = <[index_name :=
        {| idx_properties := idx_properties idx;
           idx_docs := idx_docs idx
                       ++ filter (fun doc => verdict (index_name, doc) = None)
                            data |}]> es.
Proof.
  intros Hans Hidx.
  rewrite eff_cluster_index_with. unfold bulk.
  rewrite (bulk_chunks_answered verdict answers _ Hans).
  rewrite <- (stored_same_index index_name data es idx Hidx).
  f_equal. apply concat_chunk_actions.
Qed.
End StoredFacts.

(** ** The runs of the scripts

    The engine is taken to answer the index calls of a run ([exists],
    [delete], [create]) as [recreate] has them; whether it answers the bulk
    requests is a hypothesis where it matters. *)

Section IndexElasticMainFacts.
Context {Failure : Type}.
Variable ping : bool.
Variable open_rb : string -> result (list Byte.byte).
Variable chardet_detect : list Byte.byte -> IndexElastic.detection.
Variable parse : list Byte.byte -> string -> result DataFrame.
Variable verdict : string * IndexElastic.document -> option Failure.
Variable answers : list (string * IndexElastic.document) -> bool.

Lemma index_elastic_main_unfold (es : cluster string IndexElastic.document) :
  IndexElasticMain.main ping open_rb chardet_detect parse verdict answers es
  = if ping then
      match IndexElastic.process_csv open_rb chardet_detect parse
              "dados_obitos.csv" with
      | Exited code => stopped (emptied_obitos es) (ExitedWith code)
      | Returned data =>
          indexed (IndexElastic.index_data verdict answers (emptied_obitos es)
                     "obitos" data)
      end
    else stopped es (ExitedWith 1).
Proof.
  unfold IndexElasticMain.main, connect_elastic, IndexElastic.create_index.
  destruct ping; [| done]. by rewrite recreate_ok.
Qed.

(** A run of index_elastic.py that does not reach the indexing. When the
    cluster does not answer the ping the run ends with status 1 and leaves
    the cluster as it is. When the file cannot be processed the run ends
    with status 1 as well, but only after the index was deleted and created
    again: the index ["obitos"] is left empty, whatever it held. *)
Theorem index_elastic_main_failures (es : cluster string IndexElastic.document) :
  (ping = false ->
   IndexElasticMain.main ping open_rb chardet_detect parse verdict answers es
   = stopped es (ExitedWith 1))
  /\ (ping = true ->
      forall code,
        IndexElastic.process_csv open_rb chardet_detect parse "dados_obitos.csv"
          = Exited code ->
        IndexElasticMain.main ping open_rb chardet_detect parse verdict answers es
        = stopped (emptied_obitos es) (ExitedWith 1)).
Proof.
  rewrite index_elastic_main_unfold. split.
  - intros Hping. by rewrite Hping.
  - intros Hping code Hcsv.
    rewrite Hping, Hcsv.
    by rewrite (process_csv_exit_code open_rb chardet_detect parse
                  "dados_obitos.csv" code Hcsv).
Qed.

(** A run of index_elastic.py that reaches the end, with every request
    answered: the index ["obitos"] holds the curated mapping and exactly the
    accepted records of this run, in the order of the rows; the other
    indices are as before. *)
Theorem index_elastic_main_indexes (es : cluster string IndexElastic.document)
    (data : list IndexElastic.document) :
  ping = true ->
  IndexElastic.process_csv open_rb chardet_detect parse "dados_obitos.csv"
    = Returned data ->
  (forall c, answers c = true) ->
  run_ending (IndexElasticMain.main ping open_rb chardet_detect parse
                verdict answers es) = Finished
  /\ run_cluster (IndexElasticMain.main ping open_rb chardet_detect parse
                    verdict answers es)
     = <["obitos" :=
           {| idx_properties := IndexElastic.mappings;
              idx_docs := filter (fun doc => verdict ("obitos", doc) = None)
                            data |}]> es.
Proof.
  intros Hping Hcsv Hans. rewrite index_elastic_main_unfold, Hping, Hcsv.
  split.
  - unfold indexed, IndexElastic.index_data. cbn [run_ending].
    by rewrite guarded_index_with_raises_nothing.
  - assert (Hidx : emptied_obitos es !! "obitos"
                   = Some {| idx_properties := IndexElastic.mappings;
                             idx_docs := [] |})
      by (unfold emptied_obitos, cluster; apply lookup_insert_eq).
    unfold indexed, IndexElastic.index_data. cbn [run_cluster].
    rewrite (index_with_stores verdict answers "failed_docs.json" true
               default_chunk_size (emptied_obitos es) "obitos" data _ Hans Hidx).
    cbn [idx_properties idx_docs app]. unfold emptied_obitos, cluster.
    by rewrite insert_insert_eq.
Qed.

(** Running index_elastic.py again on the cluster that a run has left, with
    the same file and the same engine, changes nothing and ends the same
    way. *)
Lemma index_elastic_main_rerun (es : cluster string IndexElastic.document) :
  IndexElasticMain.main ping open_rb chardet_detect parse verdict answers
    (run_cluster (IndexElasticMain.main ping open_rb chardet_detect parse
                    verdict answers es))
  = IndexElasticMain.main ping open_rb chardet_detect parse verdict answers es.
Proof.
  rewrite !index_elastic_main_unfold. destruct ping; [| done].
  destruct (IndexElastic.process_csv _ _ _ _) as [data | code].
  - assert (Hsame : emptied_obitos
                      (run_cluster
                         (indexed (IndexElastic.index_data verdict answers
                                     (emptied_obitos es) "obitos" data)))
                    = emptied_obitos es).
    { change (emptied_obitos
                (eff_cluster
                   (index_with verdict answers "failed_docs.json" true
                      default_chunk_size (emptied_obitos es) "obitos" data))
              = emptied_obitos es).
      unfold emptied_obitos at 1. rewrite index_with_one_index.
      unfold emptied_obitos, cluster. by rewrite insert_insert_eq. }
    by rewrite Hsame.
  - assert (Hsame : emptied_obitos
                      (run_cluster (stopped (Failure := Failure)
                                      (emptied_obitos es) (ExitedWith code)))
                    = emptied_obitos es)
      by (cbn; unfold emptied_obitos, cluster; by rewrite insert_insert_eq).
    by rewrite Hsame.
Qed.
End IndexElasticMainFacts.

Lemma index_elastic_main_failures_witness :
  IndexElasticMain.main false one_file detects_utf8 (parses_utf8_only obitos)
    rejects_all always_answers obitos_cluster
  = stopped obitos_cluster (ExitedWith 1)
  /\ IndexElasticMain.main true one_file detects_utf8
       (parses_utf8_only obitos_without_dtrecebim) rejects_all always_answers
       obitos_cluster
     = stopped (emptied_obitos obitos_cluster) (ExitedWith 1).
Proof.
  split.
  - apply (index_elastic_main_failures false one_file detects_utf8
             (parses_utf8_only obitos) rejects_all always_answers
             obitos_cluster).
    reflexivity.
  - apply (index_elastic_main_failures true one_file detects_utf8
             (parses_utf8_only obitos_without_dtrecebim) rejects_all
             always_answers obitos_cluster) with (code := 1%Z);
      reflexivity.
Defined.

Lemma process_csv_obitos :
  IndexElastic.process_csv one_file detects_utf8 (parses_utf8_only obitos)
    "dados_obitos.csv" = Returned obitos_records.
Proof.
  rewrite (process_csv_read one_file detects_utf8 (parses_utf8_only obitos)
             "dados_obitos.csv" [Byte.x44; Byte.x54] eq_refl).
  change (parses_utf8_only obitos [Byte.x44; Byte.x54]
            (codec_used detects_utf8 [Byte.x44; Byte.x54])) with (Ok obitos).
  change (df ← Ok obitos; IndexElastic.process_frame df)
    with (IndexElastic.process_frame obitos).
  unfold obitos_records.
  destruct (proj2 (process_frame_raises_iff obitos) eq_refl) as [docs ->].
  reflexivity.
Qed.

Lemma index_elastic_main_indexes_witness :
  run_ending (IndexElasticMain.main true one_file detects_utf8
                (parses_utf8_only obitos) accepts_all always_answers
                obitos_cluster) = Finished
  /\ run_cluster (IndexElasticMain.main true one_file detects_utf8
                    (parses_utf8_only obitos) accepts_all always_answers
                    obitos_cluster)
     = <["obitos" :=
           {| idx_properties := IndexElastic.mappings;
              idx_docs := filter (fun doc => accepts_all ("obitos", doc) = None)
                            obitos_records |}]> obitos_cluster.
Proof.
  apply (index_elastic_main_indexes true one_file detects_utf8
           (parses_utf8_only obitos) accepts_all always_answers obitos_cluster
           obitos_records);
    [reflexivity | exact process_csv_obitos | reflexivity].
Defined.

Section DadosPopMainFacts.
Context {Failure : Type}.
Variable ping : bool.
Variable csv_rows : string -> result (list (list string)).
Variable verdict : string * DadosPop.record -> option Failure.
Variable answers : list (string * DadosPop.record) -> bool.

Lemma dadospop_main_unfold (es : cluster (option string) DadosPop.record) :
  DadosPopMain.main ping csv_rows verdict answers es
  = if ping then
      match csv_rows DadosPopMain.CSV_FILE_PATH with
      | Raise e => stopped es (Crashed e)
      | Ok rows =>
          match DadosPop.DictReader rows with
          | [] => warned es
          | first :: rest =>
              indexed (DadosPop.index_csv_data verdict answers
                         (emptied_dados_csv first es) "dados_csv"
                         (first :: rest))
          end
      end
    else stopped es (ExitedWith 1).
Proof.
  unfold DadosPopMain.main, connect_elastic, DadosPop.parse_csv_file,
    DadosPop.create_index.
  destruct ping; [| done].
  destruct (csv_rows _) as [e | rows]; [done |]. cbn.
  rewrite list_fmap_id.
  destruct (DadosPop.DictReader rows) as [| first rest]; [done |].
  by rewrite recreate_ok.
Qed.

(** A run of dadospop.py leaves the cluster as it is unless the file holds
    a data row: when the ping fails it ends with status 1; when the file
    cannot be read the exception is not caught and ends the run; when the
    file has no data row the run logs a warning and ends normally, and no
    index is deleted or created. *)
Theorem dadospop_main_untouched (es : cluster (option string) DadosPop.record) :
  (ping = false ->
   DadosPopMain.main ping csv_rows verdict answers es
   = stopped es (ExitedWith 1))
  /\ (ping = true -> forall e,
      csv_rows DadosPopMain.CSV_FILE_PATH = Raise e ->
      DadosPopMain.main ping csv_rows verdict answers es
      = stopped es (Crashed e))
  /\ (ping = true -> forall rows,
      csv_rows DadosPopMain.CSV_FILE_PATH = Ok rows ->
      data_rows rows = [] ->
      DadosPopMain.main ping csv_rows verdict answers es = warned es).
Proof.
  rewrite dadospop_main_unfold. split; [| split].
  - intros Hping. by rewrite Hping.
  - intros Hping e He. by rewrite Hping, He.
  - intros Hping rows Hrows Hnone. rewrite Hping, Hrows.
    unfold DadosPop.DictReader. unfold data_rows in Hnone.
    destruct rows as [| fieldnames data]; [done |].
    cbn in Hnone. by rewrite Hnone.
Qed.

(** A run of dadospop.py on a file with data rows, with every request
    answered: the index ["dados_csv"] is mapped after the fields of the
    first record alone, and holds exactly the accepted records, in the order
    of the rows. *)
Theorem dadospop_main_indexes (es : cluster (option string) DadosPop.record)
    (rows : list (list string)) (first : DadosPop.record)
    (rest : list DadosPop.record) :
  ping = true ->
  csv_rows DadosPopMain.CSV_FILE_PATH = Ok rows ->
  DadosPop.DictReader rows = first :: rest ->
  (forall c, answers c = true) ->
  run_ending (DadosPopMain.main ping csv_rows verdict answers es) = Finished
  /\ run_cluster (DadosPopMain.main ping csv_rows verdict answers es)
     = <["dados_csv" :=
           {| idx_properties := DadosPop.build_properties first;
              idx_docs := filter (fun doc => verdict ("dados_csv", doc) = None)
                            (first :: rest) |}]> es
  /\ forall k, is_Some (DadosPop.build_properties first !! k)
               <-> is_Some (first !! k).
Proof.
  intros Hping Hrows Hrecords Hans.
  rewrite dadospop_main_unfold, Hping, Hrows, Hrecords.
  split; [| split].
  - unfold indexed, DadosPop.index_csv_data. cbn [run_ending].
    by rewrite guarded_index_with_raises_nothing.
  - assert (Hidx : emptied_dados_csv first es !! "dados_csv"
                   = Some {| idx_properties := DadosPop.build_properties first;
                             idx_docs := [] |})
      by (unfold emptied_dados_csv, cluster; apply lookup_insert_eq).
    unfold indexed, DadosPop.index_csv_data. cbn [run_cluster].
    rewrite (index_with_stores verdict answers _ true default_chunk_size
               (emptied_dados_csv first es) "dados_csv" (first :: rest)
               _ Hans Hidx).
    cbn [idx_properties idx_docs app]. unfold emptied_dados_csv, cluster.
    by rewrite insert_insert_eq.
  - intros k. by rewrite build_properties_lookup, fmap_is_Some.
Qed.

(** Running dadospop.py again on the cluster that a run has left, with the
    same file and the same engine, changes nothing and ends the same way. *)
Lemma dadospop_main_rerun (es : cluster (option string) DadosPop.record) :
  DadosPopMain.main ping csv_rows verdict answers
    (run_cluster (DadosPopMain.main ping csv_rows verdict answers es))
  = DadosPopMain.main ping csv_rows verdict answers es.
Proof.
  rewrite !dadospop_main_unfold. destruct ping; [| done].
  destruct (csv_rows _) as [e | rows]; [done |].
  destruct (DadosPop.DictReader rows) as [| first rest]; [done |].
  assert (Hsame : emptied_dados_csv first
                    (run_cluster
                       (indexed (DadosPop.index_csv_data verdict answers
                                   (emptied_dados_csv first es) "dados_csv"
                                   (first :: rest))))
                  = emptied_dados_csv first es).
  { unfold indexed, DadosPop.index_csv_data. cbn [run_cluster].
    unfold emptied_dados_csv at 1. rewrite index_with_one_index.
    unfold emptied_dados_csv, cluster. by rewrite insert_insert_eq. }
  by rewrite Hsame.
Qed.
End DadosPopMainFacts.

Lemma dadospop_main_untouched_witness :
  DadosPopMain.main false estados_rows rejects_all always_answers ∅
  = stopped ∅ (ExitedWith 1)
  /\ DadosPopMain.main true no_rows rejects_all always_answers ∅
     = stopped ∅ (Crashed (FileNotFoundError "c2228.csv"))
  /\ DadosPopMain.main true header_only rejects_all always_answers ∅
     = warned ∅.
Proof.
  split; [| split].
  - apply (dadospop_main_untouched false estados_rows rejects_all
             always_answers ∅).
    reflexivity.
  - apply (dadospop_main_untouched true no_rows rejects_all always_answers ∅);
      reflexivity.
  - apply (dadospop_main_untouched true header_only rejects_all
             always_answers ∅)
      with (rows := [["COD"; "NOME"; "SIGLA"]; []]);
      reflexivity.
Defined.

Lemma dadospop_main_indexes_witness :
  run_ending (DadosPopMain.main true estados_rows accepts_all always_answers ∅)
  = Finished
  /\ run_cluster (DadosPopMain.main true estados_rows accepts_all
                    always_answers ∅)
     = <["dados_csv" :=
           {| idx_properties := DadosPop.build_properties acre;
              idx_docs := filter (fun doc => accepts_all ("dados_csv", doc) = None)
                            [acre; bahia] |}]> ∅
  /\ forall k, is_Some (DadosPop.build_properties acre !! k)
               <-> is_Some (acre !! k).
Proof.
  apply (dadospop_main_indexes true estados_rows accepts_all always_answers ∅
           [["COD"; "NOME"; "SIGLA"]; ["12"; "Acre"; "AC"]; [];
            ["29"; "Bahia"; "BA"]] acre [bahia]);
    reflexivity.
Defined.

Section IndexEstadosMainFacts.
Context {Failure : Type}.
Variable ping : bool.
Variable verdict : string * Estados.record -> option Failure.
Variable answers : list (string * Estados.record) -> bool.

Lemma index_estados_main_unfold (es : cluster string Estados.record) :
  IndexEstadosMain.main ping verdict answers es
  = if ping then
      indexed (Estados.index_estados_data verdict answers (emptied_estados es)
                 "estados"
                 (IndexEstados.parse_estados_data IndexEstados.estados_data))
    else stopped es (ExitedWith 1).
Proof.
  unfold IndexEstadosMain.main, connect_elastic, Estados.create_estados_index.
  destruct ping; [| done]. by rewrite recreate_ok.
Qed.

Lemma index_estados_main_rerun (es : cluster string Estados.record) :
  IndexEstadosMain.main ping verdict answers
    (run_cluster (IndexEstadosMain.main ping verdict answers es))
  = IndexEstadosMain.main ping verdict answers es.
Proof.
  rewrite !index_estados_main_unfold. destruct ping; [| done].
  assert (Hsame : emptied_estados
                    (run_cluster
                       (indexed (Estados.index_estados_data verdict answers
                                   (emptied_estados es) "estados"
                                   (IndexEstados.parse_estados_data
                                      IndexEstados.estados_data))))
                  = emptied_estados es).
  { unfold indexed, Estados.index_estados_data. cbn [run_cluster].
    unfold emptied_estados at 1. rewrite index_with_one_index.
    unfold emptied_estados, cluster. by rewrite insert_insert_eq. }
  by rewrite Hsame.
Qed.

(** A run of index_estados.py. When the cluster does not answer the ping
    the run ends with status 1 and leaves the cluster as it is. Otherwise,
    with every request answered, it reaches the end, and the index
    ["estados"] holds the mapping of the script and the accepted ones of
    the records of the table, in the order of its lines; the other indices
    are as before. The table gives 27 records, and the fields of each are
    those that the mapping declares. *)
Theorem index_estados_main_outcome (es : cluster string Estados.record) :
  (ping = false ->
   IndexEstadosMain.main ping verdict answers es = stopped es (ExitedWith 1))
  /\ (ping = true -> (forall c, answers c = true) ->
      run_ending (IndexEstadosMain.main ping verdict answers es) = Finished
      /\ run_cluster (IndexEstadosMain.main ping verdict answers es)
         = <["estados" :=
               {| idx_properties := Estados.mappings;
                  idx_docs :=
                    filter (fun doc => verdict ("estados", doc) = None)
                      (IndexEstados.parse_estados_data
                         IndexEstados.estados_data) |}]> es)
  /\ length (IndexEstados.parse_estados_data IndexEstados.estados_data) = 27
  /\ Forall (fun r : Estados.record => dom r = dom Estados.mappings)
        (IndexEstados.parse_estados_data IndexEstados.estados_data).
Proof.
  rewrite index_estados_main_unfold. split; [| split; [| split]].
  - intros Hping. by rewrite Hping.
  - intros Hping Hans. rewrite Hping. split.
    + unfold indexed, Estados.index_estados_data. cbn [run_ending].
      by rewrite guarded_index_with_raises_nothing.
    + assert (Hidx : emptied_estados es !! "estados"
                     = Some {| idx_properties := Estados.mappings;
                               idx_docs := [] |})
        by (unfold emptied_estados, cluster; apply lookup_insert_eq).
      unfold indexed, Estados.index_estados_data. cbn [run_cluster].
      rewrite (index_with_stores verdict answers _ true default_chunk_size
                 (emptied_estados es) "estados"
                 (IndexEstados.parse_estados_data IndexEstados.estados_data)
                 _ Hans Hidx).
      cbn [idx_properties idx_docs app]. unfold emptied_estados, cluster.
      by rewrite insert_insert_eq.
  - vm_compute. reflexivity.
  - apply (bool_decide_unpack _). vm_compute. exact I.
Qed.
End IndexEstadosMainFacts.

Lemma index_estados_main_outcome_witness :
  IndexEstadosMain.main false accepts_all always_answers estados_cluster
  = stopped estados_cluster (ExitedWith 1)
  /\ run_ending (IndexEstadosMain.main true accepts_all always_answers
                   estados_cluster) = Finished
  /\ run_cluster (IndexEstadosMain.main true accepts_all always_answers
                    estados_cluster)
     = <["estados" :=
           {| idx_properties := Estados.mappings;
              idx_docs :=
                filter (fun doc => accepts_all ("estados", doc) = None)
                  (IndexEstados.parse_estados_data
                     IndexEstados.estados_data) |}]> estados_cluster.
Proof.
  split.
  - apply (index_estados_main_outcome false accepts_all always_answers
             estados_cluster).
    reflexivity.
  - apply (index_estados_main_outcome true accepts_all always_answers
             estados_cluster);
      reflexivity.
Defined.

(** Running a script again on the cluster that a run has left, with the same
    input and the same engine, changes nothing and ends the same way: each
    run replaces the index of the script and touches no other. *)
Theorem rerun_changes_nothing {Failure : Type} :
  (forall ping open_rb chardet_detect parse
          (verdict : string * IndexElastic.document -> option Failure)
          answers es,
     IndexElasticMain.main ping open_rb chardet_detect parse verdict answers
       (run_cluster (IndexElasticMain.main ping open_rb chardet_detect parse
                       verdict answers es))
     = IndexElasticMain.main ping open_rb chardet_detect parse verdict answers es)
  /\ (forall ping csv_rows
             (verdict : string * DadosPop.record -> option Failure) answers es,
        DadosPopMain.main ping csv_rows verdict answers
          (run_cluster (DadosPopMain.main ping csv_rows verdict answers es))
        = DadosPopMain.main ping csv_rows verdict answers es)
  /\ (forall ping (verdict : string * Estados.record -> option Failure)
             answers es,
        IndexEstadosMain.main ping verdict answers
          (run_cluster (IndexEstadosMain.main ping verdict answers es))
        = IndexEstadosMain.main ping verdict answers es).
Proof.
  split; [| split].
  - intros. apply index_elastic_main_rerun.
  - intros. apply dadospop_main_rerun.
  - intros. apply index_estados_main_rerun.
Qed.

(** ** Texts *)

Lemma split_nonempty (sep : ascii) (s : string) : split sep s <> [].
Proof.
  destruct s as [| c s]; cbn; [done |].
  destruct (Ascii.eqb c sep); [done |]. by destruct (split sep s).
Qed.

(** [split] gives one piece more than there are separators. *)
Lemma length_split (sep : ascii) (s : string) :
  length (split sep s) = S (count_char sep s).
Proof.
  induction s as [| c s IH]; cbn; [done |].
  destruct (Ascii.eqb c sep); cbn; [by rewrite IH |].
  pose proof (split_nonempty sep s).
  destruct (split sep s); [done |]. cbn in *. lia.
Qed.

(** What [lstrip] returns does not begin with white space. *)
Lemma lstrip_head (s : string) (c : ascii) (t : string) :
  lstrip s = String c t -> isspace c = false.
Proof.
  induction s as [| c0 s IH]; cbn; [done |].
  destruct (isspace c0) eqn:Hc0; [done |]. by intros [= <- _].
Qed.

Lemma lstrip_fixed (s : string) :
  (forall c t, s = String c t -> isspace c = false) -> lstrip s = s.
Proof.
  destruct s as [| c s]; cbn; [done |].
  intros Hs. by rewrite (Hs c s eq_refl).
Qed.

(** [rstrip] keeps the first character of what it returns. *)
Lemma rstrip_head (s : string) (c : ascii) (t : string) :
  rstrip s = String c t -> exists t', s = String c t'.
Proof.
  destruct s as [| c0 s]; cbn; [done |].
  destruct (rstrip s); [destruct (isspace c0) |]; intros [= <- _]; eauto.
Qed.

Lemma rstrip_rstrip (s : string) : rstrip (rstrip s) = rstrip s.
Proof.
  induction s as [| c s IH]; cbn; [done |].
  destruct (rstrip s) as [| d r] eqn:Hr.
  - destruct (isspace c) eqn:Hc; cbn; [done | by rewrite Hc].
  - change (rstrip (String c (String d r))) with
      (match rstrip (String d r) with
       | EmptyString => if isspace c then EmptyString else String c EmptyString
       | r' => String c r'
       end).
    by rewrite IH.
Qed.

Lemma lstrip_rstrip (s : string) :
  lstrip s = s -> lstrip (rstrip s) = rstrip s.
Proof.
  intros Hs. destruct (rstrip s) as [| c t] eqn:Hr; [done |].
  destruct (rstrip_head s c t Hr) as [t' ->].
  apply lstrip_fixed. intros c' t'' [= <- <-].
  by apply (lstrip_head _ _ _ Hs).
Qed.

(** A stripped text has no white space left to strip at either end. *)
Lemma strip_strip (s : string) : strip (strip s) = strip s.
Proof.
  unfold strip.
  assert (Hl : lstrip (lstrip s) = lstrip s).
  { apply lstrip_fixed. intros c t Hs. by apply (lstrip_head s c t). }
  by rewrite (lstrip_rstrip _ Hl), rstrip_rstrip.
Qed.

Lemma lower_char_lower_char (c : ascii) :
  lower_char (lower_char c) = lower_char c.
Proof. by destruct c as [[] [] [] [] [] [] [] []]. Qed.

Lemma lower_lower (s : string) : lower (lower s) = lower s.
Proof.
  induction s as [| c s IH]; cbn; [done |].
  by rewrite lower_char_lower_char, IH.
Qed.

(** ** Dictionaries built from pairs *)

(** Inserting the pairs of a list whose keys are all different: every pair
    is found, and the other keys are as before. *)
Lemma fold_left_insert_lookup {A K V : Type} `{Countable K}
    (f : A -> K) (g : A -> V) (l : list A) :
  NoDup (f <$> l) ->
  forall m : gmap K V,
    (forall j x, l !! j = Some x ->
       fold_left (fun d x => <[f x := g x]> d) l m !! f x = Some (g x))
    /\ (forall k, k ∉ f <$> l ->
          fold_left (fun d x => <[f x := g x]> d) l m !! k = m !! k).
Proof.
  induction l as [| a l IH]; intros Hnd m.
  - split; [by intros j x [=] | done].
  - rewrite fmap_cons in Hnd. apply NoDup_cons in Hnd as [Ha Hnd].
    destruct (IH Hnd (<[f a := g a]> m)) as [IH1 IH2].
    cbn [fold_left]. split.
    + intros [| j] x Hx; cbn in Hx.
      * injection Hx as <-. by rewrite IH2, lookup_insert_eq.
      * by apply (IH1 j).
    + intros k Hk. rewrite fmap_cons in Hk.
      apply not_elem_of_cons in Hk as [Hne Hk].
      by rewrite IH2, lookup_insert_ne.
Qed.

Lemma NoDup_fst_zip {A B : Type} (l : list A) (k : list B) :
  NoDup l -> NoDup ((zip l k).*1).
Proof.
  intros Hnd. revert k. induction Hnd as [| x l Hx Hnd IH]; intros k.
  - constructor.
  - destruct k as [| y k]; cbn; [constructor |].
    apply NoDup_cons. split; [| apply IH].
    intros ([x' y'] & Heq & Hin)%list_elem_of_fmap. cbn in Heq. subst x'.
    by apply elem_of_zip_l in Hin.
Qed.

(** [dict(zip(keys, values))] for keys that are all different: the key at a
    position has the value at that position, when there is one, and no
    other key is there. *)
Lemma dict_zip_lookup (keys values : list string) :
  NoDup keys ->
  (forall j k, keys !! j = Some k -> dict_zip keys values !! k = values !! j)
  /\ (forall k, k ∉ keys -> dict_zip keys values !! k = None).
Proof.
  intros Hnd. unfold dict_zip.
  destruct (fold_left_insert_lookup (V := string) fst snd (zip keys values)
              (NoDup_fst_zip keys values Hnd) ∅) as [Hin Hout].
  split.
  - intros j k Hk. destruct (values !! j) as [v |] eqn:Hv.
    + apply (Hin j (k, v)). rewrite lookup_zip_with, Hk. cbn. by rewrite Hv.
    + rewrite Hout; [apply lookup_empty |].
      intros ([k' v] & Heq & Hkv)%list_elem_of_fmap. cbn in Heq. subst k'.
      apply list_elem_of_lookup in Hkv as [j' Hj'].
      rewrite lookup_zip_with in Hj'.
      destruct (keys !! j') as [k' |] eqn:Hk'; [| done]. cbn in Hj'.
      destruct (values !! j') as [v' |] eqn:Hv'; [| done]. cbn in Hj'.
      injection Hj' as <- <-.
      assert (j' = j) by (eapply NoDup_lookup; eauto). congruence.
  - intros k Hk. rewrite Hout; [apply lookup_empty |].
    intros ([k' v] & Heq & Hkv)%list_elem_of_fmap. cbn in Heq. subst k'.
    by apply elem_of_zip_l in Hkv.
Qed.

(** Lower-casing leaves white space where it is. *)
Lemma isspace_lower_char (c : ascii) : isspace (lower_char c) = isspace c.
Proof. by destruct c as [[] [] [] [] [] [] [] []]. Qed.

Lemma lstrip_lower (s : string) : lstrip (lower s) = lower (lstrip s).
Proof.
  induction s as [| c s IH]; cbn [lstrip lower]; [done |].
  rewrite isspace_lower_char. by destruct (isspace c).
Qed.

Lemma rstrip_lower (s : string) : rstrip (lower s) = lower (rstrip s).
Proof.
  induction s as [| c s IH]; cbn [rstrip lower]; [done |].
  rewrite IH, isspace_lower_char.
  destruct (rstrip s); cbn [lower]; [by destruct (isspace c) | done].
Qed.

Lemma strip_lower (s : string) : strip (lower s) = lower (strip s).
Proof. unfold strip. by rewrite lstrip_lower, rstrip_lower. Qed.

(** A pair of a dictionary built from pairs is one of the pairs. *)
Lemma fold_left_insert_elem {A K V : Type} `{Countable K}
    (f : A -> K) (g : A -> V) (l : list A) (m : gmap K V) (k : K) (v : V) :
  fold_left (fun d x => <[f x := g x]> d) l m !! k = Some v ->
  (exists x, x ∈ l /\ f x = k /\ g x = v) \/ m !! k = Some v.
Proof.
  revert m. induction l as [| a l IH]; intros m; cbn [fold_left]; [by right |].
  intros [(x & Hx & Hf & Hg) | Hm]%IH.
  - left. exists x. split; [by constructor | done].
  - destruct (decide (f a = k)) as [Hk | Hk].
    + rewrite Hk, lookup_insert_eq in Hm. injection Hm as Hv.
      left. exists a. split; [by constructor | done].
    + rewrite lookup_insert_ne in Hm by done. by right.
Qed.

Lemma dict_zip_elem (keys values : list string) (k v : string) :
  dict_zip keys values !! k = Some v -> k ∈ keys /\ v ∈ values.
Proof.
  unfold dict_zip.
  intros [([k' v'] & Hin & Hk & Hv) | Hm]%fold_left_insert_elem.
  - cbn in Hk, Hv. subst k' v'.
    split; [by apply elem_of_zip_l in Hin | by apply elem_of_zip_r in Hin].
  - by rewrite lookup_empty in Hm.
Qed.

(** ** The table of states *)

(** [parse_estados_data] gives one record for every line after the first of
    the text without the white space around it, blank lines included: as
    many records as the stripped text has newlines. *)
Theorem parse_estados_data_count (data : string) :
  length (IndexEstados.parse_estados_data data)
  = count_char "010" (strip data).
Proof.
  unfold IndexEstados.parse_estados_data.
  pose proof (length_split "010" (strip data)) as Hlen.
  destruct (split "010" (strip data)) as [| first rest]; [done |].
  rewrite length_fmap. cbn in Hlen. lia.
Qed.

(** The fields of a record of [parse_estados_data], when the names of the
    first line are all different after stripping and lower-casing: the name
    at a position has the stripped cell of the line at that position; a name
    beyond the cells of a short line is not a field, and a cell beyond the
    names is dropped. *)
Theorem parse_estados_data_fields (data first : string) (rest : list string)
    (i : nat) (line : string) :
  split "010" (strip data) = first :: rest ->
  NoDup (IndexEstados.headers_of first) ->
  rest !! i = Some line ->
  exists r,
    IndexEstados.parse_estados_data data !! i = Some r
    /\ (forall j h, IndexEstados.headers_of first !! j = Some h ->
          r !! h = strip <$> (split "," line !! j))
    /\ (forall k, k ∉ IndexEstados.headers_of first -> r !! k = None).
Proof.
  intros Hlines Hnd Hline. unfold IndexEstados.parse_estados_data.
  rewrite Hlines, list_lookup_fmap, Hline. cbn.
  exists (IndexEstados.record_of (IndexEstados.headers_of first) line).
  split; [done |]. unfold IndexEstados.record_of.
  destruct (dict_zip_lookup (IndexEstados.headers_of first)
              (strip <$> split "," line) Hnd) as [Hin Hout].
  split; [| exact Hout].
  intros j h Hh.
  etransitivity; [apply (Hin j h Hh) | apply list_lookup_fmap].
Qed.


Lemma parse_estados_data_fields_witness :
  exists r,
    IndexEstados.parse_estados_data IndexEstados.estados_data !! 6 = Some r
    /\ (forall j h, IndexEstados.headers_of "COD,NOME,SIGLA" !! j = Some h ->
          r !! h = strip <$> (split "," "12,Acre, AC" !! j))
    /\ (forall k, k ∉ IndexEstados.headers_of "COD,NOME,SIGLA" -> r !! k = None).
Proof.
  apply (parse_estados_data_fields IndexEstados.estados_data "COD,NOME,SIGLA"
           estados_lines 6 "12,Acre, AC").
  - vm_compute. reflexivity.
  - apply (bool_decide_unpack _). vm_compute. exact I.
  - vm_compute. reflexivity.
Defined.

(** Every value of a record of [parse_estados_data] is free of white space
    at both ends, and so is every field name, which has no capital letter
    either. *)
Theorem parse_estados_data_normalised (data : string) (r : Estados.record)
    (k v : string) :
  r ∈ IndexEstados.parse_estados_data data ->
  r !! k = Some v ->
  strip v = v /\ strip k = k /\ lower k = k.
Proof.
  unfold IndexEstados.parse_estados_data.
  destruct (split "010" (strip data)) as [| first rest];
    [by intros ?%elem_of_nil |].
  intros (line & -> & _)%list_elem_of_fmap.
  unfold IndexEstados.record_of, IndexEstados.headers_of.
  intros [Hk Hv]%dict_zip_elem.
  apply list_elem_of_fmap in Hk as (header & -> & _).
  apply list_elem_of_fmap in Hv as (value & -> & _).
  split; [apply strip_strip |].
  split; [by rewrite strip_lower, strip_strip | apply lower_lower].
Qed.


Lemma parse_estados_data_normalised_witness :
  acre_estado ∈ IndexEstados.parse_estados_data IndexEstados.estados_data
  /\ acre_estado !! "sigla" = Some "AC"
  /\ strip "AC" = "AC" /\ strip "sigla" = "sigla" /\ lower "sigla" = "sigla".
Proof.
  assert (Hin : acre_estado
                ∈ IndexEstados.parse_estados_data IndexEstados.estados_data).
  { apply (list_elem_of_lookup_2 _ 6). vm_compute. exact eq_refl. }
  assert (Hfield : acre_estado !! "sigla" = Some "AC")
    by (vm_compute; reflexivity).
  split; [exact Hin |]. split; [exact Hfield |].
  exact (parse_estados_data_normalised IndexEstados.estados_data acre_estado
           "sigla" "AC" Hin Hfield).
Defined.

(** ** The records of the CSV reader *)

(** The record that the reader makes of a row, for field names that are all
    different. *)
Lemma dict_row_fields (fieldnames row : list string) :
  NoDup fieldnames ->
  (forall j h, fieldnames !! j = Some h ->
     DadosPop.dict_row fieldnames row !! Some h
     = Some (from_option DadosPop.Cell DadosPop.Missing (row !! j)))
  /\ (forall h, h ∉ fieldnames ->
        DadosPop.dict_row fieldnames row !! Some h = None)
  /\ DadosPop.dict_row fieldnames row !! None
     = if (length fieldnames <? length row)%nat
       then Some (DadosPop.Extra (drop (length fieldnames) row))
       else None.
Proof.
  intros Hnd. unfold DadosPop.dict_row, DadosPop.record.
  set (keyed := fun kv : string * string => Some kv.1).
  set (cell := fun kv : string * string => DadosPop.Cell kv.2).
  assert (Hkeys : forall k, k ∈ keyed <$> zip fieldnames row ->
                    exists h, k = Some h /\ h ∈ fieldnames).
  { intros k ([h c] & -> & Hin)%list_elem_of_fmap. exists h.
    split; [done | by apply elem_of_zip_l in Hin]. }
  assert (Hzip : NoDup (keyed <$> zip fieldnames row)).
  { replace (keyed <$> zip fieldnames row)
      with (Some <$> (zip fieldnames row).*1)
      by (by rewrite <- list_fmap_compose).
    apply (NoDup_fmap_2 _), NoDup_fst_zip, Hnd. }
  destruct (fold_left_insert_lookup keyed cell (zip fieldnames row) Hzip
              (∅ : gmap (option string) DadosPop.csv_value)) as [Hin Hout].
  set (d := fold_left (fun d kv => <[keyed kv := cell kv]> d)
              (zip fieldnames row) (∅ : gmap (option string) DadosPop.csv_value)) in *.
  assert (Hcell : forall j h c, fieldnames !! j = Some h -> row !! j = Some c ->
                    d !! Some h = Some (DadosPop.Cell c)).
  { intros j h c Hh Hc. apply (Hin j (h, c)).
    rewrite lookup_zip_with, Hh. cbn. by rewrite Hc. }
  assert (Hother : forall h, h ∉ fieldnames -> d !! Some h = None).
  { intros h Hh. rewrite Hout; [apply lookup_empty |].
    intros (h' & [= <-] & Hin')%Hkeys. done. }
  assert (Hrest : d !! None = None).
  { rewrite Hout; [apply lookup_empty |]. by intros (h' & [=] & _)%Hkeys. }
  change (fold_left (fun d kv => <[Some kv.1 := DadosPop.Cell kv.2]> d)
            (zip fieldnames row) ∅) with d.
  destruct (length fieldnames <? length row)%nat eqn:Hlen.
  - apply Nat.ltb_lt in Hlen. split; [| split].
    + intros j h Hh. rewrite lookup_insert_ne by done.
      destruct (row !! j) as [c |] eqn:Hc; [by apply (Hcell j) |].
      apply lookup_ge_None in Hc. apply lookup_lt_Some in Hh. lia.
    + intros h Hh. rewrite lookup_insert_ne by done. by apply Hother.
    + apply lookup_insert_eq.
  - apply Nat.ltb_ge in Hlen.
    assert (Hdrop : NoDup (Some <$> drop (length row) fieldnames)).
    { apply (NoDup_fmap_2 _). rewrite <- (take_drop (length row) fieldnames) in Hnd.
      by apply NoDup_app in Hnd as (_ & _ & Hnd). }
    destruct (fold_left_insert_lookup Some (fun _ : string => DadosPop.Missing)
                (drop (length row) fieldnames) Hdrop d) as [Hin' Hout'].
    split; [| split].
    + intros j h Hh. destruct (row !! j) as [c |] eqn:Hc; cbn.
      * rewrite Hout'; [by apply (Hcell j) |].
        intros (h' & [= <-] & Hd)%list_elem_of_fmap.
        apply list_elem_of_lookup in Hd as [j' Hj'].
        rewrite lookup_drop in Hj'.
        assert (length row + j' = j)
          by (eapply (NoDup_lookup fieldnames); [exact Hnd | exact Hj' | exact Hh]).
        apply lookup_lt_Some in Hc. lia.
      * apply lookup_ge_None in Hc.
        apply (Hin' (j - length row) h). rewrite lookup_drop.
        rewrite <- Hh. f_equal. lia.
    + intros h Hh. rewrite Hout'; [by apply Hother |].
      intros (h' & [= <-] & Hd)%list_elem_of_fmap.
      apply Hh. rewrite <- (take_drop (length row) fieldnames).
      apply elem_of_app. by right.
    + rewrite Hout'; [done |]. by intros (h' & [=] & _)%list_elem_of_fmap.
Qed.

(** The fields of a record of [parse_csv_file], when the names of the
    header are all different: the name at a position has the cell of the row
    at that position, or the missing value when the row is too short; no
    other name is a field; and the cells beyond the names, when there are
    any, stand together under the key that is not a name. *)
Theorem parse_csv_file_fields
    (csv_rows : string -> result (list (list string))) (filepath : string)
    (fieldnames : list string) (data : list (list string))
    (i : nat) (row : list string) :
  csv_rows filepath = Ok (fieldnames :: data) ->
  NoDup fieldnames ->
  data_rows (fieldnames :: data) !! i = Some row ->
  exists records r,
    DadosPop.parse_csv_file csv_rows filepath = Ok records
    /\ records !! i = Some r
    /\ (forall j h, fieldnames !! j = Some h ->
          r !! Some h
          = Some (from_option DadosPop.Cell DadosPop.Missing (row !! j)))
    /\ (forall h, h ∉ fieldnames -> r !! Some h = None)
    /\ r !! None
       = if (length fieldnames <? length row)%nat
         then Some (DadosPop.Extra (drop (length fieldnames) row))
         else None.
Proof.
  intros Hrows Hnd Hrow.
  unfold DadosPop.parse_csv_file. rewrite Hrows. cbn.
  rewrite list_fmap_id. unfold data_rows in Hrow. cbn in Hrow.
  exists (DadosPop.dict_row fieldnames <$>
            filter (fun row => DadosPop.is_blank row = false) data),
         (DadosPop.dict_row fieldnames row).
  split; [done |]. split; [by rewrite list_lookup_fmap, Hrow |].
  by apply dict_row_fields.
Qed.

Lemma parse_csv_file_fields_witness :
  exists records r,
    DadosPop.parse_csv_file ragged_rows "c2228.csv" = Ok records
    /\ records !! 0 = Some r
    /\ (forall j h, ["COD"; "NOME"; "SIGLA"] !! j = Some h ->
          r !! Some h
          = Some (from_option DadosPop.Cell DadosPop.Missing
                    (["12"; "Acre"] !! j)))
    /\ (forall h, h ∉ ["COD"; "NOME"; "SIGLA"] -> r !! Some h = None)
    /\ r !! None
       = if (length ["COD"; "NOME"; "SIGLA"] <? length ["12"; "Acre"])%nat
         then Some (DadosPop.Extra (drop (length ["COD"; "NOME"; "SIGLA"])
                                     ["12"; "Acre"]))
         else None.
Proof.
  apply (parse_csv_file_fields ragged_rows "c2228.csv" ["COD"; "NOME"; "SIGLA"]
           [["12"; "Acre"]; ["29"; "Bahia"; "BA"; "NE"]] 0 ["12"; "Acre"]).
  - reflexivity.
  - apply (bool_decide_unpack _). vm_compute. exact I.
  - reflexivity.
Defined.
